(** * EduAI Companion: the grading pipeline

    A shallow embedding of the grading code of the backend:
    - [routers/quizzes.py]: the quiz grader of [submit_quiz_attempt];
    - [ollama_service.py]: the five generation functions, each with the
      block that extracts a JSON object from the reply of the model;
    - [routers/assignments.py]: [submit_assignment], the background task
      [grade_submission_task] and [grade_submission_manual].

    Conventions of the model.
    - Python values that come out of [json.loads] or go into a JSON column
      are the type [value]; a Python [float] or [int] is an exact rational:
      the rounding of binary floating point and its overflow to [inf] are
      not modelled, and a statement about a computed number is made for
      numbers in the range where the code computes without overflow.
    - A Python [str] is a [string] of ASCII characters.
    - A call that may raise returns an [exc]; [try]/[except] is
      [try_except].
    - [json.loads], [json.dumps] and [str()] on a value are library code:
      the definitions take them from the class [PyRuntime].  A small
      instance, [mini_runtime], is given to run the definitions on concrete
      replies. *)

From Stdlib Require Import ZArith QArith Lqa Ascii String List Lia DecimalString.
From stdpp Require Import base option gmap strings relations.

Set Warnings "-register-all".
Open Scope string_scope.

(** ** Python strings *)

Module PyStr.

(** [str.isspace] on an ASCII character: tab, newline, vertical tab, form
    feed, carriage return, the four separators 28..31 and the space. *)
Definition is_space (c : ascii) : bool :=
  let n := nat_of_ascii c in
  ((9 <=? n)%nat && (n <=? 13)%nat) || ((28 <=? n)%nat && (n <=? 32)%nat).

Fixpoint lstrip (s : string) : string :=
  match s with
  | EmptyString => EmptyString
  | String c s' => if is_space c then lstrip s' else s
  end.

Fixpoint rstrip (s : string) : string :=
  match s with
  | EmptyString => EmptyString
  | String c s' =>
      match rstrip s' with
      | EmptyString => if is_space c then EmptyString else String c EmptyString
      | r => String c r
      end
  end.

(** [s.strip()] *)
Definition strip (s : string) : string := rstrip (lstrip s).

Definition lower_char (c : ascii) : ascii :=
  let n := nat_of_ascii c in
  if ((65 <=? n)%nat && (n <=? 90)%nat) then ascii_of_nat (n + 32) else c.

(** [s.lower()] *)
Fixpoint lower (s : string) : string :=
  match s with
  | EmptyString => EmptyString
  | String c s' => String (lower_char c) (lower s')
  end.

(** [needle in hay] *)
Fixpoint contains (needle hay : string) : bool :=
  String.prefix needle hay ||
  match hay with
  | EmptyString => false
  | String _ hay' => contains needle hay'
  end.

(** [bool(s)]: a string is true when it is not empty. *)
Definition nonempty (s : string) : bool :=
  match s with EmptyString => false | _ => true end.

Fixpoint find_from (c : ascii) (s : string) (i : Z) : Z :=
  match s with
  | EmptyString => (-1)%Z
  | String a s' => if Ascii.eqb a c then i else find_from c s' (i + 1)%Z
  end.

(** [s.find(c)]: the index of the first [c], or -1. *)
Definition find (c : ascii) (s : string) : Z := find_from c s 0.

Fixpoint rfind_from (c : ascii) (s : string) (i last : Z) : Z :=
  match s with
  | EmptyString => last
  | String a s' => rfind_from c s' (i + 1)%Z (if Ascii.eqb a c then i else last)
  end.

(** [s.rfind(c)]: the index of the last [c], or -1. *)
Definition rfind (c : ascii) (s : string) : Z := rfind_from c s 0 (-1).

(** A slice bound as Python adjusts it: a negative index counts from the
    end, and the result is clipped to [0 .. len]. *)
Definition clip (len i : Z) : Z :=
  if (i <? 0)%Z then Z.max 0 (i + len) else Z.min i len.

(** [s[i:j]] *)
Definition slice (s : string) (i j : Z) : string :=
  let len := Z.of_nat (String.length s) in
  let a := clip len i in
  let b := clip len j in
  if (a <? b)%Z then substring (Z.to_nat a) (Z.to_nat (b - a)) s else EmptyString.

(** [str(n)] for an [int]. *)
Definition of_Z (n : Z) : string := NilEmpty.string_of_int (Z.to_int n).
Definition of_nat (n : nat) : string := NilEmpty.string_of_uint (Nat.to_uint n).

(** [s.split(',')] *)
Fixpoint split_comma_acc (s cur : string) : list string :=
  match s with
  | EmptyString => [cur]
  | String c s' =>
      if Ascii.eqb c ","%char then cur :: split_comma_acc s' EmptyString
      else split_comma_acc s' (cur +:+ String c EmptyString)
  end.
Definition split_comma (s : string) : list string := split_comma_acc s EmptyString.

(** [sep.join(l)] on a list of strings. *)
Definition join (sep : string) (l : list string) : string := String.concat sep l.

(** [len(s) < n] *)
Definition shorter_than (s : string) (n : nat) : bool := (String.length s <? n)%nat.

(** The newline and the double quote, for texts that hold one. *)
Definition nl : string := String "010"%char EmptyString.
Definition dq : string := String "034"%char EmptyString.

End PyStr.

(** ** Exceptions *)

Inductive exn : Type :=
| JSONDecodeError (msg : string)
| ValueError (msg : string)
| KeyError (key : string)
| TypeError
| AttributeError
| CommunicationError (msg : string)   (* the [Exception] of [_generate] *)
| DatabaseError
| HTTPException (status : Z) (detail : string).

Inductive exc (A : Type) : Type :=
| Ok (a : A)
| Raise (e : exn).
Arguments Ok {A} a.
Arguments Raise {A} e.

#[global] Instance exc_ret : MRet exc := fun A a => Ok a.
#[global] Instance exc_bind : MBind exc := fun A B k m =>
  match m with
  | Ok a => k a
  | Raise e => Raise e
  end.

(** [try: body except <handled>: handler]: an exception that [handled]
    does not select goes on to the caller. *)
Definition try_except {A} (body : exc A) (handled : exn -> bool)
    (handler : exn -> exc A) : exc A :=
  match body with
  | Ok a => Ok a
  | Raise e => if handled e then handler e else Raise e
  end.

(** [except (json.JSONDecodeError, ValueError)]; [JSONDecodeError] is a
    subclass of [ValueError]. *)
Definition json_or_value_error (e : exn) : bool :=
  match e with
  | JSONDecodeError _ | ValueError _ => true
  | _ => false
  end.

(** [str(e)]; the text of a [TypeError] or an [AttributeError] is not
    modelled. *)
Definition exn_str (e : exn) : string :=
  match e with
  | JSONDecodeError msg => msg
  | ValueError msg => msg
  | KeyError key => "'" +:+ key +:+ "'"
  | TypeError => "TypeError"
  | AttributeError => "AttributeError"
  | CommunicationError msg => msg
  | DatabaseError => "DatabaseError"
  | HTTPException status detail => detail
  end.

(** [except Exception] *)
Definition any_exception (e : exn) : bool := true.

Fixpoint mapM {A B} (f : A -> exc B) (l : list A) : exc (list B) :=
  match l with
  | [] => Ok []
  | x :: l' => y ← f x; ys ← mapM f l'; Ok (y :: ys)
  end.

(** ** Python values *)

Inductive value : Type :=
| VNone
| VBool (b : bool)
| VNum (q : Q)
| VStr (s : string)
| VList (items : list value)
| VDict (fields : list (string * value)).

(** A [dict] with [str] keys, in insertion order. *)
Definition pydict : Type := list (string * value).

Fixpoint dict_lookup (d : pydict) (k : string) : option value :=
  match d with
  | [] => None
  | (k', v) :: d' => if String.eqb k' k then Some v else dict_lookup d' k
  end.

(** [d.get(k, default)] *)
Definition dict_get (d : pydict) (k : string) (default : value) : value :=
  match dict_lookup d k with
  | Some v => v
  | None => default
  end.

(** [d[k]] *)
Definition dict_item (d : pydict) (k : string) : exc value :=
  match dict_lookup d k with
  | Some v => Ok v
  | None => Raise (KeyError k)
  end.

(** [d[k] = v]: an existing key keeps its place. *)
Fixpoint dict_set (d : pydict) (k : string) (v : value) : pydict :=
  match d with
  | [] => [(k, v)]
  | (k', v') :: d' =>
      if String.eqb k' k then (k', v) :: d' else (k', v') :: dict_set d' k v
  end.

(** [bool(v)] *)
Definition truthy (v : value) : bool :=
  match v with
  | VNone => false
  | VBool b => b
  | VNum q => negb (Qeq_bool q 0)
  | VStr s => PyStr.nonempty s
  | VList l => match l with [] => false | _ => true end
  | VDict d => match d with [] => false | _ => true end
  end.

(** [v.get(k, default)]: only a [dict] has the method. *)
Definition py_get (v : value) (k : string) (default : value) : exc value :=
  match v with
  | VDict d => Ok (dict_get d k default)
  | _ => Raise AttributeError
  end.

(** [v[k]] with a [str] key. *)
Definition py_item (v : value) (k : string) : exc value :=
  match v with
  | VDict d => dict_item d k
  | _ => Raise TypeError
  end.

(** [for x in v]: a list gives its items, a string its characters, a dict
    its keys. *)
Fixpoint chars (s : string) : list value :=
  match s with
  | EmptyString => []
  | String c s' => VStr (String c EmptyString) :: chars s'
  end.

Definition py_iter (v : value) : exc (list value) :=
  match v with
  | VList l => Ok l
  | VStr s => Ok (chars s)
  | VDict d => Ok (map (fun kv => VStr (fst kv)) d)
  | _ => Raise TypeError
  end.

(** A value used as a number: [True] is 1 and [False] is 0. *)
Definition as_number (v : value) : exc Q :=
  match v with
  | VNum q => Ok q
  | VBool b => Ok (if b then 1%Q else 0%Q)
  | _ => Raise TypeError
  end.

(** A value on which a [str] method is called. *)
Definition as_str (v : value) : exc string :=
  match v with
  | VStr s => Ok s
  | _ => Raise AttributeError
  end.

(** [v == s] for a string literal [s]. *)
Definition eq_str (v : value) (s : string) : bool :=
  match v with
  | VStr s' => String.eqb s' s
  | _ => false
  end.

(** [sep.join(l)]: every item has to be a [str]. *)
Definition py_join (sep : string) (l : list value) : exc string :=
  parts ← mapM (fun v => match v with VStr s => Ok s | _ => Raise TypeError end) l;
  Ok (PyStr.join sep parts).

(** A key of a Python [dict]: an [int] and a [str] are never equal. *)
Inductive pykey : Type :=
| KInt (n : Z)
| KStr (s : string).

Definition pykey_eqb (a b : pykey) : bool :=
  match a, b with
  | KInt m, KInt n => Z.eqb m n
  | KStr s, KStr t => String.eqb s t
  | _, _ => false
  end.

Fixpoint key_get {V} (d : list (pykey * V)) (k : pykey) (default : V) : V :=
  match d with
  | [] => default
  | (k', v) :: d' => if pykey_eqb k' k then v else key_get d' k default
  end.

(** ** The quiz grader ([routers/quizzes.py]) *)

(** [QuizAttemptCreate]: [answers] is declared [Dict[int, str]]. *)
Record QuizAttemptCreate : Type := {
  qa_quiz_id : Z;
  qa_student_id : Z;
  qa_answers : list (Z * string)
}.

(** The keys of [attempt.answers] as Python sees them. *)
Definition int_keyed (answers : list (Z * string)) : list (pykey * string) :=
  map (fun kv => (KInt (fst kv), snd kv)) answers.

Module Quiz.

(** The running totals of the loop: [total_points] and [earned_points],
    as exact rationals.  The code adds Python numbers: the model stands for
    it while the total stays within [QuizTypes.exact_total_limit]. *)
Definition totals : Type := (Q * Q)%type.

(** One turn of [for idx, question in enumerate(questions)]. *)
Definition grade_question (answers : list (pykey * string)) (acc : totals)
    (idx : nat) (question : value) : exc totals :=
  let '(total_points, earned_points) := acc in
  pts ← py_get question "points" (VNum 1);
  p ← as_number pts;
  let total_points := (total_points + p)%Q in
  let student_answer :=
    PyStr.lower (PyStr.strip (key_get answers (KStr (PyStr.of_nat idx)) EmptyString)) in
  ca ← py_get question "correct_answer" (VStr EmptyString);
  cs ← as_str ca;
  let correct_answer := PyStr.lower (PyStr.strip cs) in
  qt ← py_get question "question_type" VNone;
  if eq_str qt "multiple_choice" || eq_str qt "true_false" then
    if String.eqb student_answer correct_answer
    then Ok (total_points, (earned_points + p)%Q)
    else Ok (total_points, earned_points)
  else
    if PyStr.nonempty student_answer && PyStr.nonempty correct_answer
       && PyStr.contains student_answer correct_answer
    then Ok (total_points, (earned_points + p)%Q)
    else Ok (total_points, earned_points).

Fixpoint grade_loop (answers : list (pykey * string)) (acc : totals)
    (idx : nat) (questions : list value) : exc totals :=
  match questions with
  | [] => Ok acc
  | question :: rest =>
      acc' ← grade_question answers acc idx question;
      grade_loop answers acc' (S idx) rest
  end.

(** [(earned_points / total_points * 100) if total_points > 0 else 0] *)
Definition percentage_score (acc : totals) : Q :=
  let '(total_points, earned_points) := acc in
  if Qlt_le_dec 0 total_points then (earned_points / total_points * 100)%Q else 0%Q.

(** Lines 92-113 of [submit_quiz_attempt], on any dict of answers. *)
Definition grade (questions : value) (answers : list (pykey * string)) : exc Q :=
  qs ← py_iter questions;
  acc ← grade_loop answers (0%Q, 0%Q) 0 qs;
  Ok (percentage_score acc).

(** The score [submit_quiz_attempt] computes for a request. *)
Definition score_of_attempt (questions : value) (attempt : QuizAttemptCreate) : exc Q :=
  grade questions (int_keyed (qa_answers attempt)).

End Quiz.

(** ** The inference client and the extractors ([ollama_service.py]) *)

(** Library functions the service calls. *)
Class PyRuntime : Type := {
  (** [json.loads]: the parsed value, or the exception it raises.  That is
      [JSONDecodeError] on a text that is not JSON; CPython also raises
      [RecursionError] on a text nested deeper than its recursion limit,
      which is no [ValueError]. *)
  json_loads : string -> exc value;
  (** [json.dumps(v, indent=2)] *)
  json_dumps : value -> string;
  (** [str(v)], as an f-string formats [v]. *)
  py_str : value -> string;
  (** pydantic's check of [GradeSubmissionResponse(score: float,
      feedback: str, rubric_scores: Dict[str, Any])]. *)
  response_valid : value -> value -> value -> bool
}.

(** A prompt is one of the five templates with the texts spliced into it;
    the fixed text of a template and its system prompt are not spelled
    out. *)
Inductive Prompt : Type :=
| EssayPrompt (rubric_str essay max_points : string)
| LessonPlanPrompt (topic grade_level duration objectives_str : string)
| QuizPrompt (num_questions topic difficulty : string)
| AssignmentPrompt (num_questions question_type topic description : string)
| AnswerSheetPrompt (questions_text answer_sheet max_points : string).

(** What the HTTP call to the backend comes back with. *)
Inductive GenerationResult : Type :=
| RawText (text : string)
| CommunicationFailure (cause : string).

(** The inference backend: a reply for every prompt. *)
Definition Backend : Type := Prompt -> GenerationResult.

Module OllamaService.
Section Service.
Context {rt : PyRuntime}.
Variable backend : Backend.

Definition _generate (prompt : Prompt) : exc string :=
  match backend prompt with
  | RawText text => Ok text
  | CommunicationFailure cause =>
      Raise (CommunicationError ("Error communicating with Ollama: " +:+ cause))
  end.

(** [response[response.find('{') : response.rfind('}') + 1]] *)
Definition json_span (response : string) : string :=
  let json_start := PyStr.find "{" response in
  let json_end := (PyStr.rfind "}" response + 1)%Z in
  PyStr.slice response json_start json_end.

(** *** grade_essay *)

Definition essay_fallback (response : string) (max_points : Q) : pydict :=
  [ ("score", VNum (max_points * 0.75));
    ("feedback", VStr response);
    ("rubric_scores", VDict []);
    ("strengths", VList []);
    ("areas_for_improvement", VList []) ].

(** The [try] block of [grade_essay]. *)
Definition essay_parse (response : string) (max_points : Q) : exc pydict :=
  result ← json_loads (json_span response);
  score ← py_get result "overall_score" (VNum (max_points * 0.7));
  feedback ← py_get result "detailed_feedback" (VStr "Good work! Keep improving.");
  rubric_scores ← py_get result "rubric_scores" (VDict []);
  strengths ← py_get result "strengths" (VList []);
  areas ← py_get result "areas_for_improvement" (VList []);
  Ok [ ("score", score);
       ("feedback", feedback);
       ("rubric_scores", rubric_scores);
       ("strengths", strengths);
       ("areas_for_improvement", areas) ].

(** Lines 89-111: the extractor of essay grading. *)
Definition essay_extract (response : string) (max_points : Q) : exc pydict :=
  try_except (essay_parse response max_points) json_or_value_error
    (fun _ => Ok (essay_fallback response max_points)).

Definition grade_essay (essay : string) (rubric : value) (max_points : Q)
    : exc pydict :=
  let rubric_str := if truthy rubric then json_dumps rubric else "Standard essay rubric" in
  response ← _generate (EssayPrompt rubric_str essay (py_str (VNum max_points)));
  essay_extract response max_points.

(** *** generate_lesson_plan *)

Definition str_list (l : list string) : value := VList (map VStr l).

Definition lesson_plan_fallback (response topic : string)
    (learning_objectives : option (list string)) : pydict :=
  [ ("title", VStr ("Lesson: " +:+ topic));
    ("objectives",
       match learning_objectives with
       | Some (o :: os) => str_list (o :: os)
       | _ => str_list ["Understand " +:+ topic]
       end);
    ("materials", str_list ["Textbook"; "Whiteboard"; "Handouts"]);
    ("activities",
       VList [ VDict [ ("name", VStr "Introduction");
                       ("duration", VNum 10);
                       ("description", VStr ("Introduce " +:+ topic));
                       ("type", VStr "warmup") ] ]);
    ("content",
       VStr (if PyStr.shorter_than response 500 then response else "Lesson plan content"));
    ("standards_aligned", VList []);
    ("differentiation", VStr "Provide support as needed");
    ("assessment", VStr "Exit ticket") ].

(** [[m.strip() for m in materials_str.split(',') if m.strip()]] *)
Definition split_materials (materials_str : string) : value :=
  str_list (filter (fun m => PyStr.nonempty m)
              (map PyStr.strip (PyStr.split_comma materials_str))).

(** The [try] block of [generate_lesson_plan]. *)
Definition lesson_plan_parse (response : string) : exc pydict :=
  let json_start := PyStr.find "{" response in
  let json_end := (PyStr.rfind "}" response + 1)%Z in
  if (json_start =? -1)%Z || (json_end =? 0)%Z then
    Raise (ValueError "No JSON found in response")
  else
    let json_str := PyStr.strip (PyStr.slice response json_start json_end) in
    result ← json_loads json_str;
    match result with
    | VDict d =>
        match dict_lookup d "materials" with
        | Some (VStr materials_str) =>
            Ok (dict_set d "materials" (split_materials materials_str))
        | _ => Ok d
        end
    | _ => Raise (ValueError "Invalid response format")
    end.

(** Lines 169-216; the first component is what the [except] block
    prints. *)
Definition lesson_plan_extract (response topic : string)
    (learning_objectives : option (list string)) : list string * exc pydict :=
  match lesson_plan_parse response with
  | Ok d => ([], Ok d)
  | Raise e =>
      if json_or_value_error e then
        ([ "Error parsing lesson plan JSON: " +:+ exn_str e;
           "Response was: " +:+ PyStr.slice response 0 500 +:+ "..." ],
         Ok (lesson_plan_fallback response topic learning_objectives))
      else ([], Raise e)
  end.

Definition generate_lesson_plan (topic grade_level : string) (duration : Z)
    (learning_objectives : option (list string)) : list string * exc pydict :=
  let objectives_str :=
    match learning_objectives with
    | Some (o :: os) => PyStr.join PyStr.nl (o :: os)
    | _ => "Create appropriate objectives"
    end in
  match _generate (LessonPlanPrompt topic grade_level (PyStr.of_Z duration) objectives_str) with
  | Ok response => lesson_plan_extract response topic learning_objectives
  | Raise e => ([], Raise e)
  end.

(** *** generate_quiz *)

Definition quiz_fallback (topic : string) : value :=
  VList [ VDict [ ("question", VStr ("Question about " +:+ topic));
                  ("question_type", VStr "short_answer");
                  ("options", VList []);
                  ("correct_answer", VStr "Sample answer");
                  ("explanation", VStr "Explanation");
                  ("points", VNum 1) ] ].

(** The [try] block shared by [generate_quiz] and
    [generate_assignment_questions]. *)
Definition questions_parse (response : string) : exc value :=
  result ← json_loads (json_span response);
  py_get result "questions" (VList []).

Definition quiz_extract (response topic : string) : exc value :=
  try_except (questions_parse response) json_or_value_error
    (fun _ => Ok (quiz_fallback topic)).

Definition generate_quiz (topic : string) (num_questions : Z) (difficulty : string)
    : exc value :=
  response ← _generate (QuizPrompt (PyStr.of_Z num_questions) topic difficulty);
  quiz_extract response topic.

(** *** generate_assignment_questions *)

(** [range(n)] *)
Definition range (n : Z) : list Z := map Z.of_nat (seq 0 (Z.to_nat n)).

Definition assignment_fallback (topic : string) (num_questions : Z) : value :=
  VList (map (fun i : Z =>
    VDict [ ("question_number", VNum (inject_Z (i + 1)));
            ("question_text",
               VStr ("Question " +:+ PyStr.of_Z (i + 1) +:+ " about " +:+ topic));
            ("model_answer", VStr "Model answer");
            ("key_points", str_list ["Key point"]);
            ("points", VNum 10) ]) (range num_questions)).

Definition assignment_extract (response topic : string) (num_questions : Z)
    : exc value :=
  try_except (questions_parse response) json_or_value_error
    (fun _ => Ok (assignment_fallback topic num_questions)).

Definition generate_assignment_questions (topic description : string)
    (num_questions : Z) (question_type : string) : exc value :=
  response ← _generate
    (AssignmentPrompt (PyStr.of_Z num_questions) question_type topic description);
  assignment_extract response topic num_questions.

(** *** parse_and_grade_answer_sheet *)

(** The text of one question in the prompt. *)
Definition question_text (q : value) : exc string :=
  number ← py_item q "question_number";
  text ← py_item q "question_text";
  answer ← py_item q "model_answer";
  key_points ← py_get q "key_points" (VList []);
  kps ← py_iter key_points;
  joined ← py_join ", " kps;
  points ← py_get q "points" (VNum 10);
  Ok ("Question " +:+ py_str number +:+ ": " +:+ py_str text +:+ PyStr.nl +:+
      "Model Answer: " +:+ py_str answer +:+ PyStr.nl +:+
      "Key Points: " +:+ joined +:+ PyStr.nl +:+
      "Points: " +:+ py_str points).

Definition questions_text (questions : value) : exc string :=
  qs ← py_iter questions;
  texts ← mapM question_text qs;
  Ok (PyStr.join (PyStr.nl +:+ PyStr.nl) texts).

Definition answer_sheet_fallback (max_points : Q) : pydict :=
  [ ("parsed_answers", VList []);
    ("total_score", VNum (max_points * 0.75));
    ("percentage", VNum 75);
    ("overall_feedback", VStr "Answer sheet graded. Good effort overall.");
    ("strengths", str_list ["Attempted all questions"]);
    ("areas_for_improvement", str_list ["Provide more detailed answers"]);
    ("rubric_scores", VDict []) ].

(** One turn of the dict comprehension that builds [rubric_scores]. *)
Definition rubric_entry (acc : pydict) (ans : value) : exc pydict :=
  number ← py_item ans "question_number";
  score ← py_get ans "score" (VNum 0);
  feedback ← py_get ans "feedback" (VStr EmptyString);
  Ok (dict_set acc ("Question " +:+ py_str number)
        (VDict [("score", score); ("feedback", feedback)])).

Fixpoint rubric_entries (acc : pydict) (answers : list value) : exc pydict :=
  match answers with
  | [] => Ok acc
  | ans :: rest => acc' ← rubric_entry acc ans; rubric_entries acc' rest
  end.


(** The [try] block of [parse_and_grade_answer_sheet]. *)
Definition answer_sheet_parse (response : string) : exc pydict :=
  result ← json_loads (json_span response);
  parsed_answers ← py_get result "parsed_answers" (VList []);
  total_score ← py_get result "total_score" (VNum 0);
  percentage ← py_get result "percentage" (VNum 0);
  overall_feedback ← py_get result "overall_feedback" (VStr EmptyString);
  strengths ← py_get result "strengths" (VList []);
  areas ← py_get result "areas_for_improvement" (VList []);
  answers ← py_iter parsed_answers;
  rubric_scores ← rubric_entries [] answers;
  Ok [ ("parsed_answers", parsed_answers);
       ("total_score", total_score);
       ("percentage", percentage);
       ("overall_feedback", overall_feedback);
       ("strengths", strengths);
       ("areas_for_improvement", areas);
       ("rubric_scores", VDict rubric_scores) ].

(** Lines 415-446: the extractor of answer-sheet grading. *)
Definition answer_sheet_extract (response : string) (max_points : Q) : exc pydict :=
  try_except (answer_sheet_parse response) json_or_value_error
    (fun _ => Ok (answer_sheet_fallback max_points)).

Definition parse_and_grade_answer_sheet (answer_sheet : string) (questions : value)
    (max_points : Q) : exc pydict :=
  qtext ← questions_text questions;
  response ← _generate (AnswerSheetPrompt qtext answer_sheet (py_str (VNum max_points)));
  answer_sheet_extract response max_points.

End Service.
End OllamaService.

(** ** Stored records ([models.py]) *)

Module Models.

(** The columns of [Assignment] the grading code reads; a NULL [rubric] is
    [VNone]. *)
Record Assignment : Type := {
  course_id : Z;
  title : string;
  description : string;
  assignment_type : string;
  max_points : Q;
  rubric : value
}.

(** [Submission]: the four grading columns are NULL ([VNone], [None]) until
    a grading run writes them. *)
Record Submission : Type := {
  assignment_id : Z;
  student_id : Z;
  content : string;
  score : value;
  feedback : value;
  rubric_scores : value;
  graded_at : option Z
}.

Record Database : Type := {
  assignments : gmap Z Assignment;
  submissions : gmap Z Submission;
  students : gset Z
}.

(** The store together with what the process has printed. *)
Record World : Type := {
  db : Database;
  stdout : list string
}.

End Models.

(** How the database serves a run: every statement goes through, or the
    reads go through and [db.commit()] raises, or the database cannot be
    reached and the first statement raises already. *)
Inductive Session : Type :=
| Serving
| FailsAtCommit
| Unreachable.

(** What a run takes from outside: the inference backend, the clock read by
    [datetime.now()], and the state of the database. *)
Record Env : Type := {
  backend : Backend;
  now : Z;
  session : Session
}.

(** Whether a [db.query(...).first()] goes through.  Only the background
    task reads through it: there a read stands before the [try] and its
    error has no handler.  The handlers of the routes are modelled from
    after their reads; an error of a read ends such a request before any of
    the modelled code runs. *)
Definition query_ok (env : Env) : bool :=
  match session env with
  | Unreachable => false
  | _ => true
  end.

(** Whether [db.commit()] goes through. *)
Definition commit_ok (env : Env) : bool :=
  match session env with
  | Serving => true
  | _ => false
  end.

(** ** Submissions and their grading ([routers/assignments.py]) *)

Module Assignments.
Import Models.
Section Router.
Context {rt : PyRuntime}.

(** [SubmissionCreate] *)
Record SubmissionCreate : Type := {
  sc_assignment_id : Z;
  sc_student_id : Z;
  sc_content : string
}.

Record GradeSubmissionResponse : Type := {
  r_submission_id : Z;
  r_score : value;
  r_feedback : value;
  r_rubric_scores : value
}.

(** The primary key the store gives to a new row. *)
Definition next_id {A} (rows : gmap Z A) : Z :=
  (map_fold (fun k _ acc => Z.max k acc) 0 rows + 1)%Z.

Definition with_submission (d : Database) (id : Z) (s : Submission) : Database :=
  {| assignments := assignments d;
     submissions := <[id := s]> (submissions d);
     students := students d |}.

(** [db.commit()] of a changed submission. *)
Definition commit (env : Env) (d : Database) (id : Z) (s : Submission) : exc Database :=
  if commit_ok env then Ok (with_submission d id s) else Raise DatabaseError.

(** [submit_assignment], up to the hand-over of the new id to the
    background task. *)
Definition submit_assignment (env : Env) (submission : SubmissionCreate) (w : World)
    : exc Z * World :=
  match assignments (db w) !! sc_assignment_id submission with
  | None => (Raise (HTTPException 404 "Assignment not found"), w)
  | Some _ =>
      if decide (sc_student_id submission ∈ students (db w)) then
        let id := next_id (submissions (db w)) in
        let row := {| assignment_id := sc_assignment_id submission;
                      student_id := sc_student_id submission;
                      content := sc_content submission;
                      score := VNone;
                      feedback := VNone;
                      rubric_scores := VNone;
                      graded_at := None |} in
        match commit env (db w) id row with
        | Ok d => (Ok id, {| db := d; stdout := stdout w |})
        | Raise e => (Raise e, w)
        end
      else (Raise (HTTPException 404 "Student not found"), w)
  end.

(** [rubric = assignment.rubric or {}] *)
Definition rubric_or_empty (assignment : Assignment) : value :=
  if truthy (rubric assignment) then rubric assignment else VDict [].

(** The test of line 162. *)
Definition is_answer_sheet (rubric questions : value) : exc bool :=
  if truthy questions then
    grading_type ← py_get rubric "grading_type" VNone;
    Ok (eq_str grading_type "answer_sheet")
  else Ok false.

Definition bullet (item : value) : value := VStr ("• " +:+ py_str item).

(** The two lines appended for one parsed answer. *)
Definition answer_lines (ans : value) : exc (list value) :=
  number ← py_item ans "question_number";
  score ← py_item ans "score";
  max_score ← py_item ans "max_score";
  let head := PyStr.nl +:+ "Question " +:+ py_str number +:+ ": " +:+ py_str score
              +:+ "/" +:+ py_str max_score +:+ " points" in
  feedback ← py_item ans "feedback";
  Ok [VStr head; VStr ("  " +:+ py_str feedback)].

(** Lines 175-196: the feedback text of the answer-sheet branch. *)
Definition answer_sheet_feedback (result : pydict) : exc string :=
  let parts := [dict_get result "overall_feedback" (VStr EmptyString)] in
  parts ←
    (if truthy (dict_get result "strengths" VNone) then
       strengths ← dict_item result "strengths";
       items ← py_iter strengths;
       Ok (parts ++ [VStr (PyStr.nl +:+ PyStr.nl +:+ "**Strengths:**")] ++ map bullet items)%list
     else Ok parts);
  parts ←
    (if truthy (dict_get result "areas_for_improvement" VNone) then
       areas ← dict_item result "areas_for_improvement";
       items ← py_iter areas;
       Ok (parts ++ [VStr (PyStr.nl +:+ PyStr.nl +:+ "**Areas for Improvement:**")]
                 ++ map bullet items)%list
     else Ok parts);
  parts ←
    (if truthy (dict_get result "parsed_answers" VNone) then
       answers ← dict_item result "parsed_answers";
       items ← py_iter answers;
       lines ← mapM answer_lines items;
       Ok (parts ++ [VStr (PyStr.nl +:+ PyStr.nl +:+ "**Question-by-Question Feedback:**")]
                 ++ concat lines)%list
     else Ok parts);
  py_join PyStr.nl parts.

(** Lines 163-196: the answer-sheet branch; the score, the feedback and
    the result of the service. *)
Definition answer_sheet_branch (env : Env) (submission : Submission)
    (assignment : Assignment) (questions : value) : exc (value * value * pydict) :=
  result ← OllamaService.parse_and_grade_answer_sheet (backend env)
              (content submission) questions (max_points assignment);
  percentage ← as_number (dict_get result "percentage" (VNum 0));
  let score := (percentage / 100 * max_points assignment)%Q in
  feedback ← answer_sheet_feedback result;
  Ok (VNum score, VStr feedback, result).

(** Lines 199-206: the essay branch. *)
Definition essay_branch (env : Env) (submission : Submission)
    (assignment : Assignment) (rubric : value) : exc (value * value * pydict) :=
  result ← OllamaService.grade_essay (backend env)
              (content submission) rubric (max_points assignment);
  score ← dict_item result "score";
  feedback ← dict_item result "feedback";
  Ok (score, feedback, result).

(** Lines 158-212: the [try] block up to the commit; the submission object
    with its four grading attributes set. *)
Definition graded_submission (env : Env) (submission : Submission)
    (assignment : Assignment) : exc Submission :=
  let rubric := rubric_or_empty assignment in
  questions ← py_get rubric "questions" (VList []);
  answer_sheet ← is_answer_sheet rubric questions;
  '(score, feedback, result) ←
    (if answer_sheet : bool
     then answer_sheet_branch env submission assignment questions
     else essay_branch env submission assignment rubric);
  Ok {| assignment_id := assignment_id submission;
        student_id := student_id submission;
        content := content submission;
        score := score;
        feedback := feedback;
        rubric_scores := dict_get result "rubric_scores" (VDict []);
        graded_at := Some (now env) |}.

(** [db.query(...).filter(... == id).first()]: the row, [None] when there
    is none, or the error of a database that cannot be read. *)
Definition first_row {A} (env : Env) (rows : gmap Z A) (id : Z) : exc (option A) :=
  if query_ok env then Ok (rows !! id) else Raise DatabaseError.

(** [grade_submission_task]: what it raises to its caller, and the world it
    leaves.  The two reads of lines 149 and 153 stand before the [try] of
    line 157: their error goes to the caller. *)
Definition grade_submission_task (env : Env) (submission_id : Z) (w : World)
    : exc unit * World :=
  match first_row env (submissions (db w)) submission_id with
  | Raise e => (Raise e, w)
  | Ok None => (Ok tt, w)
  | Ok (Some submission) =>
      match first_row env (assignments (db w)) (assignment_id submission) with
      | Raise e => (Raise e, w)
      | Ok None => (Ok tt, w)
      | Ok (Some assignment) =>
          let attempt :=
            try_except
              (graded ← graded_submission env submission assignment;
               d ← commit env (db w) submission_id graded;
               Ok (d, []))
              any_exception
              (fun e => Ok (db w, [ "Error grading submission "
                                    +:+ PyStr.of_Z submission_id +:+ ": " +:+ exn_str e ])) in
          match attempt with
          | Ok (d, printed) => (Ok tt, {| db := d; stdout := stdout w ++ printed |})
          | Raise e => (Raise e, w)
          end
      end
  end.

(** Lines 254-272: the [try] block of [grade_submission_manual]. *)
Definition manual_attempt (env : Env) (submission_id : Z) (submission : Submission)
    (assignment : Assignment) (d : Database)
    : exc (Database * exc GradeSubmissionResponse) :=
  result ← OllamaService.grade_essay (backend env)
              (content submission) (rubric_or_empty assignment) (max_points assignment);
  score ← dict_item result "score";
  feedback ← dict_item result "feedback";
  rubric_scores ← dict_item result "rubric_scores";
  let graded := {| assignment_id := assignment_id submission;
                   student_id := student_id submission;
                   content := content submission;
                   score := score;
                   feedback := feedback;
                   rubric_scores := rubric_scores;
                   graded_at := Some (now env) |} in
  d' ← commit env d submission_id graded;
  Ok (d', if response_valid score feedback rubric_scores
          then Ok {| r_submission_id := submission_id; r_score := score;
                     r_feedback := feedback; r_rubric_scores := rubric_scores |}
          else Raise (ValueError "validation error for GradeSubmissionResponse")).

Definition grading_error (e : exn) : exn :=
  HTTPException 500 ("Error grading submission: " +:+ exn_str e).

(** [grade_submission_manual]; a response that pydantic rejects is raised
    after the commit. *)
Definition grade_submission_manual (env : Env) (submission_id : Z) (w : World)
    : exc GradeSubmissionResponse * World :=
  match submissions (db w) !! submission_id with
  | None => (Raise (HTTPException 404 "Submission not found"), w)
  | Some submission =>
      match assignments (db w) !! assignment_id submission with
      | None => (Raise (HTTPException 404 "Assignment not found"), w)
      | Some assignment =>
          match manual_attempt env submission_id submission assignment (db w) with
          | Ok (d, Ok response) => (Ok response, {| db := d; stdout := stdout w |})
          | Ok (d, Raise e) => (Raise (grading_error e), {| db := d; stdout := stdout w |})
          | Raise e => (Raise (grading_error e), w)
          end
      end
  end.

End Router.
End Assignments.

(** ** A small runtime, to run the definitions *)

(** A parser for the JSON texts used below: objects, arrays, strings with
    the one-letter escapes, integers and decimals without exponent, [true],
    [false] and [null].  A text outside this fragment is rejected. *)
Module MiniJson.

Definition is_ws (c : ascii) : bool :=
  let n := nat_of_ascii c in
  (n =? 32)%nat || (n =? 9)%nat || (n =? 10)%nat || (n =? 13)%nat.

Fixpoint skip_ws (s : string) : string :=
  match s with
  | EmptyString => EmptyString
  | String c s' => if is_ws c then skip_ws s' else s
  end.

Definition digit (c : ascii) : option Z :=
  let n := nat_of_ascii c in
  if ((48 <=? n)%nat && (n <=? 57)%nat) then Some (Z.of_nat (n - 48)) else None.

(** The digits at the head of [s]: their value, their count, the rest. *)
Fixpoint digits (s : string) (acc : Z) (count : nat) : Z * nat * string :=
  match s with
  | EmptyString => (acc, count, s)
  | String c s' =>
      match digit c with
      | Some d => digits s' (10 * acc + d)%Z (S count)
      | None => (acc, count, s)
      end
  end.

Definition number (s : string) : option (Q * string) :=
  let '(neg, s) :=
    match s with
    | String "-"%char s' => (true, s')
    | _ => (false, s)
    end in
  let '(int_part, n, rest) := digits s 0 0 in
  match n with
  | O => None
  | S _ =>
      let '(q, rest) :=
        match rest with
        | String "."%char rest' =>
            let '(frac, k, rest'') := digits rest' 0 0 in
            match k with
            | O => (None, rest)
            | S _ => (Some (inject_Z int_part + (frac # Pos.of_nat (10 ^ k)))%Q, rest'')
            end
        | _ => (Some (inject_Z int_part), rest)
        end in
      match q with
      | Some q => Some (if neg : bool then (- q)%Q else q, rest)
      | None => None
      end
  end.

Definition unescape (c : ascii) : option ascii :=
  if Ascii.eqb c "n" then Some "010"%char
  else if Ascii.eqb c "t" then Some "009"%char
  else if Ascii.eqb c "r" then Some "013"%char
  else if Ascii.eqb c "b" then Some "008"%char
  else if Ascii.eqb c "f" then Some "012"%char
  else if Ascii.eqb c "/" then Some "/"%char
  else if Ascii.eqb c "\" then Some "\"%char
  else if Ascii.eqb c "034" then Some "034"%char
  else None.

(** The characters of a string literal, after its opening quote. *)
Fixpoint literal (s acc : string) : option (string * string) :=
  match s with
  | EmptyString => None
  | String c s' =>
      if Ascii.eqb c "034" then Some (acc, s')
      else if Ascii.eqb c "\" then
        match s' with
        | String e s'' =>
            match unescape e with
            | Some c' => literal s'' (acc +:+ String c' EmptyString)
            | None => None
            end
        | EmptyString => None
        end
      else literal s' (acc +:+ String c EmptyString)
  end.

Definition keyword (k : string) (v : value) (s : string) : option (value * string) :=
  if String.prefix k s
  then Some (v, substring (String.length k) (String.length s - String.length k) s)
  else None.

Fixpoint element (fuel : nat) (s : string) : option (value * string) :=
  match fuel with
  | O => None
  | S fuel =>
      match skip_ws s with
      | EmptyString => None
      | String c rest =>
          if Ascii.eqb c "{" then
            match skip_ws rest with
            | String "}"%char rest' => Some (VDict [], rest')
            | _ => members fuel rest []
            end
          else if Ascii.eqb c "[" then
            match skip_ws rest with
            | String "]"%char rest' => Some (VList [], rest')
            | _ => items fuel rest []
            end
          else if Ascii.eqb c "034" then
            match literal rest EmptyString with
            | Some (text, rest') => Some (VStr text, rest')
            | None => None
            end
          else if Ascii.eqb c "t" then keyword "true" (VBool true) (String c rest)
          else if Ascii.eqb c "f" then keyword "false" (VBool false) (String c rest)
          else if Ascii.eqb c "n" then keyword "null" VNone (String c rest)
          else
            match number (String c rest) with
            | Some (q, rest') => Some (VNum q, rest')
            | None => None
            end
      end
  end
with members (fuel : nat) (s : string) (acc : pydict) : option (value * string) :=
  match fuel with
  | O => None
  | S fuel =>
      match skip_ws s with
      | String "034"%char rest =>
          match literal rest EmptyString with
          | Some (key, rest') =>
              match skip_ws rest' with
              | String ":"%char rest'' =>
                  match element fuel rest'' with
                  | Some (v, after) =>
                      let acc := dict_set acc key v in
                      match skip_ws after with
                      | String ","%char more => members fuel more acc
                      | String "}"%char more => Some (VDict acc, more)
                      | _ => None
                      end
                  | None => None
                  end
              | _ => None
              end
          | None => None
          end
      | _ => None
      end
  end
with items (fuel : nat) (s : string) (acc : list value) : option (value * string) :=
  match fuel with
  | O => None
  | S fuel =>
      match element fuel s with
      | Some (v, after) =>
          let acc := (acc ++ [v])%list in
          match skip_ws after with
          | String ","%char more => items fuel more acc
          | String "]"%char more => Some (VList acc, more)
          | _ => None
          end
      | None => None
      end
  end.

Definition loads (s : string) : exc value :=
  match element (2 * String.length s + 2) s with
  | Some (v, rest) =>
      match skip_ws rest with
      | EmptyString => Ok v
      | _ => Raise (JSONDecodeError "Extra data")
      end
  | None => Raise (JSONDecodeError "Expecting value")
  end.

(** A rendering of a value; of a number that is not an integer it shows
    the fraction, which is not what Python prints for a [float]. *)
Fixpoint show (v : value) : string :=
  match v with
  | VNone => "None"
  | VBool b => if b then "True" else "False"
  | VNum q =>
      match Qred q with
      | Qmake n 1 => PyStr.of_Z n
      | Qmake n d => PyStr.of_Z n +:+ "/" +:+ PyStr.of_Z (Zpos d)
      end
  | VStr s => s
  | VList l => "[" +:+ PyStr.join ", " (map show l) +:+ "]"
  | VDict d =>
      "{" +:+ PyStr.join ", " (map (fun kv => fst kv +:+ ": " +:+ show (snd kv)) d) +:+ "}"
  end.

Definition valid (score feedback rubric_scores : value) : bool :=
  match score, feedback, rubric_scores with
  | VNum _, VStr _, VDict _ => true
  | _, _, _ => false
  end.

End MiniJson.

Definition mini_runtime : PyRuntime :=
  {| json_loads := MiniJson.loads;
     json_dumps := MiniJson.show;
     py_str := MiniJson.show;
     response_valid := MiniJson.valid |}.

(** [quoted s] is [s] between double quotes. *)
Definition quoted (s : string) : string := PyStr.dq +:+ s +:+ PyStr.dq.

(** ** The quiz score as the specification words it *)

(** This second definition of the score follows the text of the
    specification, not the code: it is what [Quiz.grade] is compared
    with. *)
Module QuizSpec.

(** A question object: its type, its correct answer, and its points, 1.0
    when absent. *)
Record Question : Type := {
  question_type : string;
  correct_answer : string;
  points : option Q
}.

(** The question as the JSON object stored with the quiz. *)
Definition to_value (q : Question) : value :=
  VDict ([ ("question_type", VStr (question_type q));
           ("correct_answer", VStr (correct_answer q)) ]
         ++ match points q with
            | Some p => [("points", VNum p)]
            | None => []
            end)%list.

Definition points_value (q : Question) : Q :=
  match points q with
  | Some p => p
  | None => 1%Q
  end.

(** trim + lowercase *)
Definition normalize (s : string) : string := PyStr.lower (PyStr.strip s).

Definition exact_type (q : Question) : bool :=
  String.eqb (question_type q) "multiple_choice"
  || String.eqb (question_type q) "true_false".

(** The matching rule by type. *)
Definition earns (q : Question) (student_answer : string) : bool :=
  let student := normalize student_answer in
  let correct := normalize (correct_answer q) in
  if exact_type q then String.eqb student correct
  else PyStr.nonempty student && PyStr.contains student correct.

(** One question: its points go to totalPoints, and to earnedPoints when
    the answer found at its index (the empty string when absent) earns
    them. *)
Definition add_question (answer_at : nat -> option string) (acc : Q * Q)
    (iq : nat * Question) : Q * Q :=
  let '(idx, q) := iq in
  let student_answer :=
    match answer_at idx with
    | Some a => a
    | None => EmptyString
    end in
  (fst acc + points_value q,
   if earns q student_answer then snd acc + points_value q else snd acc)%Q.

(** The questions in declaration order, from index [start]. *)
Definition totals_from (start : nat) (questions : list Question)
    (answer_at : nat -> option string) (acc : Q * Q) : Q * Q :=
  fold_left (add_question answer_at)
    (combine (seq start (length questions)) questions) acc.

(** earnedPoints / totalPoints x 100, or 0 if totalPoints is 0. *)
Definition score (questions : list Question) (answer_at : nat -> option string) : Q :=
  let '(total_points, earned_points) := totals_from 0 questions answer_at (0, 0)%Q in
  if Qeq_bool total_points 0 then 0%Q else (earned_points / total_points * 100)%Q.

(** The answer an attempt holds for a question index. *)
Fixpoint answer_by_index (answers : list (Z * string)) (idx : nat) : option string :=
  match answers with
  | [] => None
  | (k, a) :: rest => if Z.eqb k (Z.of_nat idx) then Some a else answer_by_index rest idx
  end.

(** The answer a dict with [str] keys holds for a question index. *)
Definition answer_by_str_key (answers : list (string * string)) (idx : nat)
    : option string :=
  snd <$> List.find (fun kv => String.eqb (fst kv) (PyStr.of_nat idx)) answers.

End QuizSpec.

(** A dict whose keys are the [str] form of the indices. *)
Definition str_keyed (answers : list (string * string)) : list (pykey * string) :=
  map (fun kv => (KStr (fst kv), snd kv)) answers.

(** ** The states the store can reach *)

Module Reach.
Import Models.
Section Steps.
Context {rt : PyRuntime}.

Definition initial : World :=
  {| db := {| assignments := ∅; submissions := ∅; students := ∅ |};
     stdout := [] |}.

(** One request or one run of the background task.  [step_other] stands
    for the routes that leave the submissions alone (courses, students,
    assignments, quizzes, lesson plans). *)
Inductive step : World -> World -> Prop :=
| step_submit env submission w :
    step w (snd (Assignments.submit_assignment env submission w))
| step_task env submission_id w :
    step w (snd (Assignments.grade_submission_task env submission_id w))
| step_manual env submission_id w :
    step w (snd (Assignments.grade_submission_manual env submission_id w))
| step_other w w' :
    submissions (db w') = submissions (db w) -> step w w'.

Definition reachable (w : World) : Prop := rtc step initial w.

(** Nothing of the grading is present while [graded_at] is absent. *)
Definition ungraded_is_blank (s : Submission) : Prop :=
  graded_at s = None ->
  score s = VNone /\ feedback s = VNone /\ rubric_scores s = VNone.

(** The invariant as the specification states it: [graded_at] is set if
    and only if score and feedback are both present. *)
Definition graded_iff_scored (s : Submission) : Prop :=
  is_Some (graded_at s) <-> (score s <> VNone /\ feedback s <> VNone).

(** A step leaves the submissions as they are or writes one row, and a row
    it writes without [graded_at] has no grade. *)
Definition writes_blank_or_graded (w w' : World) : Prop :=
  submissions (db w') = submissions (db w)
  \/ exists id s, submissions (db w') = <[id := s]> (submissions (db w))
                  /\ ungraded_is_blank s.

(** The property of a store that [step] keeps. *)
Definition blank_until_graded (w : World) : Prop :=
  forall id s, submissions (db w) !! id = Some s -> ungraded_is_blank s.

End Steps.
End Reach.

(** ** Predicates on stored quizzes *)

Module QuizTypes.

(** The points the grader reads from a question are not negative. *)
Definition nonneg_points (question : value) : Prop :=
  forall v p, py_get question "points" (VNum 1) = Ok v ->
              as_number v = Ok p -> (0 <= p)%Q.

(** The largest total of points for which the exact arithmetic of the
    model stands for the arithmetic of the code: up to [2^53] every integer
    is a [float], so that an [int] total becomes a [float] without
    rounding, and no sum of the loop becomes [inf]. *)
Definition exact_total_limit : Q := inject_Z (2 ^ 53).

(** The points the grader reads from the questions add up to at most
    [limit]. *)
Fixpoint points_within (limit : Q) (questions : list value) : Prop :=
  match questions with
  | [] => (0 <= limit)%Q
  | question :: rest =>
      forall v p, py_get question "points" (VNum 1) = Ok v ->
                  as_number v = Ok p -> points_within (limit - p) rest
  end.

(** A question object whose points are a number and whose correct answer
    is a text, each when present. *)
Definition well_typed (question : value) : Prop :=
  exists d, question = VDict d
    /\ (exists p, as_number (dict_get d "points" (VNum 1)) = Ok p)
    /\ (exists s, dict_get d "correct_answer" (VStr EmptyString) = VStr s).

End QuizTypes.

(** ** Two runs of the grading task *)


(** The line the task prints when it catches [e]. *)
Definition grading_error_line (submission_id : Z) (e : exn) : string :=
  "Error grading submission " +:+ PyStr.of_Z submission_id +:+ ": " +:+ exn_str e.

(** ** What the extractors need from [json.loads] *)

(** [json.loads] raises [JSONDecodeError] on the empty text and on a lone
    closing brace: the two texts the slice of a reply without an opening
    or a closing brace can be. *)
Class LoadsRejectsNoObject (rt : PyRuntime) : Prop := {
  loads_empty : exists msg, json_loads EmptyString = Raise (JSONDecodeError msg);
  loads_closing_brace : exists msg, json_loads "}" = Raise (JSONDecodeError msg)
}.

(** The extraction of a reply fails: a brace is missing, or the text
    between the first opening and the last closing brace does not parse. *)
Definition extraction_fails {rt : PyRuntime} (response : string) : Prop :=
  PyStr.find "{" response = (-1)%Z
  \/ PyStr.rfind "}" response = (-1)%Z
  \/ exists msg, json_loads (OllamaService.json_span response) = Raise (JSONDecodeError msg).

(** On the text [s], [json.loads] returns, or raises an error that
    [except (json.JSONDecodeError, ValueError)] catches.  This is not so for
    every text: on one nested deeper than the recursion limit CPython
    raises [RecursionError], which the clause lets through. *)
Definition loads_error_caught {rt : PyRuntime} (s : string) : Prop :=
  forall e, json_loads s = Raise e -> json_or_value_error e = true.


(** ** Concrete inputs *)

(** The request of the specification's own example: one true/false question
    whose correct answer is [true], answered [ TRUE ] at index 0. *)
Definition true_false_question : QuizSpec.Question :=
  {| QuizSpec.question_type := "true_false";
     QuizSpec.correct_answer := "true";
     QuizSpec.points := Some 1%Q |}.

Definition true_false_attempt : QuizAttemptCreate :=
  {| qa_quiz_id := 1; qa_student_id := 1; qa_answers := [(0%Z, " TRUE ")] |}.

(** A true/false question worth -1 point. *)
Definition negative_question : QuizSpec.Question :=
  {| QuizSpec.question_type := "true_false";
     QuizSpec.correct_answer := "true";
     QuizSpec.points := Some (-1)%Q |}.

(** A quiz whose points are 3 (a true/false question without a correct
    answer) and -1, and an attempt without answers. *)
Definition mixed_sign_quiz : value :=
  VList [ VDict [("question_type", VStr "true_false"); ("points", VNum 3)];
          VDict [("question_type", VStr "short_answer");
                 ("correct_answer", VStr "x"); ("points", VNum (-1))] ].

Definition empty_attempt : QuizAttemptCreate :=
  {| qa_quiz_id := 1; qa_student_id := 1; qa_answers := [] |}.


(** Replies of the model. *)
Definition reply_without_json : string := "I cannot grade this essay.".

(** [{"strengths": ["clear"]}], inside a sentence. *)
Definition reply_strengths_only : string :=
  "Here is my assessment: {" +:+ quoted "strengths" +:+ ": [" +:+ quoted "clear"
  +:+ "]} I hope it helps.".



(** A store with an essay assignment (id 1) and an assignment with an
    answer sheet (id 2), and an ungraded submission to each. *)
Definition essay_assignment : Models.Assignment :=
  {| Models.course_id := 1;
     Models.title := "Essay: Character Analysis";
     Models.description := "Write a 500-word essay";
     Models.assignment_type := "essay";
     Models.max_points := 100;
     Models.rubric := VNone |}.

Definition sheet_question : value :=
  VDict [ ("question_number", VNum 1);
          ("question_text", VStr "What is a fraction?");
          ("model_answer", VStr "A part of a whole");
          ("key_points", VList [VStr "part"; VStr "whole"]);
          ("points", VNum 10) ].

Definition answer_sheet_assignment : Models.Assignment :=
  {| Models.course_id := 1;
     Models.title := "Fractions";
     Models.description := "Answer the questions";
     Models.assignment_type := "short_answer";
     Models.max_points := 100;
     Models.rubric := VDict [ ("questions", VList [sheet_question]);
                              ("grading_type", VStr "answer_sheet") ] |}.

Definition ungraded (assignment_id : Z) (content : string) : Models.Submission :=
  {| Models.assignment_id := assignment_id;
     Models.student_id := 1;
     Models.content := content;
     Models.score := VNone;
     Models.feedback := VNone;
     Models.rubric_scores := VNone;
     Models.graded_at := None |}.

Definition sample_db : Models.Database :=
  {| Models.assignments := {[ 1%Z := essay_assignment; 2%Z := answer_sheet_assignment ]};
     Models.submissions := {[ 1%Z := ungraded 1 "My essay."; 2%Z := ungraded 2 "1. A part." ]};
     Models.students := {[ 1%Z ]} |}.

Definition sample_world : Models.World :=
  {| Models.db := sample_db; Models.stdout := [] |}.

(** The store before any submission. *)
Definition courses_only : Models.World :=
  {| Models.db := {| Models.assignments := {[ 1%Z := essay_assignment ]};
                     Models.submissions := ∅;
                     Models.students := {[ 1%Z ]} |};
     Models.stdout := [] |}.

(** [{"overall_score": null, "detailed_feedback": "See comments."}] *)
Definition reply_null_score : string :=
  "{" +:+ quoted "overall_score" +:+ ": null, " +:+ quoted "detailed_feedback" +:+ ": "
  +:+ quoted "See comments." +:+ "}".

(** [{"overall_score": 10, "detailed_feedback": "essay"}] *)
Definition reply_essay : string :=
  "{" +:+ quoted "overall_score" +:+ ": 10, " +:+ quoted "detailed_feedback" +:+ ": "
  +:+ quoted "essay" +:+ "}".

(** [{"percentage": 80, "overall_feedback": "sheet"}] *)
Definition reply_sheet : string :=
  "{" +:+ quoted "percentage" +:+ ": 80, " +:+ quoted "overall_feedback" +:+ ": "
  +:+ quoted "sheet" +:+ "}".

Definition backend_null_score : Backend := fun _ => RawText reply_null_score.

(** A backend that answers each kind of prompt with its own reply. *)
Definition backend_by_prompt : Backend := fun prompt =>
  match prompt with
  | EssayPrompt _ _ _ => RawText reply_essay
  | AnswerSheetPrompt _ _ _ => RawText reply_sheet
  | _ => RawText EmptyString
  end.

Definition backend_down : Backend := fun _ => CommunicationFailure "connection refused".

Definition env_at (b : Backend) (t : Z) : Env :=
  {| backend := b; now := t; session := Serving |}.


(** The store after one submission to the essay assignment and one run of
    the task on a reply whose [overall_score] is [null]. *)
Definition first_submission : Assignments.SubmissionCreate :=
  {| Assignments.sc_assignment_id := 1;
     Assignments.sc_student_id := 1;
     Assignments.sc_content := "My essay." |}.

Definition after_submission : Models.World :=
  snd (Assignments.submit_assignment (env_at backend_null_score 5) first_submission
         courses_only).

Definition after_null_score : Models.World :=
  snd (Assignments.grade_submission_task (rt := mini_runtime)
         (env_at backend_null_score 7) 1 after_submission).



(** * More of the backend *)

(** [json.loads] of a text that begins with an opening brace gives a
    [dict] when it gives anything. *)
Class LoadsObjectFromBrace (rt : PyRuntime) : Prop :=
  loads_object : forall s v, json_loads (String "{"%char s) = Ok v -> exists d, v = VDict d.

(** No character of [s] is [c]. *)
Definition lacks (c : ascii) (s : string) : Prop :=
  forall n, String.get n s <> Some c.

(** A character [str.strip] removes is neither first nor last in [s]. *)
Definition trimmed (s : string) : Prop := PyStr.strip s = s.

(** [str(s)] of a [str] is the text itself. *)
Class StrOfText (rt : PyRuntime) : Prop :=
  py_str_text : forall s, py_str (VStr s) = s.

(** ** Creating an assignment ([routers/assignments.py], lines 22-52) *)

Module AssignmentSetup.
Import Models.
Section Routes.
Context {rt : PyRuntime}.

(** [AssignmentCreate]; [due_date] goes to a column the model of
    [Assignment] does not carry. *)
Record AssignmentCreate : Type := {
  ac_course_id : Z;
  ac_title : string;
  ac_description : option string;
  ac_assignment_type : string;
  ac_max_points : Q;
  ac_rubric : value;
  ac_due_date : option Z
}.

(** [assignment_type in ["questions", "short_answer", "problem_solving"]] *)
Definition wants_questions (assignment_type : string) : bool :=
  String.eqb assignment_type "questions"
  || String.eqb assignment_type "short_answer"
  || String.eqb assignment_type "problem_solving".

(** The text an f-string makes of [assignment_data.get("description", "")]:
    the key is always there, with [None] when no description was given. *)
Definition description_text (description : option string) : string :=
  match description with
  | Some text => text
  | None => "None"
  end.

(** Lines 28-46: the rubric the assignment is stored with, and what is
    printed. *)
Definition rubric_with_questions (env : Env) (assignment : AssignmentCreate)
    : value * list string :=
  if wants_questions (ac_assignment_type assignment) then
    match OllamaService.generate_assignment_questions (backend env)
            (ac_title assignment) (description_text (ac_description assignment))
            5 (ac_assignment_type assignment) with
    | Ok questions =>
        (VDict [("questions", questions); ("grading_type", VStr "answer_sheet")], [])
    | Raise e => (ac_rubric assignment, ["Error generating questions: " +:+ exn_str e])
    end
  else (ac_rubric assignment, []).

(** [create_assignment]; a NULL description is stored as the empty text,
    which is what its reader, [assignment.description or ""], makes of
    it. *)
Definition create_assignment (env : Env) (assignment : AssignmentCreate) (w : World)
    : exc Z * World :=
  let '(rubric, printed) := rubric_with_questions env assignment in
  let row := {| course_id := ac_course_id assignment;
                title := ac_title assignment;
                description := match ac_description assignment with
                               | Some text => text
                               | None => EmptyString
                               end;
                assignment_type := ac_assignment_type assignment;
                max_points := ac_max_points assignment;
                rubric := rubric |} in
  let id := Assignments.next_id (assignments (db w)) in
  if commit_ok env then
    (Ok id, {| db := {| assignments := <[id := row]> (assignments (db w));
                        submissions := submissions (db w);
                        students := students (db w) |};
               stdout := stdout w ++ printed |})
  else (Raise DatabaseError, {| db := db w; stdout := stdout w ++ printed |}).

End Routes.
End AssignmentSetup.

(** ** Quizzes ([routers/quizzes.py]) *)

Module QuizModels.

(** The columns of [Quiz] and [QuizAttempt] that the handlers set. *)
Record Quiz : Type := {
  course_id : Z;
  title : string;
  description : string;
  questions : value;
  time_limit : Z;
  passing_score : Q
}.

Record QuizAttempt : Type := {
  quiz_id : Z;
  student_id : Z;
  answers : list (Z * string);
  score : Q;
  completed_at : Z
}.

Record Store : Type := {
  courses : gset Z;
  students : gset Z;
  quizzes : gmap Z Quiz;
  quiz_attempts : gmap Z QuizAttempt
}.

End QuizModels.

Module Quizzes.
Import QuizModels.
Section Routes.
Context {rt : PyRuntime}.

(** [QuizCreate] *)
Record QuizCreate : Type := {
  qc_course_id : Z;
  qc_topic : string;
  qc_num_questions : Z;
  qc_difficulty : string
}.

(** Lines 27-48: the [try] block of the route [generate_quiz]. *)
Definition generate_quiz_attempt (env : Env) (request : QuizCreate) (s : Store)
    : exc (Z * Store) :=
  questions ← OllamaService.generate_quiz (backend env)
                 (qc_topic request) (qc_num_questions request) (qc_difficulty request);
  let row := {| course_id := qc_course_id request;
                title := "Quiz: " +:+ qc_topic request;
                description := "A " +:+ qc_difficulty request +:+ " level quiz on "
                               +:+ qc_topic request;
                questions := questions;
                time_limit := (qc_num_questions request * 2)%Z;
                passing_score := 70 |} in
  let id := Assignments.next_id (quizzes s) in
  if commit_ok env then
    Ok (id, {| courses := courses s; students := students s;
               quizzes := <[id := row]> (quizzes s);
               quiz_attempts := quiz_attempts s |})
  else Raise DatabaseError.

(** The route [generate_quiz], up to its return. *)
Definition generate_quiz (env : Env) (request : QuizCreate) (s : Store)
    : exc Z * Store :=
  if decide (qc_course_id request ∈ courses s) then
    match generate_quiz_attempt env request s with
    | Ok (id, s') => (Ok id, s')
    | Raise e => (Raise (HTTPException 500 ("Error generating quiz: " +:+ exn_str e)), s)
    end
  else (Raise (HTTPException 404 "Course not found"), s).

(** [get_quiz] *)
Definition get_quiz (quiz_id : Z) (s : Store) : exc Quiz :=
  match quizzes s !! quiz_id with
  | Some quiz => Ok quiz
  | None => Raise (HTTPException 404 "Quiz not found")
  end.

(** [submit_quiz_attempt], up to its return; an exception of the grading
    loop is not caught. *)
Definition submit_quiz_attempt (env : Env) (attempt : QuizAttemptCreate) (s : Store)
    : exc (Z * QuizAttempt) * Store :=
  match quizzes s !! qa_quiz_id attempt with
  | None => (Raise (HTTPException 404 "Quiz not found"), s)
  | Some quiz =>
      if decide (qa_student_id attempt ∈ students s) then
        match Quiz.score_of_attempt (questions quiz) attempt with
        | Raise e => (Raise e, s)
        | Ok score =>
            let row := {| quiz_id := qa_quiz_id attempt;
                          student_id := qa_student_id attempt;
                          answers := qa_answers attempt;
                          score := score;
                          completed_at := now env |} in
            let id := Assignments.next_id (quiz_attempts s) in
            if commit_ok env then
              (Ok (id, row), {| courses := courses s; students := students s;
                                quizzes := quizzes s;
                                quiz_attempts := <[id := row]> (quiz_attempts s) |})
            else (Raise DatabaseError, s)
        end
      else (Raise (HTTPException 404 "Student not found"), s)
  end.

(** [get_student_quiz_attempts] *)
Definition get_student_quiz_attempts (student : Z) (s : Store) : list (Z * QuizAttempt) :=
  filter (fun row => student_id (snd row) = student) (map_to_list (quiz_attempts s)).

End Routes.
End Quizzes.

(** ** Lesson plans ([routers/lesson_plans.py]) *)

Module LessonPlans.
Section Routes.
Context {rt : PyRuntime}.

(** The columns of [LessonPlan] that the handler sets. *)
Record LessonPlan : Type := {
  course_id : Z;
  title : value;
  objectives : value;
  content : value;
  activities : value;
  materials : value;
  duration : Z;
  standards_aligned : value
}.

Record Store : Type := {
  courses : gset Z;
  lesson_plans : gmap Z LessonPlan;
  stdout : list string
}.

(** [LessonPlanCreate] *)
Record LessonPlanCreate : Type := {
  lc_course_id : Z;
  lc_topic : string;
  lc_grade_level : string;
  lc_duration : Z;
  lc_learning_objectives : option (list string)
}.

(** Lines 35-44: the row made of the result of the service. *)
Definition row_of_result (request : LessonPlanCreate) (result : pydict) : LessonPlan :=
  {| course_id := lc_course_id request;
     title := dict_get result "title" (VStr ("Lesson: " +:+ lc_topic request));
     objectives := dict_get result "objectives" (VList []);
     content := dict_get result "content" (VStr EmptyString);
     activities := dict_get result "activities" (VList []);
     materials := dict_get result "materials" (VList []);
     duration := lc_duration request;
     standards_aligned := dict_get result "standards_aligned" (VList []) |}.

(** The route [generate_lesson_plan], up to its return. *)
Definition generate_lesson_plan (env : Env) (request : LessonPlanCreate) (s : Store)
    : exc (Z * LessonPlan) * Store :=
  if decide (lc_course_id request ∈ courses s) then
    let '(printed, outcome) :=
      OllamaService.generate_lesson_plan (backend env) (lc_topic request)
        (lc_grade_level request) (lc_duration request) (lc_learning_objectives request) in
    let out := (stdout s ++ printed)%list in
    let failed e :=
      (Raise (HTTPException 500 ("Error generating lesson plan: " +:+ exn_str e)),
       {| courses := courses s; lesson_plans := lesson_plans s; stdout := out |}) in
    match outcome with
    | Ok result =>
        let row := row_of_result request result in
        let id := Assignments.next_id (lesson_plans s) in
        if commit_ok env then
          (Ok (id, row), {| courses := courses s;
                            lesson_plans := <[id := row]> (lesson_plans s);
                            stdout := out |})
        else failed DatabaseError
    | Raise e => failed e
    end
  else (Raise (HTTPException 404 "Course not found"), s).

End Routes.
End LessonPlans.

(** ** More concrete inputs *)

(** [{"title": "Tools", "materials": "pen, paper,, "}] *)
Definition reply_materials_text : string :=
  "{" +:+ quoted "title" +:+ ": " +:+ quoted "Tools" +:+ ", " +:+ quoted "materials"
  +:+ ": " +:+ quoted "pen, paper,, " +:+ "}".

Definition backend_saying (text : string) : Backend := fun _ => RawText text.

Definition short_answer_assignment : AssignmentSetup.AssignmentCreate :=
  {| AssignmentSetup.ac_course_id := 1;
     AssignmentSetup.ac_title := "Fractions";
     AssignmentSetup.ac_description := None;
     AssignmentSetup.ac_assignment_type := "short_answer";
     AssignmentSetup.ac_max_points := 50;
     AssignmentSetup.ac_rubric := VNone;
     AssignmentSetup.ac_due_date := None |}.

Definition quiz_store : QuizModels.Store :=
  {| QuizModels.courses := {[ 1%Z ]};
     QuizModels.students := {[ 1%Z ]};
     QuizModels.quizzes :=
       {[ 1%Z := {| QuizModels.course_id := 1;
                    QuizModels.title := "Quiz: Logic";
                    QuizModels.description := "A medium level quiz on Logic";
                    QuizModels.questions := VList [QuizSpec.to_value true_false_question];
                    QuizModels.time_limit := 2;
                    QuizModels.passing_score := 70 |} ]};
     QuizModels.quiz_attempts := ∅ |}.

Definition fractions_quiz_request : Quizzes.QuizCreate :=
  {| Quizzes.qc_course_id := 1;
     Quizzes.qc_topic := "Fractions";
     Quizzes.qc_num_questions := 3;
     Quizzes.qc_difficulty := "easy" |}.

Definition lesson_store : LessonPlans.Store :=
  {| LessonPlans.courses := {[ 1%Z ]};
     LessonPlans.lesson_plans := ∅;
     LessonPlans.stdout := [] |}.

Definition fractions_lesson_request : LessonPlans.LessonPlanCreate :=
  {| LessonPlans.lc_course_id := 1;
     LessonPlans.lc_topic := "Fractions";
     LessonPlans.lc_grade_level := "5th Grade";
     LessonPlans.lc_duration := 45;
     LessonPlans.lc_learning_objectives := None |}.

(** [{"parsed_answers": [{"question_number": 1, "score": 4},
      {"question_number": 1, "score": 7, "feedback": "better"}]}] *)
Definition reply_two_answers : string :=
  "{" +:+ quoted "parsed_answers" +:+ ": [{" +:+ quoted "question_number" +:+ ": 1, "
  +:+ quoted "score" +:+ ": 4}, {" +:+ quoted "question_number" +:+ ": 1, "
  +:+ quoted "score" +:+ ": 7, " +:+ quoted "feedback" +:+ ": " +:+ quoted "better"
  +:+ "}]}".

(** * Facts about strings and dicts *)

(** ** Strings *)

Section StringFacts.

Lemma append_nil t : EmptyString +:+ t = t.
Proof. reflexivity. Qed.

Lemma append_cons a s t : String a s +:+ t = String a (s +:+ t).
Proof. reflexivity. Qed.

Lemma lacks_cons c a s : lacks c (String a s) <-> a <> c /\ lacks c s.
Proof.
  unfold lacks. split.
  - intros H. split.
    + intros ->. exact (H 0%nat eq_refl).
    + intros n. exact (H (S n)).
  - intros [Ha Hs] [|n]; cbn; [congruence | apply Hs].
Qed.

Lemma find_from_lacks c s t : forall i,
  lacks c s ->
  PyStr.find_from c (s +:+ t) i = PyStr.find_from c t (i + Z.of_nat (String.length s)).
Proof.
  induction s as [|a s IH]; intros i Hl;
    rewrite ?append_nil, ?append_cons; cbn [PyStr.find_from String.length].
  - f_equal. lia.
  - apply lacks_cons in Hl as [Ha Hs].
    destruct (Ascii.eqb a c) eqn:E; [apply Ascii.eqb_eq in E; contradiction|].
    rewrite (IH _ Hs). f_equal. lia.
Qed.

Lemma rfind_from_app c s t : forall i last,
  PyStr.rfind_from c (s +:+ t) i last
  = PyStr.rfind_from c t (i + Z.of_nat (String.length s)) (PyStr.rfind_from c s i last).
Proof.
  induction s as [|a s IH]; intros i last;
    rewrite ?append_nil, ?append_cons; cbn [PyStr.rfind_from String.length].
  - f_equal. lia.
  - rewrite IH. f_equal. lia.
Qed.

Lemma rfind_from_lacks c s : forall i last,
  lacks c s -> PyStr.rfind_from c s i last = last.
Proof.
  induction s as [|a s IH]; intros i last Hl; cbn [PyStr.rfind_from]; [reflexivity|].
  apply lacks_cons in Hl as [Ha Hs].
  destruct (Ascii.eqb a c) eqn:E; [apply Ascii.eqb_eq in E; contradiction|].
  apply IH. exact Hs.
Qed.

Lemma substring_all s : forall t, substring 0 (String.length s) (s +:+ t) = s.
Proof.
  induction s as [|a s IH]; intros t; rewrite ?append_nil, ?append_cons; cbn.
  - destruct t; reflexivity.
  - rewrite IH. reflexivity.
Qed.

Lemma substring_skip p : forall n s, substring (String.length p) n (p +:+ s) = substring 0 n s.
Proof.
  induction p as [|a p IH]; intros n s; rewrite ?append_nil, ?append_cons; cbn;
    [reflexivity | apply IH].
Qed.

Lemma length_append s t : String.length (s +:+ t) = (String.length s + String.length t)%nat.
Proof.
  induction s as [|a s IH]; rewrite ?append_nil, ?append_cons; cbn;
    [reflexivity | rewrite IH; reflexivity].
Qed.

Lemma append_assoc s t u : (s +:+ t) +:+ u = s +:+ (t +:+ u).
Proof.
  induction s as [|a s IH]; rewrite ?append_nil, ?append_cons;
    [reflexivity | rewrite IH; reflexivity].
Qed.

(** The first [c] of [s], when there is one, is at the index [find]
    gives. *)
Lemma find_from_spec c s : forall i,
  let r := PyStr.find_from c s i in
  r = (-1)%Z
  \/ ((i <= r)%Z /\ (r < i + Z.of_nat (String.length s))%Z
      /\ String.get (Z.to_nat (r - i)) s = Some c).
Proof.
  induction s as [|a s IH]; intros i; cbn [PyStr.find_from String.length].
  - left. reflexivity.
  - destruct (Ascii.eqb a c) eqn:E.
    + right. apply Ascii.eqb_eq in E. subst a.
      replace (i - i)%Z with 0%Z by lia. cbn. repeat split; lia.
    + destruct (IH (i + 1)%Z) as [H | (H1 & H2 & H3)]; [left; exact H|].
      right. split; [lia|]. split; [lia|].
      replace (Z.to_nat (PyStr.find_from c s (i + 1) - i))
        with (S (Z.to_nat (PyStr.find_from c s (i + 1) - (i + 1)))) by lia.
      exact H3.
Qed.

Lemma substring_head s : forall n m c,
  String.get n s = Some c ->
  substring n (S m) s = String c (substring (S n) m s).
Proof.
  induction s as [|a s IH]; intros [|n] m c; cbn; try discriminate.
  - intros [= ->]. reflexivity.
  - intros H. rewrite (IH _ _ _ H). reflexivity.
Qed.

End StringFacts.

(** ** Trimming, and dicts *)

Section TrimFacts.

Lemma lstrip_head s :
  PyStr.lstrip s = EmptyString
  \/ exists c r, PyStr.lstrip s = String c r /\ PyStr.is_space c = false.
Proof.
  induction s as [|a s IH]; [left; reflexivity|]. cbn [PyStr.lstrip].
  destruct (PyStr.is_space a) eqn:E; [exact IH|]. right. eauto.
Qed.

Lemma rstrip_cons c s :
  PyStr.rstrip (String c s)
  = match PyStr.rstrip s with
    | EmptyString => if PyStr.is_space c then EmptyString else String c EmptyString
    | r => String c r
    end.
Proof. reflexivity. Qed.

Lemma rstrip_head c r :
  PyStr.is_space c = false -> exists r', PyStr.rstrip (String c r) = String c r'.
Proof.
  intros Hc. rewrite rstrip_cons. destruct (PyStr.rstrip r); [rewrite Hc|]; eauto.
Qed.

Lemma rstrip_idempotent s : PyStr.rstrip (PyStr.rstrip s) = PyStr.rstrip s.
Proof.
  induction s as [|c s IH]; [reflexivity|]. rewrite rstrip_cons.
  destruct (PyStr.rstrip s) as [|b r] eqn:Hr.
  - destruct (PyStr.is_space c) eqn:Hc; [reflexivity|].
    rewrite rstrip_cons. cbn [PyStr.rstrip]. rewrite Hc. reflexivity.
  - rewrite rstrip_cons, IH. reflexivity.
Qed.

(** [strip] leaves a stripped text as it is. *)
Lemma strip_idempotent s : trimmed (PyStr.strip s).
Proof.
  unfold trimmed, PyStr.strip.
  destruct (lstrip_head s) as [-> | (c & r & -> & Hc)]; [reflexivity|].
  destruct (rstrip_head c r Hc) as [r' Hr']. rewrite Hr' at 1.
  cbn [PyStr.lstrip]. rewrite Hc, <- Hr'. apply rstrip_idempotent.
Qed.

Lemma nonempty_true s : PyStr.nonempty s = true <-> s <> EmptyString.
Proof. destruct s; cbn; split; congruence. Qed.

Lemma dict_lookup_set_eq d k v : dict_lookup (dict_set d k v) k = Some v.
Proof.
  induction d as [|[k' v'] d IH]; cbn [dict_set dict_lookup].
  - rewrite String.eqb_refl. reflexivity.
  - destruct (String.eqb k' k) eqn:E; cbn [dict_lookup]; rewrite E; [reflexivity | exact IH].
Qed.

Lemma dict_lookup_set_ne d k v k' :
  k' <> k -> dict_lookup (dict_set d k v) k' = dict_lookup d k'.
Proof.
  intros Hne. induction d as [|[k0 v0] d IH]; cbn [dict_set dict_lookup].
  - destruct (String.eqb k k') eqn:E; [apply String.eqb_eq in E; congruence | reflexivity].
  - destruct (String.eqb k0 k) eqn:E; cbn [dict_lookup].
    + apply String.eqb_eq in E. subst k0.
      destruct (String.eqb k k') eqn:E'; [apply String.eqb_eq in E'; congruence | reflexivity].
    + rewrite IH. reflexivity.
Qed.

End TrimFacts.

(** ** The small runtime obeys the laws asked of [json.loads] *)

Section MiniRuntimeLaws.

Lemma mini_members_dict : forall fuel s acc v rest,
  MiniJson.members fuel s acc = Some (v, rest) -> exists d, v = VDict d.
Proof.
  induction fuel as [|fuel IH]; intros s acc v rest; [discriminate|].
  cbn [MiniJson.members].
  repeat match goal with
         | |- None = Some _ -> _ => discriminate
         | |- Some _ = Some _ -> _ => intros [= <- <-]; eexists; reflexivity
         | |- MiniJson.members fuel _ _ = Some _ -> _ => apply IH
         | |- context [match ?x with _ => _ end] => destruct x
         end.
Qed.

Lemma mini_loads_object_from_brace : LoadsObjectFromBrace mini_runtime.
Proof.
  intros s v. cbn [json_loads mini_runtime]. unfold MiniJson.loads.
  replace (2 * String.length (String "{" s) + 2)%nat
    with (S (2 * String.length s + 3)) by (cbn [String.length]; lia).
  cbn [MiniJson.element MiniJson.skip_ws MiniJson.is_ws].
  change (MiniJson.is_ws "{") with false. cbv iota.
  change (Ascii.eqb "{" "{") with true. cbv iota.
  destruct (match MiniJson.skip_ws s with
            | String "}"%char rest' => Some (VDict [], rest')
            | _ => MiniJson.members (2 * String.length s + 3) s []
            end) as [[v' rest]|] eqn:Hel; [|discriminate].
  destruct (MiniJson.skip_ws rest); [|discriminate]. intros [= <-].
  revert Hel.
  repeat match goal with
         | |- Some _ = Some _ -> _ => intros [= <- <-]; eexists; reflexivity
         | |- MiniJson.members _ _ _ = Some _ -> _ => apply mini_members_dict
         | |- context [match ?x with _ => _ end] => destruct x
         end.
Qed.

Lemma mini_loads_rejects_no_object : LoadsRejectsNoObject mini_runtime.
Proof. split; eexists; vm_compute; reflexivity. Qed.

(** The small parser raises nothing but [JSONDecodeError]. *)
Lemma mini_loads_error_caught s : loads_error_caught (rt := mini_runtime) s.
Proof.
  intros e. cbn [json_loads mini_runtime]. unfold MiniJson.loads.
  destruct (MiniJson.element _ s) as [[v rest]|].
  - destruct (MiniJson.skip_ws rest); [discriminate|]. intros [= <-]. reflexivity.
  - intros [= <-]. reflexivity.
Qed.

End MiniRuntimeLaws.
(** * Properties *)

(** ** The quiz grader *)

Section QuizFacts.
Import QuizTypes.

(** A [str] key is never found among [int] keys. *)
Lemma key_get_int_keyed (answers : list (Z * string)) (k default : string) :
  key_get (int_keyed answers) (KStr k) default = default.
Proof.
  induction answers as [|[n a] rest IH]; simpl; [reflexivity | exact IH].
Qed.

Lemma grade_question_int_keyed answers acc idx question :
  Quiz.grade_question (int_keyed answers) acc idx question
  = Quiz.grade_question [] acc idx question.
Proof.
  unfold Quiz.grade_question. rewrite key_get_int_keyed. reflexivity.
Qed.

Lemma grade_loop_int_keyed answers questions : forall acc idx,
  Quiz.grade_loop (int_keyed answers) acc idx questions
  = Quiz.grade_loop [] acc idx questions.
Proof.
  induction questions as [|q rest IH]; intros acc idx; simpl; [reflexivity|].
  rewrite grade_question_int_keyed.
  destruct (Quiz.grade_question [] acc idx q) as [acc'|e]; simpl; [apply IH | reflexivity].
Qed.

(** The score of a request does not depend on the answers it carries. *)
Lemma score_of_attempt_ignores_answers questions attempt :
  Quiz.score_of_attempt questions attempt = Quiz.grade questions [].
Proof.
  unfold Quiz.score_of_attempt, Quiz.grade.
  destruct (py_iter questions) as [qs|e]; simpl; [|reflexivity].
  rewrite grade_loop_int_keyed. reflexivity.
Qed.

Lemma contains_nonempty needle hay :
  PyStr.nonempty needle = true -> PyStr.contains needle hay = true ->
  PyStr.nonempty hay = true.
Proof.
  destruct hay as [|c hay]; [|reflexivity].
  destruct needle; simpl; [discriminate|]. intros _ H. discriminate H.
Qed.

Lemma key_get_str_keyed answers idx :
  key_get (str_keyed answers) (KStr (PyStr.of_nat idx)) EmptyString
  = match QuizSpec.answer_by_str_key answers idx with
    | Some a => a
    | None => EmptyString
    end.
Proof.
  unfold QuizSpec.answer_by_str_key.
  induction answers as [|[k a] rest IH]; simpl; [reflexivity|].
  destruct (String.eqb k (PyStr.of_nat idx)); simpl; [reflexivity | exact IH].
Qed.

Lemma to_value_points q :
  py_get (QuizSpec.to_value q) "points" (VNum 1) = Ok (VNum (QuizSpec.points_value q)).
Proof. destruct q as [qt ca [p|]]; reflexivity. Qed.

Lemma to_value_correct_answer q :
  py_get (QuizSpec.to_value q) "correct_answer" (VStr EmptyString)
  = Ok (VStr (QuizSpec.correct_answer q)).
Proof. destruct q as [qt ca [p|]]; reflexivity. Qed.

Lemma to_value_question_type q :
  py_get (QuizSpec.to_value q) "question_type" VNone
  = Ok (VStr (QuizSpec.question_type q)).
Proof. destruct q as [qt ca [p|]]; reflexivity. Qed.

Lemma grade_question_str_keyed answers acc idx q :
  Quiz.grade_question (str_keyed answers) acc idx (QuizSpec.to_value q)
  = Ok (QuizSpec.add_question (QuizSpec.answer_by_str_key answers) acc (idx, q)).
Proof.
  destruct acc as [total earned].
  unfold Quiz.grade_question, QuizSpec.add_question, QuizSpec.earns,
    QuizSpec.exact_type, QuizSpec.normalize.
  rewrite key_get_str_keyed, to_value_points, to_value_correct_answer,
    to_value_question_type.
  cbn [mbind exc_bind as_number as_str eq_str fst snd].
  set (sa := PyStr.lower (PyStr.strip _)).
  set (ca := PyStr.lower (PyStr.strip _)).
  destruct (String.eqb _ "multiple_choice" || String.eqb _ "true_false").
  - destruct (String.eqb sa ca); reflexivity.
  - destruct (PyStr.nonempty sa) eqn:Hs; [|reflexivity].
    destruct (PyStr.contains sa ca) eqn:Hc.
    + rewrite (contains_nonempty _ _ Hs Hc). reflexivity.
    + rewrite andb_false_r. reflexivity.
Qed.

Lemma grade_loop_str_keyed answers qs : forall acc idx,
  Quiz.grade_loop (str_keyed answers) acc idx (map QuizSpec.to_value qs)
  = Ok (QuizSpec.totals_from idx qs (QuizSpec.answer_by_str_key answers) acc).
Proof.
  induction qs as [|q rest IH]; intros acc idx; [reflexivity|].
  cbn [map Quiz.grade_loop]. rewrite grade_question_str_keyed.
  cbn [mbind exc_bind]. rewrite IH. reflexivity.
Qed.

(** On a dict keyed by the [str] of the indices, as the loop reads it, the
    grader computes the score of the specification, as long as the points
    do not add up to a negative total. *)
Lemma grade_str_keyed_is_spec answers qs :
  (0 <= fst (QuizSpec.totals_from 0 qs (QuizSpec.answer_by_str_key answers) (0, 0)))%Q ->
  Quiz.grade (VList (map QuizSpec.to_value qs)) (str_keyed answers)
  = Ok (QuizSpec.score qs (QuizSpec.answer_by_str_key answers)).
Proof.
  intros Hpos. unfold Quiz.grade, QuizSpec.score. cbn [py_iter mbind exc_bind].
  rewrite grade_loop_str_keyed. cbn [mbind exc_bind].
  destruct (QuizSpec.totals_from _ _ _ _) as [total earned]. cbn [fst] in Hpos.
  unfold Quiz.percentage_score. f_equal.
  destruct (Qlt_le_dec 0 total) as [Hlt|Hle].
  - destruct (Qeq_bool total 0) eqn:E; [|reflexivity].
    apply Qeq_bool_iff in E. rewrite E in Hlt. exfalso. exact (Qlt_irrefl 0 Hlt).
  - assert (E : (total == 0)%Q) by (apply Qle_antisym; assumption).
    apply Qeq_bool_iff in E. rewrite E. reflexivity.
Qed.

Lemma grade_question_bounds answers total earned idx question total' earned' :
  nonneg_points question ->
  (0 <= earned)%Q -> (earned <= total)%Q ->
  Quiz.grade_question answers (total, earned) idx question = Ok (total', earned') ->
  (0 <= earned')%Q /\ (earned' <= total')%Q.
Proof.
  intros Hnn H0 H1. unfold Quiz.grade_question.
  destruct (py_get question "points" (VNum 1)) as [v|] eqn:Hv; [|discriminate].
  cbn [mbind exc_bind].
  destruct (as_number v) as [p|] eqn:Hp; [|discriminate].
  pose proof (Hnn v p Hv Hp) as Hp0.
  cbn [mbind exc_bind].
  destruct (py_get question "correct_answer" _) as [ca|]; [|discriminate].
  cbn [mbind exc_bind].
  destruct (as_str ca) as [cs|]; [|discriminate].
  cbn [mbind exc_bind].
  destruct (py_get question "question_type" _) as [qt|]; [|discriminate].
  cbn [mbind exc_bind].
  repeat match goal with
         | |- context [if ?b then _ else _] => destruct b
         end;
    intros [= <- <-]; split; lra.
Qed.

Lemma grade_loop_bounds answers questions : forall total earned idx total' earned',
  Forall nonneg_points questions ->
  (0 <= earned)%Q -> (earned <= total)%Q ->
  Quiz.grade_loop answers (total, earned) idx questions = Ok (total', earned') ->
  (0 <= earned')%Q /\ (earned' <= total')%Q.
Proof.
  induction questions as [|q rest IH]; intros total earned idx total' earned' Hall H0 H1.
  - intros [= <- <-]. split; assumption.
  - inversion Hall as [|? ? Hq Hrest]; subst. cbn [Quiz.grade_loop].
    destruct (Quiz.grade_question answers (total, earned) idx q) as [[t e]|] eqn:Hstep;
      [|discriminate].
    destruct (grade_question_bounds _ _ _ _ _ _ _ Hq H0 H1 Hstep) as [He0 He1].
    cbn [mbind exc_bind]. apply IH; assumption.
Qed.

Lemma grade_question_total answers total earned idx question total' earned' :
  Quiz.grade_question answers (total, earned) idx question = Ok (total', earned') ->
  exists v p, py_get question "points" (VNum 1) = Ok v /\ as_number v = Ok p
              /\ total' = (total + p)%Q.
Proof.
  unfold Quiz.grade_question.
  destruct (py_get question "points" (VNum 1)) as [v|] eqn:Hv; [|discriminate].
  cbn [mbind exc_bind].
  destruct (as_number v) as [p|] eqn:Hp; [|discriminate].
  cbn [mbind exc_bind].
  destruct (py_get question "correct_answer" _) as [ca|]; [|discriminate].
  cbn [mbind exc_bind].
  destruct (as_str ca) as [cs|]; [|discriminate].
  cbn [mbind exc_bind].
  destruct (py_get question "question_type" _) as [qt|]; [|discriminate].
  cbn [mbind exc_bind].
  repeat match goal with
         | |- context [if ?b then _ else _] => destruct b
         end;
    intros [= <- <-]; exists v, p; repeat split; assumption.
Qed.

(** The total of the loop stays within the limit the points are within. *)
Lemma grade_loop_within answers questions : forall limit total earned idx total' earned',
  points_within limit questions ->
  Quiz.grade_loop answers (total, earned) idx questions = Ok (total', earned') ->
  (total' <= total + limit)%Q.
Proof.
  induction questions as [|q rest IH]; intros limit total earned idx total' earned' Hw.
  - intros [= <- <-]. cbn in Hw. lra.
  - cbn [Quiz.grade_loop].
    destruct (Quiz.grade_question answers (total, earned) idx q) as [[t e]|] eqn:Hstep;
      [|discriminate].
    destruct (grade_question_total _ _ _ _ _ _ _ Hstep) as (v & p & Hv & Hp & ->).
    cbn [mbind exc_bind]. intros Hloop.
    pose proof (IH _ _ _ _ _ _ (Hw v p Hv Hp) Hloop). lra.
Qed.

Lemma percentage_score_bounds total earned :
  (0 <= earned)%Q -> (earned <= total)%Q ->
  (0 <= Quiz.percentage_score (total, earned))%Q
  /\ (Quiz.percentage_score (total, earned) <= 100)%Q.
Proof.
  intros H0 H1. unfold Quiz.percentage_score.
  destruct (Qlt_le_dec 0 total) as [Hpos|_]; [|split; lra].
  assert (Hlo : (0 <= earned / total)%Q) by (apply Qle_shift_div_l; [assumption | lra]).
  assert (Hhi : (earned / total <= 1)%Q) by (apply Qle_shift_div_r; [assumption | lra]).
  split; lra.
Qed.

Lemma well_typed_question_graded answers acc idx question :
  well_typed question -> exists acc', Quiz.grade_question answers acc idx question = Ok acc'.
Proof.
  intros (d & -> & [p Hp] & [s Hs]). destruct acc as [total earned].
  unfold Quiz.grade_question. cbn [py_get mbind exc_bind].
  rewrite Hp, Hs. cbn [mbind exc_bind as_str].
  repeat match goal with
         | |- context [if ?b then _ else _] => destruct b
         end; eexists; reflexivity.
Qed.

Lemma well_typed_loop_graded answers questions : forall acc idx,
  Forall well_typed questions ->
  exists acc', Quiz.grade_loop answers acc idx questions = Ok acc'.
Proof.
  induction questions as [|q rest IH]; intros acc idx Hall.
  - eexists; reflexivity.
  - inversion Hall as [|? ? Hq Hrest]; subst. cbn [Quiz.grade_loop].
    destruct (well_typed_question_graded answers acc idx q Hq) as [acc' ->].
    cbn [mbind exc_bind]. apply IH; assumption.
Qed.

End QuizFacts.

(** C1 (the code departs from it).  For the quiz with one true/false
    question whose correct answer is [true] and the attempt that answers
    [ TRUE ] at index 0, [submit_quiz_attempt] computes the score 0: it
    looks the answer up under the [str] key of the index, the keys of
    [Dict[int, str]] are [int], and the answer is never found.  The
    reference definition of the specification gives 100. *)
Theorem C1_attempt_answers_never_found :
  (exists s, Quiz.score_of_attempt
               (VList [QuizSpec.to_value true_false_question]) true_false_attempt = Ok s
             /\ (s == 0)%Q)
  /\ (QuizSpec.score [true_false_question]
        (QuizSpec.answer_by_index (qa_answers true_false_attempt)) == 100)%Q.
Proof.
  split.
  - eexists. split; [vm_compute; reflexivity | reflexivity].
  - vm_compute. reflexivity.
Qed.

(** With a negative total the guard [total_points > 0] gives 0, where the
    formula of the specification divides: here, on a dict with [str] keys
    and a correct answer, 0 against 100. *)
Lemma negative_total_scores_zero :
  Quiz.grade (VList [QuizSpec.to_value negative_question]) (str_keyed [("0", "true")])
  = Ok 0%Q
  /\ (QuizSpec.score [negative_question] (QuizSpec.answer_by_str_key [("0", "true")])
      == 100)%Q.
Proof. split; [vm_compute; reflexivity | vm_compute; reflexivity]. Qed.

(** C9, as stated, fails: with points 3 and -1 the total is 2, the earned
    points are 3, and the score is 150. *)
Lemma C9_counterexample_negative_points :
  exists s, Quiz.score_of_attempt mixed_sign_quiz empty_attempt = Ok s
            /\ (s == 150)%Q /\ ~ ((0 <= s)%Q /\ (s <= 100)%Q).
Proof.
  eexists. split; [vm_compute; reflexivity|]. split; [reflexivity|].
  intros [_ H]. revert H. vm_compute. intros H. apply H. reflexivity.
Qed.

(** C9 (amended).  When no question of the quiz has negative points and
    the points add up to at most [2^53], the score [submit_quiz_attempt]
    computes lies in [0, 100]: the two totals of the loop satisfy
    [0 <= earned <= total <= 2^53], a range in which no sum of the code
    overflows and an [int] total becomes a [float] without rounding.  The
    grader does compute a score when every question is an object whose
    points are a number and whose correct answer is a text.  (Beyond the
    range the code departs from the exact arithmetic: two questions of
    [1e308] points add up to [inf] and the score is [nan].) *)
Theorem C9_score_between_0_and_100 (questions : value) (qs : list value)
    (attempt : QuizAttemptCreate) :
  py_iter questions = Ok qs ->
  Forall QuizTypes.nonneg_points qs ->
  QuizTypes.points_within QuizTypes.exact_total_limit qs ->
  (Forall QuizTypes.well_typed qs ->
     exists s, Quiz.score_of_attempt questions attempt = Ok s)
  /\ (forall total earned,
        Quiz.grade_loop (int_keyed (qa_answers attempt)) (0, 0)%Q 0 qs = Ok (total, earned) ->
        (0 <= earned)%Q /\ (earned <= total)%Q
        /\ (total <= QuizTypes.exact_total_limit)%Q)
  /\ (forall s, Quiz.score_of_attempt questions attempt = Ok s ->
        (0 <= s)%Q /\ (s <= 100)%Q).
Proof.
  intros Hiter Hnn Hwithin. unfold Quiz.score_of_attempt, Quiz.grade.
  rewrite Hiter. cbn [mbind exc_bind]. split; [|split].
  - intros Hwt.
    destruct (well_typed_loop_graded (int_keyed (qa_answers attempt)) qs (0, 0)%Q 0%nat Hwt)
      as [acc ->].
    eexists; reflexivity.
  - intros total earned Hloop.
    destruct (grade_loop_bounds _ _ _ _ _ _ _ Hnn (Qle_refl 0) (Qle_refl 0) Hloop).
    pose proof (grade_loop_within _ _ _ _ _ _ _ _ Hwithin Hloop).
    repeat split; [assumption | assumption | lra].
  - intros s.
    destruct (Quiz.grade_loop _ _ _ qs) as [[total earned]|] eqn:Hloop; [|discriminate].
    cbn [mbind exc_bind]. intros [= <-].
    destruct (grade_loop_bounds _ _ _ _ _ _ _ Hnn (Qle_refl 0) (Qle_refl 0) Hloop).
    apply percentage_score_bounds; assumption.
Qed.

Lemma C9_score_between_0_and_100_witness :
  exists s, Quiz.score_of_attempt
              (VList [QuizSpec.to_value true_false_question]) true_false_attempt = Ok s
            /\ (0 <= s)%Q /\ (s <= 100)%Q.
Proof.
  assert (Hnn : Forall QuizTypes.nonneg_points [QuizSpec.to_value true_false_question]).
  { constructor; [|constructor]. intros v p [= <-] [= <-]. discriminate. }
  assert (Hwt : Forall QuizTypes.well_typed [QuizSpec.to_value true_false_question]).
  { constructor; [|constructor]. eexists. split; [reflexivity|].
    split; eexists; reflexivity. }
  assert (Hwithin : QuizTypes.points_within QuizTypes.exact_total_limit
                      [QuizSpec.to_value true_false_question]).
  { intros v p [= <-] [= <-]. vm_compute. discriminate. }
  destruct (C9_score_between_0_and_100
              (VList [QuizSpec.to_value true_false_question])
              [QuizSpec.to_value true_false_question] true_false_attempt
              eq_refl Hnn Hwithin) as (Hex & _ & Hb).
  destruct (Hex Hwt) as [s Hs]. exists s. split; [exact Hs | exact (Hb s Hs)].
Defined.

(** ** The span between the braces *)

Section Span.

Lemma clip_nonneg len i : (0 <= len)%Z -> (0 <= PyStr.clip len i)%Z.
Proof. unfold PyStr.clip. destruct (i <? 0)%Z eqn:E; lia. Qed.

Lemma slice_to_zero s i : PyStr.slice s i 0 = EmptyString.
Proof.
  unfold PyStr.slice.
  pose proof (clip_nonneg (Z.of_nat (String.length s)) i ltac:(lia)) as Ha.
  assert (Hb : PyStr.clip (Z.of_nat (String.length s)) 0 = 0%Z)
    by (unfold PyStr.clip; simpl; lia).
  rewrite Hb. destruct (_ <? 0)%Z eqn:E; [lia | reflexivity].
Qed.

(** [rfind] stays below the length, and when it is the last index the last
    character is the one looked for. *)
Lemma rfind_from_spec c s : forall i last,
  (last < i)%Z ->
  let r := PyStr.rfind_from c s i last in
  (last <= r)%Z /\ (r < i + Z.of_nat (String.length s))%Z
  /\ (r = i + Z.of_nat (String.length s) - 1 -> (0 < String.length s)%nat ->
      substring (String.length s - 1) 1 s = String c EmptyString)%Z.
Proof.
  induction s as [|a s IH]; intros i last Hlt; cbn [PyStr.rfind_from String.length].
  - cbn. split; [lia|]. split; [lia|]. intros _ H. lia.
  - set (last' := if Ascii.eqb a c then i else last).
    assert (Hl' : (last' < i + 1)%Z) by (subst last'; destruct (Ascii.eqb a c); lia).
    assert (Hl'' : (last <= last')%Z) by (subst last'; destruct (Ascii.eqb a c); lia).
    destruct (IH (i + 1)%Z last' Hl') as (H1 & H2 & H3).
    split; [lia|]. split; [lia|]. intros Hr _.
    destruct s as [|b s'].
    + cbn in Hr |- *. subst last'.
      destruct (Ascii.eqb a c) eqn:E; [|lia].
      apply Ascii.eqb_eq in E. subst a. reflexivity.
    + replace (S (String.length (String b s')) - 1)%nat
        with (S (String.length (String b s') - 1)) by (cbn; lia).
      cbn [substring]. apply H3; [|cbn; lia].
      rewrite Hr. cbn [String.length]. lia.
Qed.

Lemma json_span_without_closing_brace response :
  PyStr.rfind "}" response = (-1)%Z -> OllamaService.json_span response = EmptyString.
Proof.
  intros H. unfold OllamaService.json_span. rewrite H. apply slice_to_zero.
Qed.

Lemma json_span_without_opening_brace response :
  PyStr.find "{" response = (-1)%Z ->
  OllamaService.json_span response = EmptyString
  \/ OllamaService.json_span response = "}".
Proof.
  intros H. unfold OllamaService.json_span. rewrite H.
  destruct (rfind_from_spec "}" response 0 (-1) ltac:(lia)) as (H1 & H2 & H3).
  fold (PyStr.rfind "}" response) in H1, H2, H3.
  set (r := PyStr.rfind "}" response) in *.
  unfold PyStr.slice. set (len := String.length response) in *.
  assert (Ha : PyStr.clip (Z.of_nat len) (-1) = Z.max 0 (-1 + Z.of_nat len))
    by reflexivity.
  assert (Hb : PyStr.clip (Z.of_nat len) (r + 1) = Z.min (r + 1) (Z.of_nat len))
    by (unfold PyStr.clip; destruct (r + 1 <? 0)%Z eqn:E; [lia | reflexivity]).
  rewrite Ha, Hb.
  destruct (Z.max 0 (-1 + Z.of_nat len) <? Z.min (r + 1) (Z.of_nat len))%Z eqn:E2;
    [|left; reflexivity].
  right. apply Z.ltb_lt in E2.
  assert (Hlen : (0 < len)%nat) by lia.
  assert (Hr : (r = 0 + Z.of_nat len - 1)%Z) by lia.
  replace (Z.to_nat (Z.max 0 (-1 + Z.of_nat len))) with (len - 1)%nat by lia.
  replace (Z.to_nat (Z.min (r + 1) (Z.of_nat len) - Z.max 0 (-1 + Z.of_nat len)))
    with 1%nat by lia.
  apply H3; assumption.
Qed.




(** The slice is empty, or a lone closing brace, or begins with the first
    opening brace of the reply. *)
Lemma json_span_cases response :
  OllamaService.json_span response = EmptyString
  \/ OllamaService.json_span response = "}"
  \/ exists rest, OllamaService.json_span response = String "{"%char rest.
Proof.
  destruct (find_from_spec "{" response 0) as [Hnone | (H1 & H2 & H3)].
  - destruct (json_span_without_opening_brace response Hnone) as [H | H]; auto.
  - fold (PyStr.find "{" response) in H1, H2, H3.
    unfold OllamaService.json_span, PyStr.slice.
    set (i := PyStr.find "{" response) in *.
    set (len := String.length response) in *.
    assert (Ha : PyStr.clip (Z.of_nat len) i = i)
      by (unfold PyStr.clip; destruct (i <? 0)%Z eqn:E; lia).
    rewrite Ha. destruct (i <? _)%Z eqn:E; [|left; reflexivity].
    right. right. apply Z.ltb_lt in E.
    set (b := PyStr.clip (Z.of_nat len) (PyStr.rfind "}" response + 1)) in *.
    replace (Z.to_nat (b - i)) with (S (Z.to_nat (b - i) - 1)) by lia.
    rewrite Z.sub_0_r in H3. rewrite (substring_head _ _ _ _ H3).
    eexists; reflexivity.
Qed.



End Span.

(** ** Essay grading *)

Section EssayFacts.
Context {rt : PyRuntime}.

Lemma essay_extract_on_decode_error response max_points msg :
  json_loads (OllamaService.json_span response) = Raise (JSONDecodeError msg) ->
  OllamaService.essay_extract response max_points
  = Ok (OllamaService.essay_fallback response max_points).
Proof.
  intros H. unfold OllamaService.essay_extract, OllamaService.essay_parse.
  rewrite H. reflexivity.
Qed.

Lemma essay_extract_on_object response max_points d :
  json_loads (OllamaService.json_span response) = Ok (VDict d) ->
  OllamaService.essay_extract response max_points
  = Ok [ ("score", dict_get d "overall_score" (VNum (max_points * 0.7)));
         ("feedback", dict_get d "detailed_feedback" (VStr "Good work! Keep improving."));
         ("rubric_scores", dict_get d "rubric_scores" (VDict []));
         ("strengths", dict_get d "strengths" (VList []));
         ("areas_for_improvement", dict_get d "areas_for_improvement" (VList [])) ].
Proof.
  intros H. unfold OllamaService.essay_extract, OllamaService.essay_parse.
  rewrite H. reflexivity.
Qed.

End EssayFacts.

(** C4.  When the reply has no opening brace, or no closing brace, or the
    text between the first opening and the last closing brace is not valid
    JSON, essay grading returns the fallback payload: the score is
    0.75 x max_points, the feedback is the reply itself, and rubric scores,
    strengths and areas for improvement are empty. *)
Theorem C4_essay_fallback_on_failed_extraction
    (rt : PyRuntime) (Hloads : LoadsRejectsNoObject rt)
    (response : string) (max_points : Q) :
  extraction_fails response ->
  OllamaService.essay_extract response max_points
  = Ok [ ("score", VNum (max_points * 0.75));
         ("feedback", VStr response);
         ("rubric_scores", VDict []);
         ("strengths", VList []);
         ("areas_for_improvement", VList []) ].
Proof.
  destruct Hloads as [[m1 He] [m2 Hc]].
  intros [Hopen | [Hclose | [msg Hbad]]].
  - destruct (json_span_without_opening_brace response Hopen) as [Hs | Hs].
    + apply (essay_extract_on_decode_error _ _ m1). rewrite Hs. exact He.
    + apply (essay_extract_on_decode_error _ _ m2). rewrite Hs. exact Hc.
  - apply (essay_extract_on_decode_error _ _ m1).
    rewrite (json_span_without_closing_brace response Hclose). exact He.
  - exact (essay_extract_on_decode_error _ _ msg Hbad).
Qed.

Lemma C4_essay_fallback_on_failed_extraction_witness :
  OllamaService.essay_extract (rt := mini_runtime) reply_without_json 100
  = Ok [ ("score", VNum (100 * 0.75));
         ("feedback", VStr reply_without_json);
         ("rubric_scores", VDict []);
         ("strengths", VList []);
         ("areas_for_improvement", VList []) ].
Proof.
  apply (C4_essay_fallback_on_failed_extraction mini_runtime).
  - split; eexists; vm_compute; reflexivity.
  - left. vm_compute. reflexivity.
Defined.

(** C10.  When the reply holds a JSON object that parses, a missing
    [overall_score] gives the score 0.7 x max_points, which differs from
    the 0.75 x max_points of the fallback unless max_points is 0, and a
    missing [detailed_feedback] gives the fixed text, not the reply. *)
Theorem C10_essay_defaults_for_missing_fields
    (rt : PyRuntime) (response : string) (max_points : Q) (d : pydict) :
  json_loads (OllamaService.json_span response) = Ok (VDict d) ->
  exists r, OllamaService.essay_extract response max_points = Ok r
    /\ (dict_lookup d "overall_score" = None ->
          dict_lookup r "score" = Some (VNum (max_points * 0.7))
          /\ (~ (max_points == 0)%Q -> ~ (max_points * 0.7 == max_points * 0.75)%Q))
    /\ (dict_lookup d "detailed_feedback" = None ->
          dict_lookup r "feedback" = Some (VStr "Good work! Keep improving.")).
Proof.
  intros Hparse. eexists. split; [apply essay_extract_on_object; exact Hparse|].
  split.
  - intros Hnone. split.
    + cbn [dict_lookup String.eqb Ascii.eqb Bool.eqb]. unfold dict_get. rewrite Hnone.
      reflexivity.
    + intros Hnz Heq. apply Hnz. lra.
  - intros Hnone. cbn [dict_lookup String.eqb Ascii.eqb Bool.eqb].
    unfold dict_get. rewrite Hnone. reflexivity.
Qed.

Lemma C10_essay_defaults_for_missing_fields_witness :
  exists r, OllamaService.essay_extract (rt := mini_runtime) reply_strengths_only 100 = Ok r
    /\ dict_lookup r "score" = Some (VNum (100 * 0.7))
    /\ ~ (100 * 0.7 == 100 * 0.75)%Q
    /\ dict_lookup r "feedback" = Some (VStr "Good work! Keep improving.").
Proof.
  destruct (C10_essay_defaults_for_missing_fields mini_runtime reply_strengths_only 100
              [("strengths", VList [VStr "clear"])] eq_refl)
    as (r & Hr & Hscore & Hfeedback).
  exists r. destruct (Hscore eq_refl) as [Hs Hd].
  split; [exact Hr|]. split; [exact Hs|].
  split; [apply Hd; discriminate | exact (Hfeedback eq_refl)].
Defined.

(** ** The five extractors on a reply that holds an object *)

Section ExtractorFacts.
Context {rt : PyRuntime}.






Lemma questions_parse_on_object response d :
  json_loads (OllamaService.json_span response) = Ok (VDict d) ->
  OllamaService.questions_parse response = Ok (dict_get d "questions" (VList [])).
Proof.
  intros Hparse. unfold OllamaService.questions_parse. rewrite Hparse. reflexivity.
Qed.


End ExtractorFacts.




(** ** The grading task *)

Section TaskFacts.
Import Models.
Context {rt : PyRuntime}.

(** A database that cannot be read cannot be written. *)
Lemma commit_ok_query_ok env : commit_ok env = true -> query_ok env = true.
Proof. unfold commit_ok, query_ok. destruct (session env); congruence. Qed.

Lemma query_failed_commit_failed env : query_ok env = false -> commit_ok env = false.
Proof. unfold commit_ok, query_ok. destruct (session env); congruence. Qed.

(** The task when a read fails: the error goes to the caller, nothing is
    written and nothing is printed. *)
Lemma grade_submission_task_unread env submission_id w :
  query_ok env = false ->
  Assignments.grade_submission_task env submission_id w = (Raise DatabaseError, w).
Proof.
  intros Hq. unfold Assignments.grade_submission_task, Assignments.first_row.
  rewrite Hq. reflexivity.
Qed.

(** The task, by the outcome of its [try] block. *)
Lemma grade_submission_task_cases env submission_id w submission assignment :
  query_ok env = true ->
  submissions (db w) !! submission_id = Some submission ->
  assignments (db w) !! assignment_id submission = Some assignment ->
  Assignments.grade_submission_task env submission_id w
  = match Assignments.graded_submission env submission assignment with
    | Ok graded =>
        if commit_ok env
        then (Ok tt, {| db := Assignments.with_submission (db w) submission_id graded;
                        stdout := stdout w ++ [] |})
        else (Ok tt, {| db := db w;
                        stdout := stdout w
                                  ++ [grading_error_line submission_id DatabaseError] |})
    | Raise e =>
        (Ok tt, {| db := db w;
                   stdout := stdout w ++ [grading_error_line submission_id e] |})
    end.
Proof.
  intros Hq Hs Ha. unfold Assignments.grade_submission_task, Assignments.first_row.
  rewrite Hq, Hs, Ha.
  destruct (Assignments.graded_submission env submission assignment) as [g|e];
    cbn [mbind exc_bind try_except any_exception]; [|reflexivity].
  unfold Assignments.commit. destruct (commit_ok env); reflexivity.
Qed.

Lemma grade_submission_task_missing env submission_id w :
  query_ok env = true ->
  (submissions (db w) !! submission_id = None
   \/ exists submission, submissions (db w) !! submission_id = Some submission
        /\ assignments (db w) !! assignment_id submission = None) ->
  Assignments.grade_submission_task env submission_id w = (Ok tt, w).
Proof.
  intros Hq. unfold Assignments.grade_submission_task, Assignments.first_row. rewrite Hq.
  intros [-> | (s & -> & ->)]; reflexivity.
Qed.


(** What the [try] block makes of the submission object. *)
Lemma graded_submission_fields env submission assignment graded :
  Assignments.graded_submission env submission assignment = Ok graded ->
  assignment_id graded = assignment_id submission
  /\ student_id graded = student_id submission
  /\ content graded = content submission
  /\ graded_at graded = Some (now env).
Proof.
  unfold Assignments.graded_submission.
  destruct (py_get _ "questions" _) as [questions|]; [|discriminate].
  cbn [mbind exc_bind].
  destruct (Assignments.is_answer_sheet _ questions) as [sheet|]; [|discriminate].
  cbn [mbind exc_bind].
  destruct (if sheet then _ else _) as [[[sc fb] res]|]; [|discriminate].
  cbn [mbind exc_bind]. intros [= <-]. repeat split.
Qed.





(** The manual route asks the backend for an essay grade and nothing
    else. *)
Lemma grade_submission_manual_reads_essay_replies env1 env2 submission_id w :
  (forall r e m, backend env1 (EssayPrompt r e m) = backend env2 (EssayPrompt r e m)) ->
  now env1 = now env2 -> commit_ok env1 = commit_ok env2 ->
  Assignments.grade_submission_manual env1 submission_id w
  = Assignments.grade_submission_manual env2 submission_id w.
Proof.
  intros Hb Hn Hc. unfold Assignments.grade_submission_manual.
  destruct (submissions (db w) !! submission_id) as [s|]; [|reflexivity].
  destruct (assignments (db w) !! assignment_id s) as [a|]; [|reflexivity].
  assert (H : Assignments.manual_attempt env1 submission_id s a (db w)
              = Assignments.manual_attempt env2 submission_id s a (db w)).
  { unfold Assignments.manual_attempt, OllamaService.grade_essay, OllamaService._generate,
      Assignments.commit.
    rewrite Hb, Hn, Hc. reflexivity. }
  rewrite H. reflexivity.
Qed.

(** The test of line 162, spelled out. *)
Lemma is_answer_sheet_true fields questions :
  Assignments.is_answer_sheet (VDict fields) questions = Ok true
  <-> truthy questions = true
      /\ eq_str (dict_get fields "grading_type" VNone) "answer_sheet" = true.
Proof.
  unfold Assignments.is_answer_sheet. destruct (truthy questions); cbn.
  - split; [intros [= ->]; split; reflexivity | intros [_ ->]; reflexivity].
  - split; [discriminate | intros [H _]; discriminate H].
Qed.

End TaskFacts.

(** ** The states the store reaches *)

Section ReachFacts.
Import Models.
Context {rt : PyRuntime}.

Lemma submit_assignment_writes env submission w :
  Reach.writes_blank_or_graded w (snd (Assignments.submit_assignment env submission w)).
Proof.
  unfold Assignments.submit_assignment.
  destruct (assignments (db w) !! _); [|left; reflexivity].
  destruct (decide _); [|left; reflexivity].
  unfold Assignments.commit. destruct (commit_ok env); [|left; reflexivity].
  right. do 2 eexists. split; [reflexivity|]. intros _. repeat split.
Qed.

Lemma grade_submission_task_writes env submission_id w :
  Reach.writes_blank_or_graded w (snd (Assignments.grade_submission_task env submission_id w)).
Proof.
  destruct (query_ok env) eqn:Hq;
    [|rewrite (grade_submission_task_unread _ _ _ Hq); left; reflexivity].
  destruct (submissions (db w) !! submission_id) as [s|] eqn:Hs.
  - destruct (assignments (db w) !! assignment_id s) as [a|] eqn:Ha.
    + rewrite (grade_submission_task_cases _ _ _ _ _ Hq Hs Ha).
      destruct (Assignments.graded_submission env s a) as [g|e] eqn:Hg;
        [|left; reflexivity].
      destruct (commit_ok env); [|left; reflexivity].
      right. exists submission_id, g. split; [reflexivity|].
      destruct (graded_submission_fields _ _ _ _ Hg) as (_ & _ & _ & Hat).
      intros Hnone. rewrite Hat in Hnone. discriminate.
    + rewrite grade_submission_task_missing; [left; reflexivity | exact Hq | right; eauto].
  - rewrite grade_submission_task_missing; [left; reflexivity | exact Hq | left; exact Hs].
Qed.

Lemma manual_attempt_writes env submission_id submission assignment d d' response :
  Assignments.manual_attempt env submission_id submission assignment d = Ok (d', response) ->
  exists s, d' = Assignments.with_submission d submission_id s
            /\ graded_at s = Some (now env).
Proof.
  unfold Assignments.manual_attempt.
  destruct (OllamaService.grade_essay _ _ _ _) as [res|]; [|discriminate].
  cbn [mbind exc_bind].
  destruct (dict_item res "score") as [sc|]; [|discriminate]. cbn [mbind exc_bind].
  destruct (dict_item res "feedback") as [fb|]; [|discriminate]. cbn [mbind exc_bind].
  destruct (dict_item res "rubric_scores") as [rs|]; [|discriminate].
  cbn [mbind exc_bind]. unfold Assignments.commit.
  destruct (commit_ok env); [|discriminate].
  cbn [mbind exc_bind]. intros [= <- _]. eexists. split; reflexivity.
Qed.

Lemma grade_submission_manual_writes env submission_id w :
  Reach.writes_blank_or_graded w (snd (Assignments.grade_submission_manual env submission_id w)).
Proof.
  unfold Assignments.grade_submission_manual.
  destruct (submissions (db w) !! submission_id) as [s|]; [|left; reflexivity].
  destruct (assignments (db w) !! assignment_id s) as [a|]; [|left; reflexivity].
  destruct (Assignments.manual_attempt env submission_id s a (db w))
    as [[d' response]|] eqn:Hm; [|left; reflexivity].
  destruct (manual_attempt_writes _ _ _ _ _ _ _ Hm) as (g & -> & Hat).
  assert (Hblank : Reach.ungraded_is_blank g)
    by (intros Hnone; rewrite Hat in Hnone; discriminate).
  destruct response; right; exists submission_id, g; (split; [reflexivity | exact Hblank]).
Qed.

Lemma step_writes w w' : Reach.step w w' -> Reach.writes_blank_or_graded w w'.
Proof.
  intros [env sc w0 | env id w0 | env id w0 | w0 w1 Hsame].
  - apply submit_assignment_writes.
  - apply grade_submission_task_writes.
  - apply grade_submission_manual_writes.
  - left. exact Hsame.
Qed.

Lemma step_keeps_blank_until_graded w w' :
  Reach.step w w' -> Reach.blank_until_graded w -> Reach.blank_until_graded w'.
Proof.
  intros Hstep Hinv id s. destruct (step_writes _ _ Hstep) as [-> | (id' & s' & -> & Hs')].
  - apply Hinv.
  - destruct (decide (id' = id)) as [->|Hne].
    + rewrite lookup_insert_eq. intros [= <-]. exact Hs'.
    + rewrite lookup_insert_ne by exact Hne. apply Hinv.
Qed.

Lemma reachable_blank_until_graded w :
  Reach.reachable w -> Reach.blank_until_graded w.
Proof.
  unfold Reach.reachable. revert w. apply rtc_ind_r.
  - intros id s. cbn. rewrite lookup_empty. discriminate.
  - intros y z _ Hstep IH. exact (step_keeps_blank_until_graded _ _ Hstep IH).
Qed.

End ReachFacts.

Lemma after_null_score_reachable : Reach.reachable (rt := mini_runtime) after_null_score.
Proof.
  unfold Reach.reachable, after_null_score, after_submission.
  eapply rtc_r; [eapply rtc_r; [apply rtc_once|]|].
  - apply (Reach.step_other Reach.initial courses_only). reflexivity.
  - apply Reach.step_submit.
  - apply Reach.step_task.
Qed.

(** C5, as stated, fails.  After one submission to an essay assignment and
    one run of the task on the reply
    [{"overall_score": null, "detailed_feedback": "See comments."}] the
    stored submission has [graded_at] set and no score. *)
Lemma C5_counterexample_null_score :
  Reach.reachable (rt := mini_runtime) after_null_score
  /\ exists s, Models.submissions (Models.db after_null_score) !! 1%Z = Some s
       /\ Models.graded_at s = Some 7%Z
       /\ Models.score s = VNone
       /\ ~ Reach.graded_iff_scored s.
Proof.
  split; [exact after_null_score_reachable|].
  eexists. split; [vm_compute; reflexivity|].
  split; [reflexivity|]. split; [reflexivity|].
  intros [Hto _]. destruct Hto as [Hscore _]; [eexists; reflexivity|].
  apply Hscore. reflexivity.
Qed.

(** C5 (amended).  In every state the store reaches, a submission whose
    [graded_at] is absent has no score, no feedback and no rubric scores: a
    grading operation writes the four columns in one commit or writes none
    of them. *)
Theorem C5_no_grade_without_graded_at
    (rt : PyRuntime) (w : Models.World) (id : Z) (s : Models.Submission) :
  Reach.reachable w ->
  Models.submissions (Models.db w) !! id = Some s ->
  Models.graded_at s = None ->
  Models.score s = VNone /\ Models.feedback s = VNone /\ Models.rubric_scores s = VNone.
Proof.
  intros Hreach Hs. exact (reachable_blank_until_graded w Hreach id s Hs).
Qed.

Lemma after_submission_reachable : Reach.reachable (rt := mini_runtime) after_submission.
Proof.
  unfold Reach.reachable, after_submission.
  eapply rtc_r; [apply rtc_once|].
  - apply (Reach.step_other Reach.initial courses_only). reflexivity.
  - apply Reach.step_submit.
Qed.

Lemma C5_no_grade_without_graded_at_witness :
  Models.submissions (Models.db after_submission) !! 1%Z = Some (ungraded 1 "My essay.")
  /\ Models.score (ungraded 1 "My essay.") = VNone
  /\ Models.feedback (ungraded 1 "My essay.") = VNone
  /\ Models.rubric_scores (ungraded 1 "My essay.") = VNone.
Proof.
  assert (Hs : Models.submissions (Models.db after_submission) !! 1%Z
               = Some (ungraded 1 "My essay.")) by (vm_compute; reflexivity).
  split; [exact Hs|].
  exact (C5_no_grade_without_graded_at mini_runtime after_submission 1
           (ungraded 1 "My essay.") after_submission_reachable Hs eq_refl).
Defined.

(** ** Failure, repetition and the score of the task *)




(** C8.  When the task takes the answer-sheet branch and succeeds, the
    score it stores is the percentage of the extracted result, divided by
    100 and multiplied by the [max_points] of the assignment; a percentage
    of 80 with 100 points gives 80. *)
Theorem C8_answer_sheet_score_from_percentage
    (rt : PyRuntime) (env : Env) (submission_id : Z) (w : Models.World)
    (submission graded : Models.Submission) (assignment : Models.Assignment)
    (questions : value) :
  Models.submissions (Models.db w) !! submission_id = Some submission ->
  Models.assignments (Models.db w) !! Models.assignment_id submission = Some assignment ->
  py_get (Assignments.rubric_or_empty assignment) "questions" (VList []) = Ok questions ->
  Assignments.is_answer_sheet (Assignments.rubric_or_empty assignment) questions = Ok true ->
  Assignments.graded_submission env submission assignment = Ok graded ->
  commit_ok env = true ->
  exists result percentage,
    OllamaService.parse_and_grade_answer_sheet (backend env)
      (Models.content submission) questions (Models.max_points assignment) = Ok result
    /\ as_number (dict_get result "percentage" (VNum 0)) = Ok percentage
    /\ Models.submissions
         (Models.db (snd (Assignments.grade_submission_task env submission_id w)))
         !! submission_id = Some graded
    /\ Models.score graded = VNum (percentage / 100 * Models.max_points assignment)
    /\ ((percentage == 80)%Q -> (Models.max_points assignment == 100)%Q ->
        (percentage / 100 * Models.max_points assignment == 80)%Q).
Proof.
  intros Hs Ha Hq Hsheet Hg Hcommit.
  rewrite (grade_submission_task_cases _ _ _ _ _ (commit_ok_query_ok _ Hcommit) Hs Ha),
    Hg, Hcommit.
  revert Hg. unfold Assignments.graded_submission. rewrite Hq. cbn [mbind exc_bind].
  rewrite Hsheet. cbn [mbind exc_bind]. unfold Assignments.answer_sheet_branch.
  destruct (OllamaService.parse_and_grade_answer_sheet _ _ _ _) as [result|] eqn:Hr;
    [|discriminate].
  cbn [mbind exc_bind].
  destruct (as_number _) as [percentage|] eqn:Hp; [|discriminate]. cbn [mbind exc_bind].
  destruct (Assignments.answer_sheet_feedback result) as [fb|]; [|discriminate].
  cbn [mbind exc_bind]. intros [= <-].
  exists result, percentage. split; [reflexivity|]. split; [exact Hp|].
  split; [cbn; apply lookup_insert_eq|]. split; [reflexivity|].
  intros H80 H100. rewrite H80, H100. reflexivity.
Qed.

Lemma C8_answer_sheet_score_from_percentage_witness :
  exists graded,
    Models.submissions
      (Models.db (snd (Assignments.grade_submission_task (rt := mini_runtime)
                         (env_at backend_by_prompt 7) 2 sample_world))) !! 2%Z
    = Some graded
    /\ exists score, Models.score graded = VNum score /\ (score == 80)%Q.
Proof.
  destruct (Assignments.graded_submission (rt := mini_runtime)
              (env_at backend_by_prompt 7) (ungraded 2 "1. A part.")
              answer_sheet_assignment) as [graded|] eqn:Hg;
    [|vm_compute in Hg; discriminate Hg].
  destruct (C8_answer_sheet_score_from_percentage mini_runtime
              (env_at backend_by_prompt 7) 2 sample_world
              (ungraded 2 "1. A part.") graded answer_sheet_assignment
              (VList [sheet_question]))
    as (result & percentage & Hresult & Hp & Hstored & Hscore & Hex);
    [vm_compute; reflexivity | vm_compute; reflexivity | reflexivity
    | reflexivity | exact Hg | reflexivity |].
  exists graded. split; [exact Hstored|].
  exists (percentage / 100 * 100)%Q. split; [exact Hscore|].
  apply Hex; [|reflexivity].
  vm_compute in Hresult. injection Hresult as <-. vm_compute in Hp.
  injection Hp as <-. reflexivity.
Defined.

Section TwoRuns.
Import Models.
Context {rt : PyRuntime}.

(** The store the task leaves, from the store it finds. *)
Lemma grade_submission_task_db env submission_id w :
  db (snd (Assignments.grade_submission_task env submission_id w))
  = match submissions (db w) !! submission_id with
    | None => db w
    | Some submission =>
        match assignments (db w) !! assignment_id submission with
        | None => db w
        | Some assignment =>
            match Assignments.graded_submission env submission assignment with
            | Ok graded =>
                if commit_ok env
                then Assignments.with_submission (db w) submission_id graded
                else db w
            | Raise _ => db w
            end
        end
    end.
Proof.
  destruct (query_ok env) eqn:Hq.
  - destruct (submissions (db w) !! submission_id) as [s|] eqn:Hs.
    + destruct (assignments (db w) !! assignment_id s) as [a|] eqn:Ha.
      * rewrite (grade_submission_task_cases _ _ _ _ _ Hq Hs Ha).
        destruct (Assignments.graded_submission env s a); [destruct (commit_ok env)|];
          reflexivity.
      * rewrite grade_submission_task_missing; [reflexivity | exact Hq | right; eauto].
    + rewrite grade_submission_task_missing; [reflexivity | exact Hq | left; exact Hs].
  - rewrite (grade_submission_task_unread _ _ _ Hq), (query_failed_commit_failed _ Hq).
    destruct (submissions (db w) !! submission_id) as [s|]; [|reflexivity].
    destruct (assignments (db w) !! assignment_id s) as [a|]; [|reflexivity].
    destruct (Assignments.graded_submission env s a); reflexivity.
Qed.

(** The strategy of the task, from the rubric of the assignment. *)
Lemma graded_submission_strategy env submission assignment fields :
  Assignments.rubric_or_empty assignment = VDict fields ->
  let questions := dict_get fields "questions" (VList []) in
  Assignments.graded_submission env submission assignment
  = ('(score, feedback, result) ←
       (if truthy questions && eq_str (dict_get fields "grading_type" VNone) "answer_sheet"
        then Assignments.answer_sheet_branch env submission assignment questions
        else Assignments.essay_branch env submission assignment (VDict fields));
     Ok {| assignment_id := assignment_id submission;
           student_id := student_id submission;
           content := content submission;
           score := score;
           feedback := feedback;
           rubric_scores := dict_get result "rubric_scores" (VDict []);
           graded_at := Some (now env) |}).
Proof.
  intros Hr questions. unfold Assignments.graded_submission. rewrite Hr.
  cbn [py_get mbind exc_bind]. fold questions. unfold Assignments.is_answer_sheet.
  destruct (truthy questions); reflexivity.
Qed.

End TwoRuns.




(** C7 (the code departs from it).  Submission 2 of [sample_world] belongs
    to an assignment whose rubric holds one question and the marker
    [answer_sheet]; the backend answers an essay prompt with the score 10
    and an answer-sheet prompt with the percentage 80.  The background task
    grades the submission with the answer sheet (score 80); the manual
    route grades the same submission as an essay (score 10): it never tests
    the rubric. *)
Theorem C7_manual_route_always_grades_essay :
  (exists s score,
     Models.submissions
       (Models.db (snd (Assignments.grade_submission_task (rt := mini_runtime)
                          (env_at backend_by_prompt 7) 2 sample_world))) !! 2%Z = Some s
     /\ Models.score s = VNum score /\ (score == 80)%Q
     /\ Models.feedback s = VStr "sheet")
  /\ (exists s,
        Models.submissions
          (Models.db (snd (Assignments.grade_submission_manual (rt := mini_runtime)
                             (env_at backend_by_prompt 7) 2 sample_world))) !! 2%Z = Some s
        /\ Models.score s = VNum 10
        /\ Models.feedback s = VStr "essay").
Proof.
  split.
  - do 2 eexists. split; [vm_compute; reflexivity|].
    split; [reflexivity|]. split; reflexivity.
  - eexists. split; [vm_compute; reflexivity|]. split; reflexivity.
Qed.

(** * Further properties *)


(** ** What the slice between the braces is *)

Section SpanFacts.

(** X1.  A reply made of a text without an opening brace, an object from
    its opening to its closing brace, and a text without a closing brace:
    the slice the extractors parse is the object. *)
Theorem json_span_of_wrapped_object (before body after : string) :
  lacks "{" before ->
  lacks "}" after ->
  OllamaService.json_span (before +:+ ("{" +:+ body +:+ "}") +:+ after)
  = "{" +:+ body +:+ "}".
Proof.
  intros Hb Ha. unfold OllamaService.json_span.
  set (obj := "{" +:+ body +:+ "}").
  assert (Hfind : PyStr.find "{" (before +:+ obj +:+ after)
                  = Z.of_nat (String.length before)).
  { unfold PyStr.find. rewrite (find_from_lacks _ _ _ _ Hb). subst obj.
    rewrite !append_cons. cbn [PyStr.find_from Ascii.eqb Bool.eqb]. lia. }
  assert (Hrfind : PyStr.rfind "}" (before +:+ obj +:+ after)
                   = (Z.of_nat (String.length before)
                      + Z.of_nat (String.length obj) - 1)%Z).
  { unfold PyStr.rfind. rewrite rfind_from_app.
    replace (obj +:+ after) with (("{" +:+ body) +:+ ("}" +:+ after))
      by (subst obj; rewrite !append_assoc; reflexivity).
    rewrite rfind_from_app, (append_cons _ EmptyString after), append_nil.
    cbn [PyStr.rfind_from Ascii.eqb Bool.eqb].
    rewrite (rfind_from_lacks _ _ _ _ Ha). subst obj.
    rewrite !length_append. cbn [String.length]. lia. }
  rewrite Hfind, Hrfind. unfold PyStr.slice, PyStr.clip.
  rewrite !length_append.
  assert (Hpos : (0 < String.length obj)%nat)
    by (subst obj; rewrite !length_append; cbn [String.length]; lia).
  set (lb := String.length before) in *. set (lo := String.length obj) in *.
  set (la := String.length after) in *.
  destruct (Z.of_nat lb <? 0)%Z eqn:E1; [lia|].
  destruct (Z.of_nat lb + Z.of_nat lo - 1 + 1 <? 0)%Z eqn:E2; [lia|].
  clear E1 E2. destruct (Z.min _ _ <? _)%Z eqn:E3; [|apply Z.ltb_ge in E3; lia].
  replace (Z.to_nat (Z.min (Z.of_nat lb) (Z.of_nat (lb + (lo + la))))) with lb by lia.
  replace (Z.to_nat _) with lo by lia.
  subst lb lo. rewrite substring_skip. apply substring_all.
Qed.

Lemma json_span_of_wrapped_object_witness :
  OllamaService.json_span ("Sure: " +:+ ("{" +:+ "}" +:+ "}") +:+ " {done")
  = "{" +:+ "}" +:+ "}".
Proof.
  apply (json_span_of_wrapped_object "Sure: " "}" " {done").
  - intros n. do 7 (destruct n as [|n]; [discriminate|]). destruct n; discriminate.
  - intros n. do 7 (destruct n as [|n]; [discriminate|]). destruct n; discriminate.
Defined.

End SpanFacts.


(** ** The outcomes of the extractors *)

Section ExtractorTotal.
Context {rt : PyRuntime}.
Context (Hrejects : LoadsRejectsNoObject rt) (Hobject : LoadsObjectFromBrace rt).

(** The parse of the slice gives an object, or raises. *)
Lemma loads_span_cases response :
  (exists d, json_loads (OllamaService.json_span response) = Ok (VDict d))
  \/ (exists e, json_loads (OllamaService.json_span response) = Raise e).
Proof.
  destruct Hrejects as [[m1 He] [m2 Hc]].
  destruct (json_span_cases response) as [-> | [-> | [rest ->]]]; [right; eauto | right; eauto |].
  destruct (json_loads (String "{" rest)) as [v|e] eqn:Hl.
  - destruct (Hobject _ _ Hl) as [d ->]. left. eexists; reflexivity.
  - right. eexists; reflexivity.
Qed.

Lemma essay_extract_on_error response max_points e :
  json_loads (OllamaService.json_span response) = Raise e ->
  OllamaService.essay_extract response max_points
  = if json_or_value_error e
    then Ok (OllamaService.essay_fallback response max_points)
    else Raise e.
Proof.
  intros H. unfold OllamaService.essay_extract, OllamaService.essay_parse.
  rewrite H. reflexivity.
Qed.

Lemma questions_parse_on_error response e :
  json_loads (OllamaService.json_span response) = Raise e ->
  OllamaService.questions_parse response = Raise e.
Proof. intros H. unfold OllamaService.questions_parse. rewrite H. reflexivity. Qed.

Lemma essay_extract_returns_keys response max_points :
  loads_error_caught (OllamaService.json_span response) ->
  exists result,
    OllamaService.essay_extract response max_points = Ok result
    /\ Forall (fun key => is_Some (dict_lookup result key))
         ["score"; "feedback"; "rubric_scores"; "strengths"; "areas_for_improvement"].
Proof.
  intros Hcaught. destruct (loads_span_cases response) as [[d Hd] | [e He]].
  - eexists. split; [apply essay_extract_on_object; exact Hd|].
    repeat constructor; eexists; reflexivity.
  - eexists. split; [rewrite (essay_extract_on_error _ _ _ He), (Hcaught _ He); reflexivity|].
    repeat constructor; eexists; reflexivity.
Qed.

Lemma quiz_extract_returns response topic :
  loads_error_caught (OllamaService.json_span response) ->
  exists questions, OllamaService.quiz_extract response topic = Ok questions.
Proof.
  intros Hcaught. unfold OllamaService.quiz_extract.
  destruct (loads_span_cases response) as [[d Hd] | [e He]].
  - rewrite (questions_parse_on_object _ _ Hd). eexists; reflexivity.
  - rewrite (questions_parse_on_error _ _ He). cbn [try_except]. rewrite (Hcaught _ He).
    eexists; reflexivity.
Qed.

End ExtractorTotal.

(** X2.  On a reply whose slice [json.loads] parses, or rejects with an
    error that [except (json.JSONDecodeError, ValueError)] catches, the
    extractor of essay grading returns a dict that holds [score],
    [feedback], [rubric_scores], [strengths] and [areas_for_improvement]:
    it does not raise. *)
Theorem essay_extract_returns_five_fields
    (rt : PyRuntime) (Hrejects : LoadsRejectsNoObject rt)
    (Hobject : LoadsObjectFromBrace rt)
    (response : string) (max_points : Q) :
  loads_error_caught (OllamaService.json_span response) ->
  exists result,
    OllamaService.essay_extract response max_points = Ok result
    /\ Forall (fun key => is_Some (dict_lookup result key))
         ["score"; "feedback"; "rubric_scores"; "strengths"; "areas_for_improvement"].
Proof. exact (essay_extract_returns_keys Hrejects Hobject response max_points). Qed.

Lemma essay_extract_returns_five_fields_witness :
  exists result,
    OllamaService.essay_extract (rt := mini_runtime) reply_null_score 100 = Ok result
    /\ Forall (fun key => is_Some (dict_lookup result key))
         ["score"; "feedback"; "rubric_scores"; "strengths"; "areas_for_improvement"].
Proof.
  exact (essay_extract_returns_five_fields mini_runtime mini_loads_rejects_no_object
           mini_loads_object_from_brace reply_null_score 100
           (mini_loads_error_caught _)).
Defined.

Section FailedExtraction.
Context {rt : PyRuntime}.

Lemma decode_error_of_failed_extraction (Hrejects : LoadsRejectsNoObject rt) text :
  extraction_fails text ->
  exists msg, json_loads (OllamaService.json_span text) = Raise (JSONDecodeError msg).
Proof.
  destruct Hrejects as [He Hc]. intros [Hopen | [Hclose | Hbad]].
  - destruct (json_span_without_opening_brace text Hopen) as [-> | ->]; assumption.
  - rewrite (json_span_without_closing_brace text Hclose). exact He.
  - exact Hbad.
Qed.

Lemma answer_sheet_extract_on_failure (Hrejects : LoadsRejectsNoObject rt)
    text max_points :
  extraction_fails text ->
  OllamaService.answer_sheet_extract text max_points
  = Ok (OllamaService.answer_sheet_fallback max_points).
Proof.
  intros Hfail. destruct (decode_error_of_failed_extraction Hrejects text Hfail) as [msg Hmsg].
  unfold OllamaService.answer_sheet_extract, OllamaService.answer_sheet_parse.
  rewrite Hmsg. reflexivity.
Qed.

End FailedExtraction.

(** X3.  When the extraction fails, answer-sheet grading returns its
    fallback: no parsed answers, 0.75 x max_points as total, the percentage
    75, the fixed feedback, one strength, one area, no rubric scores. *)
Theorem answer_sheet_fallback_on_failed_extraction
    (rt : PyRuntime) (Hrejects : LoadsRejectsNoObject rt)
    (response : string) (max_points : Q) :
  extraction_fails response ->
  OllamaService.answer_sheet_extract response max_points
  = Ok [ ("parsed_answers", VList []);
         ("total_score", VNum (max_points * 0.75));
         ("percentage", VNum 75);
         ("overall_feedback", VStr "Answer sheet graded. Good effort overall.");
         ("strengths", VList [VStr "Attempted all questions"]);
         ("areas_for_improvement", VList [VStr "Provide more detailed answers"]);
         ("rubric_scores", VDict []) ].
Proof.
  intros Hfail.
  assert (Hmsg : exists msg, json_loads (OllamaService.json_span response)
                             = Raise (JSONDecodeError msg)).
  { destruct Hrejects as [He Hc]. destruct Hfail as [Hopen | [Hclose | Hbad]].
    - destruct (json_span_without_opening_brace response Hopen) as [-> | ->]; assumption.
    - rewrite (json_span_without_closing_brace response Hclose). exact He.
    - exact Hbad. }
  destruct Hmsg as [msg Hmsg].
  unfold OllamaService.answer_sheet_extract, OllamaService.answer_sheet_parse.
  rewrite Hmsg. reflexivity.
Qed.

Lemma answer_sheet_fallback_on_failed_extraction_witness :
  exists result,
    OllamaService.answer_sheet_extract (rt := mini_runtime) reply_without_json 40 = Ok result
    /\ dict_lookup result "percentage" = Some (VNum 75)
    /\ dict_lookup result "total_score" = Some (VNum (40 * 0.75)).
Proof.
  eexists. split.
  - apply (answer_sheet_fallback_on_failed_extraction mini_runtime
             mini_loads_rejects_no_object reply_without_json 40).
    left. vm_compute. reflexivity.
  - split; reflexivity.
Defined.

(** X4.  The three outcomes of the extractor of quiz generation.  When the
    slice parses, it returns the [questions] of the parsed object, the
    empty list when the object has none.  When [json.loads] raises an error
    that [except (json.JSONDecodeError, ValueError)] catches, it returns
    the one placeholder question about the topic.  When [json.loads] raises
    any other error, the [RecursionError] of a deeply nested text for one,
    that error goes to the caller. *)
Theorem quiz_extract_outcomes
    (rt : PyRuntime) (Hrejects : LoadsRejectsNoObject rt)
    (Hobject : LoadsObjectFromBrace rt)
    (response topic : string) :
  (exists d, json_loads (OllamaService.json_span response) = Ok (VDict d)
     /\ OllamaService.quiz_extract response topic = Ok (dict_get d "questions" (VList [])))
  \/ (exists e, json_loads (OllamaService.json_span response) = Raise e
        /\ json_or_value_error e = true
        /\ OllamaService.quiz_extract response topic
           = Ok (VList [ VDict [ ("question", VStr ("Question about " +:+ topic));
                                 ("question_type", VStr "short_answer");
                                 ("options", VList []);
                                 ("correct_answer", VStr "Sample answer");
                                 ("explanation", VStr "Explanation");
                                 ("points", VNum 1) ] ]))
  \/ (exists e, json_loads (OllamaService.json_span response) = Raise e
        /\ json_or_value_error e = false
        /\ OllamaService.quiz_extract response topic = Raise e).
Proof.
  destruct (loads_span_cases Hrejects Hobject response) as [[d Hd] | [e He]].
  - left. exists d. split; [exact Hd|].
    unfold OllamaService.quiz_extract. rewrite (questions_parse_on_object _ _ Hd).
    reflexivity.
  - right. unfold OllamaService.quiz_extract.
    rewrite (questions_parse_on_error _ _ He). cbn [try_except].
    destruct (json_or_value_error e) eqn:Hc; [left | right]; exists e; auto.
Qed.

Lemma quiz_extract_outcomes_witness :
  OllamaService.quiz_extract (rt := mini_runtime) reply_without_json "Fractions"
  = Ok (VList [ VDict [ ("question", VStr "Question about Fractions");
                        ("question_type", VStr "short_answer");
                        ("options", VList []);
                        ("correct_answer", VStr "Sample answer");
                        ("explanation", VStr "Explanation");
                        ("points", VNum 1) ] ]).
Proof.
  destruct (quiz_extract_outcomes mini_runtime mini_loads_rejects_no_object
              mini_loads_object_from_brace reply_without_json "Fractions")
    as [(d & Hd & _) | [(e & _ & _ & H) | (e & He & Hc & _)]].
  - vm_compute in Hd. discriminate Hd.
  - exact H.
  - rewrite (mini_loads_error_caught _ _ He) in Hc. discriminate Hc.
Defined.

Section AssignmentFallback.
Context {rt : PyRuntime}.

Lemma range_length n : length (OllamaService.range n) = Z.to_nat n.
Proof. unfold OllamaService.range. rewrite length_map, length_seq. reflexivity. Qed.

Lemma range_lookup n (i : nat) :
  (i < Z.to_nat n)%nat -> OllamaService.range n !! i = Some (Z.of_nat i).
Proof.
  intros Hi. unfold OllamaService.range. rewrite list_lookup_fmap.
  rewrite lookup_seq_lt by exact Hi. reflexivity.
Qed.

End AssignmentFallback.

(** X5.  When the extraction fails, assignment-question generation returns
    as many placeholder questions as were asked for, none when the number
    is not positive; the question at position [i] has the number [i + 1],
    names the topic, and is worth 10 points. *)
Theorem assignment_fallback_on_failed_extraction
    (rt : PyRuntime) (Hrejects : LoadsRejectsNoObject rt)
    (response topic : string) (num_questions : Z) :
  extraction_fails response ->
  exists questions,
    OllamaService.assignment_extract response topic num_questions = Ok (VList questions)
    /\ length questions = Z.to_nat num_questions
    /\ forall i : nat, (i < Z.to_nat num_questions)%nat ->
         exists q, questions !! i = Some (VDict q)
           /\ dict_lookup q "question_number" = Some (VNum (inject_Z (Z.of_nat i + 1)))
           /\ dict_lookup q "question_text"
              = Some (VStr ("Question " +:+ PyStr.of_Z (Z.of_nat i + 1)
                            +:+ " about " +:+ topic))
           /\ dict_lookup q "points" = Some (VNum 10).
Proof.
  intros Hfail.
  assert (Hmsg : exists msg, json_loads (OllamaService.json_span response)
                             = Raise (JSONDecodeError msg)).
  { destruct Hrejects as [He Hc]. destruct Hfail as [Hopen | [Hclose | Hbad]].
    - destruct (json_span_without_opening_brace response Hopen) as [-> | ->]; assumption.
    - rewrite (json_span_without_closing_brace response Hclose). exact He.
    - exact Hbad. }
  destruct Hmsg as [msg Hmsg].
  eexists. split.
  - unfold OllamaService.assignment_extract, OllamaService.questions_parse.
    rewrite Hmsg. reflexivity.
  - split; [rewrite length_map; apply range_length|].
    intros i Hi. eexists. split.
    + change (map ?f ?l) with (f <$> l). rewrite list_lookup_fmap, (range_lookup _ _ Hi).
      reflexivity.
    + repeat split.
Qed.

Lemma assignment_fallback_on_failed_extraction_witness :
  exists questions,
    OllamaService.assignment_extract (rt := mini_runtime) reply_without_json "Fractions" 5
    = Ok (VList questions)
    /\ length questions = 5%nat.
Proof.
  destruct (assignment_fallback_on_failed_extraction mini_runtime
              mini_loads_rejects_no_object reply_without_json "Fractions" 5)
    as (questions & H & Hlen & _); [left; vm_compute; reflexivity|].
  exists questions. split; [exact H | exact Hlen].
Defined.


Section LessonPlanFacts.
Context {rt : PyRuntime}.

Lemma split_materials_items materials_str :
  exists items,
    OllamaService.split_materials materials_str = VList (map VStr items)
    /\ Forall (fun item => item <> EmptyString /\ trimmed item) items.
Proof.
  unfold OllamaService.split_materials, OllamaService.str_list.
  eexists. split; [reflexivity|].
  apply Forall_forall. intros item Hin. apply list_elem_of_filter in Hin as [Hne Hin].
  apply Is_true_true, nonempty_true in Hne. split; [exact Hne|].
  change (map PyStr.strip ?l) with (PyStr.strip <$> l) in Hin.
  apply list_elem_of_fmap in Hin as (x & -> & _). apply strip_idempotent.
Qed.

End LessonPlanFacts.

(** X6.  When the reply has no opening or no closing brace, or the slice
    between them does not parse, or parses to something that is not an
    object, lesson-plan generation prints two lines and returns the
    fallback plan: the title and the one ten-minute Introduction activity
    name the topic, the objectives are the caller's (or one about the
    topic), and the content is the reply when it is shorter than 500
    characters and a fixed text otherwise. *)
Theorem lesson_plan_fallback_on_failed_extraction
    (rt : PyRuntime) (response topic : string)
    (learning_objectives : option (list string)) :
  (PyStr.find "{" response = (-1)%Z \/ PyStr.rfind "}" response = (-1)%Z)
  \/ (exists msg, json_loads (PyStr.strip (OllamaService.json_span response))
                  = Raise (JSONDecodeError msg))
  \/ (exists v, json_loads (PyStr.strip (OllamaService.json_span response)) = Ok v
                /\ forall d, v <> VDict d) ->
  exists reason plan,
    OllamaService.lesson_plan_extract response topic learning_objectives
    = ([ "Error parsing lesson plan JSON: " +:+ reason;
         "Response was: " +:+ PyStr.slice response 0 500 +:+ "..." ], Ok plan)
    /\ dict_lookup plan "title" = Some (VStr ("Lesson: " +:+ topic))
    /\ dict_lookup plan "objectives"
       = Some (VList (map VStr match learning_objectives with
                               | Some (o :: os) => o :: os
                               | _ => ["Understand " +:+ topic]
                               end))
    /\ dict_lookup plan "materials"
       = Some (VList [VStr "Textbook"; VStr "Whiteboard"; VStr "Handouts"])
    /\ dict_lookup plan "activities"
       = Some (VList [ VDict [ ("name", VStr "Introduction");
                               ("duration", VNum 10);
                               ("description", VStr ("Introduce " +:+ topic));
                               ("type", VStr "warmup") ] ])
    /\ dict_lookup plan "content"
       = Some (VStr (if (String.length response <? 500)%nat
                     then response else "Lesson plan content"))
    /\ dict_lookup plan "standards_aligned" = Some (VList [])
    /\ dict_lookup plan "differentiation" = Some (VStr "Provide support as needed")
    /\ dict_lookup plan "assessment" = Some (VStr "Exit ticket").
Proof.
  intros Hfail.
  assert (Hparse : exists e, OllamaService.lesson_plan_parse response = Raise e
                             /\ json_or_value_error e = true).
  { unfold OllamaService.lesson_plan_parse.
    destruct Hfail as [[Hopen | Hclose] | [[msg Hmsg] | (v & Hv & Hnd)]].
    - rewrite Hopen. cbn. eexists; split; reflexivity.
    - rewrite Hclose. rewrite orb_true_r. eexists; split; reflexivity.
    - destruct (_ || _); [eexists; split; reflexivity|].
      fold (OllamaService.json_span response). rewrite Hmsg.
      eexists; split; reflexivity.
    - destruct (_ || _); [eexists; split; reflexivity|].
      fold (OllamaService.json_span response). rewrite Hv. cbn [mbind exc_bind].
      destruct v as [| | | | |d]; try (eexists; split; reflexivity).
      exfalso. exact (Hnd d eq_refl). }
  destruct Hparse as (e & He & Hcaught).
  unfold OllamaService.lesson_plan_extract. rewrite He, Hcaught.
  exists (exn_str e). eexists. split; [reflexivity|].
  destruct learning_objectives as [[|o os]|]; repeat split.
Qed.

Lemma lesson_plan_fallback_on_failed_extraction_witness :
  exists reason plan,
    OllamaService.lesson_plan_extract (rt := mini_runtime) reply_without_json
      "Fractions" None
    = ([ "Error parsing lesson plan JSON: " +:+ reason;
         "Response was: " +:+ PyStr.slice reply_without_json 0 500 +:+ "..." ], Ok plan)
    /\ dict_lookup plan "content" = Some (VStr reply_without_json).
Proof.
  destruct (lesson_plan_fallback_on_failed_extraction mini_runtime reply_without_json
              "Fractions" None) as (reason & plan & H & _ & _ & _ & _ & Hc & _);
    [left; left; vm_compute; reflexivity|].
  exists reason, plan. split; [exact H | exact Hc].
Defined.

(** X7.  When the parsed lesson plan gives [materials] as one text, the
    plan returned has it as a list: the pieces between commas, stripped,
    without the empty ones; every other field is as the model gave it. *)
Theorem lesson_plan_materials_text_is_split
    (rt : PyRuntime) (response topic materials_str : string)
    (learning_objectives : option (list string)) (d : pydict) :
  PyStr.find "{" response <> (-1)%Z ->
  PyStr.rfind "}" response <> (-1)%Z ->
  json_loads (PyStr.strip (OllamaService.json_span response)) = Ok (VDict d) ->
  dict_lookup d "materials" = Some (VStr materials_str) ->
  exists plan items,
    OllamaService.lesson_plan_extract response topic learning_objectives = ([], Ok plan)
    /\ dict_lookup plan "materials" = Some (VList (map VStr items))
    /\ items = filter (fun m => PyStr.nonempty m)
                 (map PyStr.strip (PyStr.split_comma materials_str))
    /\ Forall (fun item => item <> EmptyString /\ trimmed item) items
    /\ forall key, key <> "materials" -> dict_lookup plan key = dict_lookup d key.
Proof.
  intros Hopen Hclose Hparse Hm.
  destruct (split_materials_items materials_str) as (items & Hitems & Hall).
  exists (dict_set d "materials" (OllamaService.split_materials materials_str)).
  eexists. split; [|split; [apply dict_lookup_set_eq|split; [reflexivity|split]]].
  - unfold OllamaService.lesson_plan_extract, OllamaService.lesson_plan_parse.
    destruct (PyStr.find "{" response =? -1)%Z eqn:E1; [apply Z.eqb_eq in E1; contradiction|].
    destruct (PyStr.rfind "}" response + 1 =? 0)%Z eqn:E2; [apply Z.eqb_eq in E2; lia|].
    cbn [orb]. fold (OllamaService.json_span response). rewrite Hparse.
    cbn [mbind exc_bind]. rewrite Hm. reflexivity.
  - unfold OllamaService.split_materials, OllamaService.str_list in Hitems.
    injection Hitems as Hitems.
    apply (f_equal (map (fun v => match v with VStr s => s | _ => EmptyString end)))
      in Hitems.
    rewrite !map_map, !map_id in Hitems. rewrite Hitems. exact Hall.
  - intros key Hne. apply dict_lookup_set_ne. exact Hne.
Qed.

Lemma lesson_plan_materials_text_is_split_witness :
  exists plan,
    OllamaService.lesson_plan_extract (rt := mini_runtime) reply_materials_text
      "Tools" None = ([], Ok plan)
    /\ dict_lookup plan "materials" = Some (VList [VStr "pen"; VStr "paper"])
    /\ dict_lookup plan "title" = Some (VStr "Tools").
Proof.
  destruct (lesson_plan_materials_text_is_split mini_runtime reply_materials_text
              "Tools" "pen, paper,, " None
              [("title", VStr "Tools"); ("materials", VStr "pen, paper,, ")])
    as (plan & items & H & Hm & Hitems & _ & Hother);
    [vm_compute; discriminate | vm_compute; discriminate | vm_compute; reflexivity
    | reflexivity |].
  exists plan. split; [exact H|]. split.
  - rewrite Hm, Hitems. vm_compute. reflexivity.
  - rewrite (Hother "title") by discriminate. reflexivity.
Defined.

(** ** Failure of the backend *)

(** X8.  When the backend cannot be reached, every function of the service
    raises the communication error to its caller: none of them turns it
    into a fallback result. *)
Theorem communication_failure_reaches_the_caller
    (rt : PyRuntime) (backend : Backend) (cause : string) :
  (forall prompt, backend prompt = CommunicationFailure cause) ->
  let e := CommunicationError ("Error communicating with Ollama: " +:+ cause) in
  (forall essay rubric max_points,
     OllamaService.grade_essay backend essay rubric max_points = Raise e)
  /\ (forall topic grade_level duration learning_objectives,
        OllamaService.generate_lesson_plan backend topic grade_level duration
          learning_objectives = ([], Raise e))
  /\ (forall topic num_questions difficulty,
        OllamaService.generate_quiz backend topic num_questions difficulty = Raise e)
  /\ (forall topic description num_questions question_type,
        OllamaService.generate_assignment_questions backend topic description
          num_questions question_type = Raise e)
  /\ (forall answer_sheet questions max_points text,
        OllamaService.questions_text questions = Ok text ->
        OllamaService.parse_and_grade_answer_sheet backend answer_sheet questions
          max_points = Raise e).
Proof.
  intros Hdown e. repeat split; intros.
  - unfold OllamaService.grade_essay, OllamaService._generate. rewrite Hdown. reflexivity.
  - unfold OllamaService.generate_lesson_plan, OllamaService._generate.
    rewrite Hdown. reflexivity.
  - unfold OllamaService.generate_quiz, OllamaService._generate. rewrite Hdown. reflexivity.
  - unfold OllamaService.generate_assignment_questions, OllamaService._generate.
    rewrite Hdown. reflexivity.
  - unfold OllamaService.parse_and_grade_answer_sheet, OllamaService._generate.
    rewrite H. cbn [mbind exc_bind]. rewrite Hdown. reflexivity.
Qed.

Lemma communication_failure_reaches_the_caller_witness :
  OllamaService.grade_essay (rt := mini_runtime) backend_down "My essay." VNone 100
  = Raise (CommunicationError "Error communicating with Ollama: connection refused").
Proof.
  destruct (communication_failure_reaches_the_caller mini_runtime backend_down
              "connection refused" (fun _ => eq_refl)) as [Hessay _].
  apply Hessay.
Defined.

(** ** The task, by the reply of the model *)

Section TaskOnReplies.
Import Models.
Context {rt : PyRuntime}.

Lemma essay_branch_on_result env submission assignment rubric text result :
  backend env (EssayPrompt (if truthy rubric then json_dumps rubric
                            else "Standard essay rubric")
                 (content submission) (py_str (VNum (max_points assignment))))
  = RawText text ->
  OllamaService.essay_extract text (max_points assignment) = Ok result ->
  Assignments.essay_branch env submission assignment rubric
  = (score ← dict_item result "score";
     feedback ← dict_item result "feedback";
     Ok (score, feedback, result)).
Proof.
  intros Hb He. unfold Assignments.essay_branch, OllamaService.grade_essay,
    OllamaService._generate.
  rewrite Hb. cbn [mbind exc_bind]. rewrite He. reflexivity.
Qed.

End TaskOnReplies.

Lemma essay_task_grades
    (rt : PyRuntime) (Hrejects : LoadsRejectsNoObject rt)
    (Hobject : LoadsObjectFromBrace rt)
    (env : Env) (submission_id : Z) (w : Models.World)
    (submission : Models.Submission) (assignment : Models.Assignment)
    (questions : value) :
  Models.submissions (Models.db w) !! submission_id = Some submission ->
  Models.assignments (Models.db w) !! Models.assignment_id submission = Some assignment ->
  py_get (Assignments.rubric_or_empty assignment) "questions" (VList []) = Ok questions ->
  Assignments.is_answer_sheet (Assignments.rubric_or_empty assignment) questions = Ok false ->
  (forall prompt, exists text,
     backend env prompt = RawText text
     /\ loads_error_caught (OllamaService.json_span text)) ->
  commit_ok env = true ->
  exists graded,
    Models.submissions
      (Models.db (snd (Assignments.grade_submission_task env submission_id w)))
      !! submission_id = Some graded
    /\ Models.graded_at graded = Some (now env)
    /\ Models.content graded = Models.content submission
    /\ Models.stdout (snd (Assignments.grade_submission_task env submission_id w))
       = (Models.stdout w ++ [])%list.
Proof.
  intros Hs Ha Hq Hsheet Hup Hcommit.
  set (rubric := Assignments.rubric_or_empty assignment) in *.
  destruct (Hup (EssayPrompt (if truthy rubric then json_dumps rubric
                              else "Standard essay rubric")
                   (Models.content submission)
                   (py_str (VNum (Models.max_points assignment)))))
    as (text & Htext & Hcaught).
  destruct (essay_extract_returns_keys Hrejects Hobject text
              (Models.max_points assignment) Hcaught) as (result & Hresult & Hkeys).
  assert (Hscore : is_Some (dict_lookup result "score"))
    by (inversion Hkeys; assumption).
  assert (Hfeedback : is_Some (dict_lookup result "feedback"))
    by (inversion Hkeys as [|? ? _ Hrest]; inversion Hrest; assumption).
  destruct Hscore as [sc Hsc], Hfeedback as [fb Hfb].
  assert (Hg : exists graded,
            Assignments.graded_submission env submission assignment = Ok graded).
  { unfold Assignments.graded_submission. fold rubric. rewrite Hq.
    cbn [mbind exc_bind]. rewrite Hsheet. cbn [mbind exc_bind].
    rewrite (essay_branch_on_result _ _ _ _ _ _ Htext Hresult).
    unfold dict_item. rewrite Hsc, Hfb. cbn [mbind exc_bind]. eexists; reflexivity. }
  destruct Hg as [graded Hg].
  destruct (graded_submission_fields _ _ _ _ Hg) as (_ & _ & Hc & Ht).
  rewrite (grade_submission_task_cases _ _ _ _ _ (commit_ok_query_ok _ Hcommit) Hs Ha),
    Hg, Hcommit.
  exists graded. split; [cbn; apply lookup_insert_eq|]. repeat split; assumption.
Qed.

(** X9.  On an assignment that is not graded by answer sheet, with a
    backend that answers and a commit that goes through:
    - when [json.loads] parses the slice of the reply, or rejects it with
      an error that [except (json.JSONDecodeError, ValueError)] catches,
      the task grades the submission: it stores a record with [graded_at]
      set and prints nothing;
    - when [json.loads] raises any other error on it, the
      [RecursionError] of a deeply nested reply for one, the task prints
      that error and leaves the store as it was. *)
Theorem essay_task_grades_or_logs
    (rt : PyRuntime) (Hrejects : LoadsRejectsNoObject rt)
    (Hobject : LoadsObjectFromBrace rt)
    (env : Env) (submission_id : Z) (w : Models.World)
    (submission : Models.Submission) (assignment : Models.Assignment)
    (questions : value) :
  Models.submissions (Models.db w) !! submission_id = Some submission ->
  Models.assignments (Models.db w) !! Models.assignment_id submission = Some assignment ->
  py_get (Assignments.rubric_or_empty assignment) "questions" (VList []) = Ok questions ->
  Assignments.is_answer_sheet (Assignments.rubric_or_empty assignment) questions = Ok false ->
  commit_ok env = true ->
  ((forall prompt, exists text,
      backend env prompt = RawText text
      /\ loads_error_caught (OllamaService.json_span text)) ->
   exists graded,
     Models.submissions
       (Models.db (snd (Assignments.grade_submission_task env submission_id w)))
       !! submission_id = Some graded
     /\ Models.graded_at graded = Some (now env)
     /\ Models.content graded = Models.content submission
     /\ Models.stdout (snd (Assignments.grade_submission_task env submission_id w))
        = (Models.stdout w ++ [])%list)
  /\ (forall text e,
        (forall prompt, backend env prompt = RawText text) ->
        json_loads (OllamaService.json_span text) = Raise e ->
        json_or_value_error e = false ->
        Assignments.grade_submission_task env submission_id w
        = (Ok tt, {| Models.db := Models.db w;
                     Models.stdout := Models.stdout w
                                      ++ [grading_error_line submission_id e] |})).
Proof.
  intros Hs Ha Hq Hsheet Hcommit. split.
  - intros Hup.
    exact (essay_task_grades rt Hrejects Hobject env submission_id w submission
             assignment questions Hs Ha Hq Hsheet Hup Hcommit).
  - intros text e Hup He Hc.
    rewrite (grade_submission_task_cases _ _ _ _ _ (commit_ok_query_ok _ Hcommit) Hs Ha).
    assert (Hg : Assignments.graded_submission env submission assignment = Raise e).
    { unfold Assignments.graded_submission. rewrite Hq. cbn [mbind exc_bind].
      rewrite Hsheet. cbn [mbind exc_bind].
      unfold Assignments.essay_branch, OllamaService.grade_essay, OllamaService._generate.
      rewrite Hup. cbn [mbind exc_bind].
      rewrite (essay_extract_on_error _ _ _ He), Hc. reflexivity. }
    rewrite Hg. reflexivity.
Qed.

Lemma essay_task_grades_or_logs_witness :
  exists graded,
    Models.submissions
      (Models.db (snd (Assignments.grade_submission_task (rt := mini_runtime)
                         (env_at (backend_saying reply_without_json) 3) 1 sample_world)))
      !! 1%Z = Some graded
    /\ Models.graded_at graded = Some 3%Z.
Proof.
  destruct (essay_task_grades_or_logs mini_runtime mini_loads_rejects_no_object
              mini_loads_object_from_brace
              (env_at (backend_saying reply_without_json) 3) 1 sample_world
              (ungraded 1 "My essay.") essay_assignment (VList []))
    as [Hgrades _];
    [vm_compute; reflexivity | vm_compute; reflexivity | reflexivity | reflexivity
    | reflexivity |].
  destruct Hgrades as (graded & H & Ht & _).
  { intros prompt. eexists. split; [reflexivity | apply mini_loads_error_caught]. }
  exists graded. split; [exact H | exact Ht].
Defined.

(** X10.  On the essay branch, a reply from which nothing can be extracted
    is stored as a grade: 0.75 x max_points as score, the reply itself as
    feedback, no rubric scores, and [graded_at] set. *)
Theorem essay_task_stores_fallback
    (rt : PyRuntime) (Hrejects : LoadsRejectsNoObject rt)
    (env : Env) (submission_id : Z) (w : Models.World)
    (submission : Models.Submission) (assignment : Models.Assignment)
    (questions : value) (text : string) :
  Models.submissions (Models.db w) !! submission_id = Some submission ->
  Models.assignments (Models.db w) !! Models.assignment_id submission = Some assignment ->
  py_get (Assignments.rubric_or_empty assignment) "questions" (VList []) = Ok questions ->
  Assignments.is_answer_sheet (Assignments.rubric_or_empty assignment) questions = Ok false ->
  (forall prompt, backend env prompt = RawText text) ->
  extraction_fails text ->
  commit_ok env = true ->
  Models.submissions
    (Models.db (snd (Assignments.grade_submission_task env submission_id w)))
    !! submission_id
  = Some {| Models.assignment_id := Models.assignment_id submission;
            Models.student_id := Models.student_id submission;
            Models.content := Models.content submission;
            Models.score := VNum (Models.max_points assignment * 0.75);
            Models.feedback := VStr text;
            Models.rubric_scores := VDict [];
            Models.graded_at := Some (now env) |}.
Proof.
  intros Hs Ha Hq Hsheet Hup Hfail Hcommit.
  assert (Hresult : OllamaService.essay_extract text (Models.max_points assignment)
                    = Ok (OllamaService.essay_fallback text (Models.max_points assignment))).
  { destruct Hrejects as [[m1 He] [m2 Hc]]. destruct Hfail as [Hopen | [Hclose | [msg Hbad]]].
    - destruct (json_span_without_opening_brace text Hopen) as [Hsp | Hsp].
      + apply (essay_extract_on_decode_error _ _ m1). rewrite Hsp. exact He.
      + apply (essay_extract_on_decode_error _ _ m2). rewrite Hsp. exact Hc.
    - apply (essay_extract_on_decode_error _ _ m1).
      rewrite (json_span_without_closing_brace text Hclose). exact He.
    - exact (essay_extract_on_decode_error _ _ msg Hbad). }
  assert (Hg : Assignments.graded_submission env submission assignment
               = Ok {| Models.assignment_id := Models.assignment_id submission;
                       Models.student_id := Models.student_id submission;
                       Models.content := Models.content submission;
                       Models.score := VNum (Models.max_points assignment * 0.75);
                       Models.feedback := VStr text;
                       Models.rubric_scores := VDict [];
                       Models.graded_at := Some (now env) |}).
  { unfold Assignments.graded_submission. rewrite Hq. cbn [mbind exc_bind].
    rewrite Hsheet. cbn [mbind exc_bind].
    rewrite (essay_branch_on_result _ _ _ _ _ _ (Hup _) Hresult). reflexivity. }
  rewrite (grade_submission_task_cases _ _ _ _ _ (commit_ok_query_ok _ Hcommit) Hs Ha),
    Hg, Hcommit.
  cbn. apply lookup_insert_eq.
Qed.

Lemma essay_task_stores_fallback_witness :
  Models.submissions
    (Models.db (snd (Assignments.grade_submission_task (rt := mini_runtime)
                       (env_at (backend_saying reply_without_json) 3) 1 sample_world)))
    !! 1%Z
  = Some {| Models.assignment_id := 1;
            Models.student_id := 1;
            Models.content := "My essay.";
            Models.score := VNum (100 * 0.75);
            Models.feedback := VStr reply_without_json;
            Models.rubric_scores := VDict [];
            Models.graded_at := Some 3%Z |}.
Proof.
  apply (essay_task_stores_fallback mini_runtime mini_loads_rejects_no_object
           (env_at (backend_saying reply_without_json) 3) 1 sample_world
           (ungraded 1 "My essay.") essay_assignment (VList []) reply_without_json).
  - vm_compute. reflexivity.
  - vm_compute. reflexivity.
  - reflexivity.
  - reflexivity.
  - intros prompt. reflexivity.
  - left. vm_compute. reflexivity.
  - reflexivity.
Defined.

Section SheetFallback.
Context {rt : PyRuntime} (Hstr : StrOfText rt).

Lemma answer_sheet_fallback_feedback max_points :
  Assignments.answer_sheet_feedback (OllamaService.answer_sheet_fallback max_points)
  = Ok (PyStr.join PyStr.nl
          [ "Answer sheet graded. Good effort overall.";
            PyStr.nl +:+ PyStr.nl +:+ "**Strengths:**";
            "• Attempted all questions";
            PyStr.nl +:+ PyStr.nl +:+ "**Areas for Improvement:**";
            "• Provide more detailed answers" ]).
Proof.
  unfold Assignments.answer_sheet_feedback, OllamaService.answer_sheet_fallback,
    Assignments.bullet.
  cbn -[PyStr.join PyStr.nl String.append]. rewrite !Hstr. reflexivity.
Qed.

End SheetFallback.

(** X11.  On the answer-sheet branch, a reply from which nothing can be
    extracted is stored as a grade too: the score is 75/100 x max_points,
    the same 0.75 x max_points as on the essay branch, the feedback is the
    fixed text with its one strength and its one area, and there are no
    rubric scores. *)
Theorem answer_sheet_task_stores_fallback
    (rt : PyRuntime) (Hrejects : LoadsRejectsNoObject rt) (Hstr : StrOfText rt)
    (env : Env) (submission_id : Z) (w : Models.World)
    (submission : Models.Submission) (assignment : Models.Assignment)
    (questions : value) (prompt_text text : string) :
  Models.submissions (Models.db w) !! submission_id = Some submission ->
  Models.assignments (Models.db w) !! Models.assignment_id submission = Some assignment ->
  py_get (Assignments.rubric_or_empty assignment) "questions" (VList []) = Ok questions ->
  Assignments.is_answer_sheet (Assignments.rubric_or_empty assignment) questions = Ok true ->
  OllamaService.questions_text questions = Ok prompt_text ->
  (forall prompt, backend env prompt = RawText text) ->
  extraction_fails text ->
  commit_ok env = true ->
  exists graded score,
    Models.submissions
      (Models.db (snd (Assignments.grade_submission_task env submission_id w)))
      !! submission_id = Some graded
    /\ Models.score graded = VNum score
    /\ (score == Models.max_points assignment * 0.75)%Q
    /\ Models.feedback graded
       = VStr (PyStr.join PyStr.nl
                 [ "Answer sheet graded. Good effort overall.";
                   PyStr.nl +:+ PyStr.nl +:+ "**Strengths:**";
                   "• Attempted all questions";
                   PyStr.nl +:+ PyStr.nl +:+ "**Areas for Improvement:**";
                   "• Provide more detailed answers" ])
    /\ Models.rubric_scores graded = VDict []
    /\ Models.graded_at graded = Some (now env).
Proof.
  intros Hs Ha Hq Hsheet Hqt Hup Hfail Hcommit.
  pose proof (answer_sheet_extract_on_failure Hrejects text
                (Models.max_points assignment) Hfail) as Hresult.
  assert (Hg : Assignments.graded_submission env submission assignment
               = Ok {| Models.assignment_id := Models.assignment_id submission;
                       Models.student_id := Models.student_id submission;
                       Models.content := Models.content submission;
                       Models.score := VNum (75 / 100 * Models.max_points assignment);
                       Models.feedback :=
                         VStr (PyStr.join PyStr.nl
                                 [ "Answer sheet graded. Good effort overall.";
                                   PyStr.nl +:+ PyStr.nl +:+ "**Strengths:**";
                                   "• Attempted all questions";
                                   PyStr.nl +:+ PyStr.nl +:+ "**Areas for Improvement:**";
                                   "• Provide more detailed answers" ]);
                       Models.rubric_scores := VDict [];
                       Models.graded_at := Some (now env) |}).
  { unfold Assignments.graded_submission. rewrite Hq. cbn [mbind exc_bind].
    rewrite Hsheet. cbn [mbind exc_bind].
    unfold Assignments.answer_sheet_branch, OllamaService.parse_and_grade_answer_sheet,
      OllamaService._generate.
    rewrite Hqt. cbn [mbind exc_bind]. rewrite Hup. cbn [mbind exc_bind].
    rewrite Hresult. cbn [mbind exc_bind].
    rewrite (answer_sheet_fallback_feedback Hstr). reflexivity. }
  rewrite (grade_submission_task_cases _ _ _ _ _ (commit_ok_query_ok _ Hcommit) Hs Ha),
    Hg, Hcommit.
  do 2 eexists. split; [cbn; apply lookup_insert_eq|].
  split; [reflexivity|]. split; [cbn [Models.score]; field|]. repeat split.
Qed.

Lemma mini_str_of_text : StrOfText mini_runtime.
Proof. intros s. reflexivity. Qed.

Lemma answer_sheet_task_stores_fallback_witness :
  exists graded score,
    Models.submissions
      (Models.db (snd (Assignments.grade_submission_task (rt := mini_runtime)
                         (env_at (backend_saying reply_without_json) 3) 2 sample_world)))
      !! 2%Z = Some graded
    /\ Models.score graded = VNum score
    /\ (score == 100 * 0.75)%Q.
Proof.
  destruct (OllamaService.questions_text (rt := mini_runtime) (VList [sheet_question]))
    as [prompt_text|] eqn:Hqt; [|vm_compute in Hqt; discriminate Hqt].
  destruct (answer_sheet_task_stores_fallback mini_runtime mini_loads_rejects_no_object
              mini_str_of_text (env_at (backend_saying reply_without_json) 3) 2
              sample_world (ungraded 2 "1. A part.") answer_sheet_assignment
              (VList [sheet_question]) prompt_text reply_without_json)
    as (graded & score & H & Hscore & Heq & _);
    [vm_compute; reflexivity | vm_compute; reflexivity | reflexivity | reflexivity
    | exact Hqt | intros prompt; reflexivity | left; vm_compute; reflexivity
    | reflexivity |].
  exists graded, score. repeat split; assumption.
Defined.

(** ** What grading leaves alone *)

Section FrameFacts.
Import Models.
Context {rt : PyRuntime}.

Lemma grade_submission_manual_db env submission_id w :
  db (snd (Assignments.grade_submission_manual env submission_id w)) = db w
  \/ exists s, db (snd (Assignments.grade_submission_manual env submission_id w))
               = Assignments.with_submission (db w) submission_id s.
Proof.
  unfold Assignments.grade_submission_manual.
  destruct (submissions (db w) !! submission_id) as [s|]; [|left; reflexivity].
  destruct (assignments (db w) !! assignment_id s) as [a|]; [|left; reflexivity].
  destruct (Assignments.manual_attempt env submission_id s a (db w))
    as [[d' response]|] eqn:Hm; [|left; reflexivity].
  destruct (manual_attempt_writes _ _ _ _ _ _ _ Hm) as (g & -> & _).
  right. exists g. destruct response; reflexivity.
Qed.

Lemma grade_submission_task_db_cases env submission_id w :
  db (snd (Assignments.grade_submission_task env submission_id w)) = db w
  \/ exists s, db (snd (Assignments.grade_submission_task env submission_id w))
               = Assignments.with_submission (db w) submission_id s.
Proof.
  rewrite grade_submission_task_db.
  destruct (submissions (db w) !! submission_id) as [s|]; [|left; reflexivity].
  destruct (assignments (db w) !! assignment_id s) as [a|]; [|left; reflexivity].
  destruct (Assignments.graded_submission env s a) as [g|]; [|left; reflexivity].
  destruct (commit_ok env); [right; eauto | left; reflexivity].
Qed.

Lemma with_submission_frame d id s :
  assignments (Assignments.with_submission d id s) = assignments d
  /\ students (Assignments.with_submission d id s) = students d
  /\ forall other, other <> id ->
       submissions (Assignments.with_submission d id s) !! other = submissions d !! other.
Proof.
  repeat split. intros other Hne. cbn. apply lookup_insert_ne. congruence.
Qed.

End FrameFacts.

(** X12.  A grading run, by the task or by the manual route, writes to the
    one submission it is given: the assignments, the students and every
    other submission are as before. *)
Theorem grading_touches_one_submission
    (rt : PyRuntime) (env : Env) (submission_id : Z) (w : Models.World) :
  let after_task := Models.db (snd (Assignments.grade_submission_task env submission_id w)) in
  let after_manual :=
    Models.db (snd (Assignments.grade_submission_manual env submission_id w)) in
  (Models.assignments after_task = Models.assignments (Models.db w)
   /\ Models.students after_task = Models.students (Models.db w)
   /\ forall other, other <> submission_id ->
        Models.submissions after_task !! other
        = Models.submissions (Models.db w) !! other)
  /\ (Models.assignments after_manual = Models.assignments (Models.db w)
      /\ Models.students after_manual = Models.students (Models.db w)
      /\ forall other, other <> submission_id ->
           Models.submissions after_manual !! other
           = Models.submissions (Models.db w) !! other).
Proof.
  intros after_task after_manual. split.
  - subst after_task.
    destruct (grade_submission_task_db_cases env submission_id w) as [-> | [s ->]];
      [repeat split | apply with_submission_frame].
  - subst after_manual.
    destruct (grade_submission_manual_db env submission_id w) as [-> | [s ->]];
      [repeat split | apply with_submission_frame].
Qed.

(** ** New rows *)

Section NewRows.

Lemma next_id_above {A} (rows : gmap Z A) :
  forall id, is_Some (rows !! id) -> (id < Assignments.next_id rows)%Z.
Proof.
  unfold Assignments.next_id.
  apply (map_fold_weak_ind
           (fun (top : Z) (m : gmap Z A) => forall id, is_Some (m !! id) -> (id < top + 1)%Z)).
  - intros id [x Hx]. rewrite lookup_empty in Hx. discriminate.
  - intros i x m top _ IH id Hid.
    destruct (decide (i = id)) as [->|Hne]; [lia|].
    rewrite lookup_insert_ne in Hid by exact Hne. specialize (IH id Hid). lia.
Qed.

(** The id given to a new row is the id of no stored row. *)
Lemma next_id_fresh {A} (rows : gmap Z A) : rows !! Assignments.next_id rows = None.
Proof.
  destruct (rows !! Assignments.next_id rows) eqn:H; [|reflexivity].
  pose proof (next_id_above rows _ (mk_is_Some _ _ H)). lia.
Qed.

End NewRows.

(** X13.  [submit_assignment] either fails and leaves the store as it was,
    or stores the submission, ungraded, under an id that no submission
    had, keeping every earlier submission and all assignments; it fails
    with 404 when the assignment or the student is unknown. *)
Theorem submit_assignment_adds_an_ungraded_row
    (env : Env) (submission : Assignments.SubmissionCreate) (w : Models.World) :
  match Assignments.submit_assignment env submission w with
  | (Ok id, w') =>
      Models.submissions (Models.db w) !! id = None
      /\ Models.submissions (Models.db w') !! id
         = Some {| Models.assignment_id := Assignments.sc_assignment_id submission;
                   Models.student_id := Assignments.sc_student_id submission;
                   Models.content := Assignments.sc_content submission;
                   Models.score := VNone;
                   Models.feedback := VNone;
                   Models.rubric_scores := VNone;
                   Models.graded_at := None |}
      /\ (forall other s, Models.submissions (Models.db w) !! other = Some s ->
            Models.submissions (Models.db w') !! other = Some s)
      /\ Models.assignments (Models.db w') = Models.assignments (Models.db w)
      /\ is_Some (Models.assignments (Models.db w) !! Assignments.sc_assignment_id submission)
      /\ Assignments.sc_student_id submission ∈ Models.students (Models.db w)
  | (Raise e, w') =>
      w' = w
      /\ (Models.assignments (Models.db w) !! Assignments.sc_assignment_id submission = None ->
          e = HTTPException 404 "Assignment not found")
      /\ (is_Some (Models.assignments (Models.db w)
                     !! Assignments.sc_assignment_id submission) ->
          Assignments.sc_student_id submission ∉ Models.students (Models.db w) ->
          e = HTTPException 404 "Student not found")
  end.
Proof.
  unfold Assignments.submit_assignment.
  destruct (Models.assignments (Models.db w) !! _) as [a|] eqn:Ha.
  - destruct (decide _) as [Hin|Hnin].
    + unfold Assignments.commit. destruct (commit_ok env).
      * cbn. split; [apply next_id_fresh|]. split; [apply lookup_insert_eq|].
        split; [|repeat split; eauto].
        intros other s Hs. rewrite lookup_insert_ne; [exact Hs|].
        intros <-. rewrite next_id_fresh in Hs. discriminate.
      * split; [reflexivity|]. split; [discriminate|]. intros _ Hn. contradiction.
    + split; [reflexivity|]. split; [discriminate|]. reflexivity.
  - split; [reflexivity|]. split; [reflexivity|]. intros [x Hx]. discriminate.
Qed.

(** ** The manual route *)

(** X14.  When the manual route answers, the record it stored for the
    submission carries the score, the feedback and the rubric scores of
    the answer, with [graded_at] set.  When it fails with the status 500,
    the grade may be stored all the same: a result that the response model
    rejects is reported after the commit. *)
Theorem manual_route_stores_what_it_answers
    (rt : PyRuntime) (env : Env) (submission_id : Z) (w : Models.World) :
  (forall response w',
     Assignments.grade_submission_manual env submission_id w = (Ok response, w') ->
     exists s, Models.submissions (Models.db w') !! submission_id = Some s
       /\ Assignments.r_submission_id response = submission_id
       /\ Models.score s = Assignments.r_score response
       /\ Models.feedback s = Assignments.r_feedback response
       /\ Models.rubric_scores s = Assignments.r_rubric_scores response
       /\ Models.graded_at s = Some (now env))
  /\ (forall submission assignment result score feedback rubric_scores,
        Models.submissions (Models.db w) !! submission_id = Some submission ->
        Models.assignments (Models.db w) !! Models.assignment_id submission
          = Some assignment ->
        OllamaService.grade_essay (backend env) (Models.content submission)
          (Assignments.rubric_or_empty assignment) (Models.max_points assignment)
          = Ok result ->
        dict_lookup result "score" = Some score ->
        dict_lookup result "feedback" = Some feedback ->
        dict_lookup result "rubric_scores" = Some rubric_scores ->
        commit_ok env = true ->
        response_valid score feedback rubric_scores = false ->
        exists detail s,
          fst (Assignments.grade_submission_manual env submission_id w)
          = Raise (HTTPException 500 detail)
          /\ Models.submissions
               (Models.db (snd (Assignments.grade_submission_manual env submission_id w)))
               !! submission_id = Some s
          /\ Models.score s = score
          /\ Models.graded_at s = Some (now env)).
Proof.
  split.
  - intros response w'. unfold Assignments.grade_submission_manual.
    destruct (Models.submissions (Models.db w) !! submission_id) as [s|]; [|discriminate].
    destruct (Models.assignments (Models.db w) !! Models.assignment_id s) as [a|];
      [|discriminate].
    unfold Assignments.manual_attempt.
    destruct (OllamaService.grade_essay _ _ _ _) as [res|]; [|discriminate].
    cbn [mbind exc_bind].
    destruct (dict_item res "score") as [sc|]; [|discriminate]. cbn [mbind exc_bind].
    destruct (dict_item res "feedback") as [fb|]; [|discriminate]. cbn [mbind exc_bind].
    destruct (dict_item res "rubric_scores") as [rs|]; [|discriminate].
    cbn [mbind exc_bind]. unfold Assignments.commit.
    destruct (commit_ok env); [|discriminate]. cbn [mbind exc_bind].
    destruct (response_valid sc fb rs); [|discriminate].
    intros [= <- <-]. eexists. split; [cbn; apply lookup_insert_eq|]. repeat split.
  - intros s a res sc fb rs Hs Ha Hres Hsc Hfb Hrs Hcommit Hinvalid.
    unfold Assignments.grade_submission_manual, Assignments.manual_attempt,
      Assignments.commit, dict_item.
    rewrite Hs, Ha, Hres. cbn [mbind exc_bind]. rewrite Hsc, Hfb, Hrs.
    cbn [mbind exc_bind]. rewrite Hcommit. cbn [mbind exc_bind]. rewrite Hinvalid.
    do 2 eexists. split; [reflexivity|]. split; [cbn; apply lookup_insert_eq|].
    split; reflexivity.
Qed.

Lemma manual_route_stores_what_it_answers_witness :
  exists detail s,
    fst (Assignments.grade_submission_manual (rt := mini_runtime)
           (env_at backend_null_score 7) 1 sample_world)
    = Raise (HTTPException 500 detail)
    /\ Models.submissions
         (Models.db (snd (Assignments.grade_submission_manual (rt := mini_runtime)
                            (env_at backend_null_score 7) 1 sample_world)))
         !! 1%Z = Some s
    /\ Models.score s = VNone
    /\ Models.graded_at s = Some 7%Z.
Proof.
  destruct (manual_route_stores_what_it_answers mini_runtime
              (env_at backend_null_score 7) 1 sample_world) as [_ Hlate].
  destruct (OllamaService.grade_essay (rt := mini_runtime) backend_null_score
              "My essay." (VDict []) 100) as [result|] eqn:Hresult;
    [|vm_compute in Hresult; discriminate Hresult].
  apply (Hlate (ungraded 1 "My essay.") essay_assignment result
           VNone (VStr "See comments.") (VDict [])).
  - vm_compute. reflexivity.
  - vm_compute. reflexivity.
  - exact Hresult.
  - vm_compute in Hresult. injection Hresult as <-. reflexivity.
  - vm_compute in Hresult. injection Hresult as <-. reflexivity.
  - vm_compute in Hresult. injection Hresult as <-. reflexivity.
  - reflexivity.
  - reflexivity.
Defined.

(** ** Creating an assignment *)

(** X15.  [create_assignment] does not fail because of the model: when the
    commit goes through it stores the assignment, under an id no
    assignment had and with the caller's title, type and points, whatever
    the backend does; earlier assignments and all submissions are kept.
    The rubric it stores follows the generation of the questions:
    - for a type that asks for no questions, the caller's rubric, and
      nothing is printed;
    - when the generation returns questions, these questions under the
      marker [answer_sheet], and nothing is printed;
    - when the generation raises, the caller's rubric, and the error is
      printed; a backend that cannot be reached is such a case. *)
Theorem create_assignment_survives_the_backend
    (rt : PyRuntime) (env : Env) (assignment : AssignmentSetup.AssignmentCreate)
    (w : Models.World) :
  commit_ok env = true ->
  let generated :=
    OllamaService.generate_assignment_questions (backend env)
      (AssignmentSetup.ac_title assignment)
      (AssignmentSetup.description_text (AssignmentSetup.ac_description assignment))
      5 (AssignmentSetup.ac_assignment_type assignment) in
  let wanted :=
    AssignmentSetup.wants_questions (AssignmentSetup.ac_assignment_type assignment) in
  exists id row w',
    AssignmentSetup.create_assignment env assignment w = (Ok id, w')
    /\ Models.assignments (Models.db w) !! id = None
    /\ Models.assignments (Models.db w') !! id = Some row
    /\ Models.title row = AssignmentSetup.ac_title assignment
    /\ Models.assignment_type row = AssignmentSetup.ac_assignment_type assignment
    /\ Models.max_points row = AssignmentSetup.ac_max_points assignment
    /\ (wanted = false ->
        Models.rubric row = AssignmentSetup.ac_rubric assignment
        /\ Models.stdout w' = (Models.stdout w ++ [])%list)
    /\ (forall questions,
          wanted = true -> generated = Ok questions ->
          Models.rubric row
          = VDict [("questions", questions); ("grading_type", VStr "answer_sheet")]
          /\ Models.stdout w' = (Models.stdout w ++ [])%list)
    /\ (forall e,
          wanted = true -> generated = Raise e ->
          Models.rubric row = AssignmentSetup.ac_rubric assignment
          /\ Models.stdout w'
             = (Models.stdout w ++ ["Error generating questions: " +:+ exn_str e])%list)
    /\ (forall cause,
          wanted = true ->
          (forall prompt, backend env prompt = CommunicationFailure cause) ->
          Models.rubric row = AssignmentSetup.ac_rubric assignment
          /\ Models.stdout w'
             = (Models.stdout w
                ++ ["Error generating questions: Error communicating with Ollama: "
                    +:+ cause])%list)
    /\ (forall other a, Models.assignments (Models.db w) !! other = Some a ->
          Models.assignments (Models.db w') !! other = Some a)
    /\ Models.submissions (Models.db w') = Models.submissions (Models.db w).
Proof.
  intros Hcommit generated wanted. unfold AssignmentSetup.create_assignment.
  destruct (AssignmentSetup.rubric_with_questions env assignment) as [rubric printed] eqn:Hr.
  rewrite Hcommit. do 3 eexists. split; [reflexivity|].
  cbn [Models.db Models.assignments Models.submissions Models.stdout Models.title
       Models.assignment_type Models.max_points Models.rubric].
  split; [apply next_id_fresh|]. split; [apply lookup_insert_eq|].
  split; [reflexivity|]. split; [reflexivity|]. split; [reflexivity|].
  revert Hr. unfold AssignmentSetup.rubric_with_questions. fold wanted generated.
  intros Hr.
  assert (Hgen : forall e, generated = Raise e -> wanted = true ->
            rubric = AssignmentSetup.ac_rubric assignment
            /\ (Models.stdout w ++ printed
                = Models.stdout w ++ ["Error generating questions: " +:+ exn_str e])%list).
  { intros e He Hw. rewrite Hw, He in Hr. injection Hr as <- <-. split; reflexivity. }
  split; [|split; [|split; [|split; [|split]]]].
  - intros Hw. rewrite Hw in Hr. injection Hr as <- <-. split; reflexivity.
  - intros questions Hw Hq. rewrite Hw, Hq in Hr. injection Hr as <- <-. split; reflexivity.
  - intros e Hw He. exact (Hgen e He Hw).
  - intros cause Hw Hdown.
    apply (Hgen (CommunicationError ("Error communicating with Ollama: " +:+ cause)));
      [|exact Hw].
    subst generated. unfold OllamaService.generate_assignment_questions,
      OllamaService._generate.
    rewrite Hdown. reflexivity.
  - intros other a Ha. rewrite lookup_insert_ne; [exact Ha|].
    intros <-. rewrite next_id_fresh in Ha. discriminate.
  - reflexivity.
Qed.

Lemma create_assignment_survives_the_backend_witness :
  exists id row w',
    AssignmentSetup.create_assignment (rt := mini_runtime) (env_at backend_down 1)
      short_answer_assignment sample_world = (Ok id, w')
    /\ Models.assignments (Models.db w') !! id = Some row
    /\ Models.title row = "Fractions"
    /\ Models.rubric row = VNone
    /\ Models.stdout w'
       = ["Error generating questions: Error communicating with Ollama: connection refused"].
Proof.
  destruct (create_assignment_survives_the_backend mini_runtime (env_at backend_down 1)
              short_answer_assignment sample_world eq_refl)
    as (id & row & w' & H & _ & Hrow & Htitle & _ & _ & _ & _ & _ & Hdown & _).
  destruct (Hdown "connection refused" eq_refl (fun _ => eq_refl)) as [Hrubric Hout].
  exists id, row, w'. repeat split; assumption.
Defined.

Section CreatedRubric.
Context {rt : PyRuntime}.

Lemma assignment_extract_on_failure (Hrejects : LoadsRejectsNoObject rt)
    text topic num_questions :
  extraction_fails text ->
  OllamaService.assignment_extract text topic num_questions
  = Ok (OllamaService.assignment_fallback topic num_questions).
Proof.
  intros Hfail. destruct (decode_error_of_failed_extraction Hrejects text Hfail) as [msg Hmsg].
  unfold OllamaService.assignment_extract, OllamaService.questions_parse.
  rewrite Hmsg. reflexivity.
Qed.

Lemma quiz_extract_on_failure (Hrejects : LoadsRejectsNoObject rt) text topic :
  extraction_fails text ->
  OllamaService.quiz_extract text topic = Ok (OllamaService.quiz_fallback topic).
Proof.
  intros Hfail. destruct (decode_error_of_failed_extraction Hrejects text Hfail) as [msg Hmsg].
  unfold OllamaService.quiz_extract, OllamaService.questions_parse.
  rewrite Hmsg. reflexivity.
Qed.

Lemma placeholder_questions_text topic :
  exists text,
    OllamaService.questions_text (OllamaService.assignment_fallback topic 5) = Ok text.
Proof.
  unfold OllamaService.questions_text, OllamaService.assignment_fallback.
  cbn -[String.append PyStr.join PyStr.of_Z inject_Z]. eexists; reflexivity.
Qed.

End CreatedRubric.

(** X16.  An assignment of a type that asks for questions, created while
    the model replies with a text from which nothing can be extracted, is
    stored with five placeholder questions under the marker
    [answer_sheet]; the task then takes the answer-sheet branch for its
    submissions, and the prompt of that branch can be built from the
    placeholders. *)
Theorem created_assignment_is_graded_by_answer_sheet
    (rt : PyRuntime) (Hrejects : LoadsRejectsNoObject rt)
    (env : Env) (assignment : AssignmentSetup.AssignmentCreate) (w : Models.World)
    (text : string) :
  AssignmentSetup.wants_questions (AssignmentSetup.ac_assignment_type assignment) = true ->
  (forall prompt, backend env prompt = RawText text) ->
  extraction_fails text ->
  commit_ok env = true ->
  exists id row w' questions,
    AssignmentSetup.create_assignment env assignment w = (Ok id, w')
    /\ Models.assignments (Models.db w') !! id = Some row
    /\ Models.rubric row
       = VDict [("questions", VList questions); ("grading_type", VStr "answer_sheet")]
    /\ length questions = 5%nat
    /\ py_get (Assignments.rubric_or_empty row) "questions" (VList []) = Ok (VList questions)
    /\ Assignments.is_answer_sheet (Assignments.rubric_or_empty row) (VList questions)
       = Ok true
    /\ (exists prompt_text, OllamaService.questions_text (VList questions) = Ok prompt_text)
    /\ Models.stdout w' = (Models.stdout w ++ [])%list.
Proof.
  intros Hwants Hup Hfail Hcommit.
  pose proof (assignment_extract_on_failure Hrejects text
                (AssignmentSetup.ac_title assignment) 5 Hfail) as Hextract.
  destruct (placeholder_questions_text (AssignmentSetup.ac_title assignment))
    as [prompt_text Hprompt].
  unfold OllamaService.assignment_fallback in Hextract, Hprompt.
  exists (Assignments.next_id (Models.assignments (Models.db w))).
  do 3 eexists.
  unfold AssignmentSetup.create_assignment, AssignmentSetup.rubric_with_questions.
  rewrite Hwants. unfold OllamaService.generate_assignment_questions, OllamaService._generate.
  rewrite Hup. cbn [mbind exc_bind]. rewrite Hextract, Hcommit.
  split; [reflexivity|]. cbn [Models.db Models.assignments Models.stdout].
  split; [apply lookup_insert_eq|]. split; [reflexivity|].
  split; [rewrite length_map; apply range_length|].
  split; [reflexivity|]. split; [reflexivity|]. split; [|reflexivity].
  exists prompt_text. exact Hprompt.
Qed.

Lemma created_assignment_is_graded_by_answer_sheet_witness :
  exists id row w' questions,
    AssignmentSetup.create_assignment (rt := mini_runtime)
      (env_at (backend_saying reply_without_json) 1) short_answer_assignment sample_world
    = (Ok id, w')
    /\ Models.assignments (Models.db w') !! id = Some row
    /\ Assignments.is_answer_sheet (Assignments.rubric_or_empty row) (VList questions)
       = Ok true.
Proof.
  destruct (created_assignment_is_graded_by_answer_sheet mini_runtime
              mini_loads_rejects_no_object (env_at (backend_saying reply_without_json) 1)
              short_answer_assignment sample_world reply_without_json)
    as (id & row & w' & questions & H & Hrow & _ & _ & _ & Hsheet & _);
    [reflexivity | intros prompt; reflexivity | left; vm_compute; reflexivity
    | reflexivity |].
  exists id, row, w', questions. repeat split; assumption.
Defined.

(** ** The quiz routes *)

(** X17.  When the course exists, the backend answers and the commit goes
    through:
    - on a reply whose slice [json.loads] parses, or rejects with an error
      that [except (json.JSONDecodeError, ValueError)] catches, the route
      [generate_quiz] stores a quiz: under an id no quiz had, with the
      title and the description made of the topic, two minutes per
      question as time limit and 70 as passing score; earlier quizzes and
      all attempts are kept;
    - on a reply on which [json.loads] raises any other error, the
      [RecursionError] of a deeply nested text for one, the route answers
      500 with the text of that error and stores nothing. *)
Theorem generate_quiz_route_stores_a_quiz
    (rt : PyRuntime) (Hrejects : LoadsRejectsNoObject rt)
    (Hobject : LoadsObjectFromBrace rt)
    (env : Env) (request : Quizzes.QuizCreate) (s : QuizModels.Store) :
  Quizzes.qc_course_id request ∈ QuizModels.courses s ->
  commit_ok env = true ->
  ((forall prompt, exists text,
      backend env prompt = RawText text
      /\ loads_error_caught (OllamaService.json_span text)) ->
   exists id quiz s',
     Quizzes.generate_quiz env request s = (Ok id, s')
     /\ QuizModels.quizzes s !! id = None
     /\ QuizModels.quizzes s' !! id = Some quiz
     /\ QuizModels.course_id quiz = Quizzes.qc_course_id request
     /\ QuizModels.title quiz = "Quiz: " +:+ Quizzes.qc_topic request
     /\ QuizModels.description quiz
        = "A " +:+ Quizzes.qc_difficulty request +:+ " level quiz on "
          +:+ Quizzes.qc_topic request
     /\ QuizModels.time_limit quiz = (Quizzes.qc_num_questions request * 2)%Z
     /\ QuizModels.passing_score quiz = 70%Q
     /\ (forall other q, QuizModels.quizzes s !! other = Some q ->
           QuizModels.quizzes s' !! other = Some q)
     /\ QuizModels.quiz_attempts s' = QuizModels.quiz_attempts s)
  /\ (forall text e,
        (forall prompt, backend env prompt = RawText text) ->
        json_loads (OllamaService.json_span text) = Raise e ->
        json_or_value_error e = false ->
        Quizzes.generate_quiz env request s
        = (Raise (HTTPException 500 ("Error generating quiz: " +:+ exn_str e)), s)).
Proof.
  intros Hcourse Hcommit. split.
  - intros Hup.
    destruct (Hup (QuizPrompt (PyStr.of_Z (Quizzes.qc_num_questions request))
                     (Quizzes.qc_topic request) (Quizzes.qc_difficulty request)))
      as (text & Htext & Hcaught).
    destruct (quiz_extract_returns Hrejects Hobject text (Quizzes.qc_topic request) Hcaught)
      as [questions Hq].
    unfold Quizzes.generate_quiz, Quizzes.generate_quiz_attempt,
      OllamaService.generate_quiz, OllamaService._generate.
    destruct (decide _) as [_|Hn]; [|contradiction].
    rewrite Htext. cbn [mbind exc_bind]. rewrite Hq. cbn [mbind exc_bind]. rewrite Hcommit.
    do 3 eexists. split; [reflexivity|]. cbn.
    split; [apply next_id_fresh|]. split; [apply lookup_insert_eq|].
    repeat (split; [reflexivity|]). split; [|reflexivity].
    intros other q Ho. rewrite lookup_insert_ne; [exact Ho|].
    intros <-. rewrite next_id_fresh in Ho. discriminate.
  - intros text e Hup He Hc.
    unfold Quizzes.generate_quiz, Quizzes.generate_quiz_attempt,
      OllamaService.generate_quiz, OllamaService._generate, OllamaService.quiz_extract.
    destruct (decide _) as [_|Hn]; [|contradiction].
    rewrite Hup. cbn [mbind exc_bind].
    rewrite (questions_parse_on_error _ _ He). cbn [try_except]. rewrite Hc. reflexivity.
Qed.

Lemma generate_quiz_route_stores_a_quiz_witness :
  exists id quiz s',
    Quizzes.generate_quiz (rt := mini_runtime)
      (env_at (backend_saying reply_without_json) 1) fractions_quiz_request quiz_store
    = (Ok id, s')
    /\ QuizModels.quizzes s' !! id = Some quiz
    /\ QuizModels.time_limit quiz = 6%Z.
Proof.
  destruct (generate_quiz_route_stores_a_quiz mini_runtime
              mini_loads_rejects_no_object mini_loads_object_from_brace
              (env_at (backend_saying reply_without_json) 1) fractions_quiz_request
              quiz_store) as [Hstores _];
    [vm_compute; reflexivity | reflexivity |].
  destruct Hstores as (id & quiz & s' & H & _ & Hq & _ & _ & _ & Ht & _).
  { intros prompt. eexists. split; [reflexivity | apply mini_loads_error_caught]. }
  exists id, quiz, s'. repeat split; assumption.
Defined.

(** X18.  [submit_quiz_attempt] either fails and leaves the store as it
    was, or stores the attempt under an id no attempt had: with the
    answers as sent, the score the grader computed from the questions of
    the quiz, and the time of the request; the new attempt is among the
    attempts listed for the student, earlier attempts are kept and the
    quizzes are untouched. *)
Theorem submit_quiz_attempt_stores_the_attempt
    (rt : PyRuntime) (env : Env) (attempt : QuizAttemptCreate) (s : QuizModels.Store) :
  match Quizzes.submit_quiz_attempt env attempt s with
  | (Ok (id, row), s') =>
      QuizModels.quiz_attempts s !! id = None
      /\ QuizModels.quiz_attempts s' !! id = Some row
      /\ (exists quiz, QuizModels.quizzes s !! qa_quiz_id attempt = Some quiz
            /\ Quiz.score_of_attempt (QuizModels.questions quiz) attempt
               = Ok (QuizModels.score row))
      /\ QuizModels.quiz_id row = qa_quiz_id attempt
      /\ QuizModels.student_id row = qa_student_id attempt
      /\ QuizModels.answers row = qa_answers attempt
      /\ QuizModels.completed_at row = now env
      /\ (id, row) ∈ Quizzes.get_student_quiz_attempts (qa_student_id attempt) s'
      /\ (forall other a, QuizModels.quiz_attempts s !! other = Some a ->
            QuizModels.quiz_attempts s' !! other = Some a)
      /\ QuizModels.quizzes s' = QuizModels.quizzes s
  | (Raise e, s') => s' = s
  end.
Proof.
  unfold Quizzes.submit_quiz_attempt.
  destruct (QuizModels.quizzes s !! qa_quiz_id attempt) as [quiz|] eqn:Hquiz; [|reflexivity].
  destruct (decide _) as [Hin|Hnin]; [|reflexivity].
  destruct (Quiz.score_of_attempt _ attempt) as [score|e] eqn:Hscore; [|reflexivity].
  destruct (commit_ok env); [|reflexivity].
  cbn. split; [apply next_id_fresh|]. split; [apply lookup_insert_eq|].
  split; [exists quiz; split; [reflexivity | exact Hscore]|].
  repeat (split; [reflexivity|]).
  split; [|split; [|reflexivity]].
  - unfold Quizzes.get_student_quiz_attempts. apply list_elem_of_filter.
    split; [reflexivity|]. apply elem_of_map_to_list. cbn. apply lookup_insert_eq.
  - intros other a Ho. rewrite lookup_insert_ne; [exact Ho|].
    intros <-. rewrite next_id_fresh in Ho. discriminate.
Qed.

(** X21.  The score [submit_quiz_attempt] computes does not depend on the
    answers of the request: it is the score of the request without
    answers.  The keys of [attempt.answers] are [int], the loop asks for
    [str] keys, and every answer is taken as empty. *)
Theorem quiz_score_never_reads_the_answers
    (questions : value) (attempt : QuizAttemptCreate) :
  Quiz.score_of_attempt questions attempt
  = Quiz.score_of_attempt questions
      {| qa_quiz_id := qa_quiz_id attempt;
         qa_student_id := qa_student_id attempt;
         qa_answers := [] |}.
Proof.
  rewrite !score_of_attempt_ignores_answers. reflexivity.
Qed.

(** X20.  On a dict of answers keyed by the [str] of the question indices,
    which is what the loop asks for, the grading loop computes the score
    as the specification words it, for every list of question objects
    whose points do not add up to a negative total. *)
Theorem quiz_loop_on_str_keys_computes_the_reference_score
    (answers : list (string * string)) (questions : list QuizSpec.Question) :
  (0 <= fst (QuizSpec.totals_from 0 questions (QuizSpec.answer_by_str_key answers) (0, 0)))%Q ->
  Quiz.grade (VList (map QuizSpec.to_value questions)) (str_keyed answers)
  = Ok (QuizSpec.score questions (QuizSpec.answer_by_str_key answers)).
Proof. exact (grade_str_keyed_is_spec answers questions). Qed.

Lemma quiz_loop_on_str_keys_computes_the_reference_score_witness :
  Quiz.grade (VList (map QuizSpec.to_value [true_false_question]))
    (str_keyed [("0", " TRUE ")])
  = Ok (QuizSpec.score [true_false_question]
          (QuizSpec.answer_by_str_key [("0", " TRUE ")])).
Proof.
  apply (quiz_loop_on_str_keys_computes_the_reference_score
           [("0", " TRUE ")] [true_false_question]).
  vm_compute. discriminate.
Defined.

(** ** The lesson-plan route *)

Section LessonPlanReturns.
Context {rt : PyRuntime}.

(** What the [try] block of [generate_lesson_plan] raises is a
    [ValueError] of its own or the error of [json.loads]. *)
Lemma lesson_plan_parse_raises response e :
  OllamaService.lesson_plan_parse response = Raise e ->
  json_or_value_error e = true
  \/ json_loads (PyStr.strip (OllamaService.json_span response)) = Raise e.
Proof.
  unfold OllamaService.lesson_plan_parse.
  destruct (_ || _); [intros [= <-]; left; reflexivity|].
  fold (OllamaService.json_span response).
  destruct (json_loads _) as [v|e'] eqn:Hl; cbn [mbind exc_bind].
  - destruct v as [| | | | |fields]; try (intros [= <-]; left; reflexivity).
    destruct (dict_lookup fields "materials") as [[]|]; discriminate.
  - intros [= <-]. right. reflexivity.
Qed.

Lemma lesson_plan_extract_returns response topic learning_objectives :
  loads_error_caught (PyStr.strip (OllamaService.json_span response)) ->
  exists printed plan,
    OllamaService.lesson_plan_extract response topic learning_objectives
    = (printed, Ok plan).
Proof.
  intros Hcaught. unfold OllamaService.lesson_plan_extract.
  destruct (OllamaService.lesson_plan_parse response) as [plan|e] eqn:Hp;
    [do 2 eexists; reflexivity|].
  assert (He : json_or_value_error e = true)
    by (destruct (lesson_plan_parse_raises _ _ Hp) as [H | H]; [exact H | exact (Hcaught _ H)]).
  rewrite He. do 2 eexists; reflexivity.
Qed.

End LessonPlanReturns.

(** X19.  When the course exists, the backend answers and the commit goes
    through, the route [generate_lesson_plan] stores a plan on every reply
    whose stripped slice [json.loads] parses, or rejects with an error
    that [except (json.JSONDecodeError, ValueError)] catches: under an id
    no plan had and with the duration of the request.  For a reply without
    braces the row is the fallback plan: title and content as the service
    sets them, three materials, one activity, no standards.  On a reply
    with both braces on which [json.loads] raises any other error, the
    [RecursionError] of a deeply nested text for one, the route answers
    500 with the text of that error and stores no plan. *)
Theorem lesson_plan_route_stores_a_plan
    (rt : PyRuntime)
    (env : Env) (request : LessonPlans.LessonPlanCreate) (s : LessonPlans.Store)
    (text : string) :
  LessonPlans.lc_course_id request ∈ LessonPlans.courses s ->
  (forall prompt, backend env prompt = RawText text) ->
  commit_ok env = true ->
  (loads_error_caught (PyStr.strip (OllamaService.json_span text)) ->
   exists id row s',
     LessonPlans.generate_lesson_plan env request s = (Ok (id, row), s')
     /\ LessonPlans.lesson_plans s !! id = None
     /\ LessonPlans.lesson_plans s' !! id = Some row
     /\ LessonPlans.course_id row = LessonPlans.lc_course_id request
     /\ LessonPlans.duration row = LessonPlans.lc_duration request
     /\ (forall other p, LessonPlans.lesson_plans s !! other = Some p ->
           LessonPlans.lesson_plans s' !! other = Some p)
     /\ (PyStr.find "{" text = (-1)%Z \/ PyStr.rfind "}" text = (-1)%Z ->
         LessonPlans.title row = VStr ("Lesson: " +:+ LessonPlans.lc_topic request)
         /\ LessonPlans.content row
            = VStr (if (String.length text <? 500)%nat then text else "Lesson plan content")
         /\ LessonPlans.materials row
            = VList [VStr "Textbook"; VStr "Whiteboard"; VStr "Handouts"]
         /\ LessonPlans.standards_aligned row = VList []
         /\ exists activity, LessonPlans.activities row = VList [activity]))
  /\ (forall e,
        PyStr.find "{" text <> (-1)%Z -> PyStr.rfind "}" text <> (-1)%Z ->
        json_loads (PyStr.strip (OllamaService.json_span text)) = Raise e ->
        json_or_value_error e = false ->
        LessonPlans.generate_lesson_plan env request s
        = (Raise (HTTPException 500 ("Error generating lesson plan: " +:+ exn_str e)),
           {| LessonPlans.courses := LessonPlans.courses s;
              LessonPlans.lesson_plans := LessonPlans.lesson_plans s;
              LessonPlans.stdout := (LessonPlans.stdout s ++ [])%list |})).
Proof.
  intros Hcourse Hup Hcommit. split.
  - intros Hcaught.
    destruct (lesson_plan_extract_returns text (LessonPlans.lc_topic request)
                (LessonPlans.lc_learning_objectives request) Hcaught)
      as (printed & plan & Hplan).
    unfold LessonPlans.generate_lesson_plan, OllamaService.generate_lesson_plan,
      OllamaService._generate.
    destruct (decide _) as [_|Hn]; [|contradiction].
    rewrite Hup, Hplan, Hcommit.
    do 3 eexists. split; [reflexivity|]. cbn [LessonPlans.lesson_plans].
    split; [apply next_id_fresh|]. split; [apply lookup_insert_eq|].
    split; [reflexivity|]. split; [reflexivity|]. split.
    + intros other p Ho. rewrite lookup_insert_ne; [exact Ho|].
      intros <-. rewrite next_id_fresh in Ho. discriminate.
    + intros Hnone.
      assert (Hfb : plan = OllamaService.lesson_plan_fallback text
                             (LessonPlans.lc_topic request)
                             (LessonPlans.lc_learning_objectives request)).
      { revert Hplan. unfold OllamaService.lesson_plan_extract,
          OllamaService.lesson_plan_parse.
        assert (Hb : (PyStr.find "{" text =? -1)%Z || (PyStr.rfind "}" text + 1 =? 0)%Z
                     = true).
        { destruct Hnone as [-> | ->]; [reflexivity | apply orb_true_r]. }
        rewrite Hb. cbn. intros [= _ <-]. reflexivity. }
      rewrite Hfb. unfold LessonPlans.row_of_result. cbn.
      repeat split. eexists; reflexivity.
  - intros e Hopen Hclose He Hc.
    unfold LessonPlans.generate_lesson_plan, OllamaService.generate_lesson_plan,
      OllamaService._generate.
    destruct (decide _) as [_|Hn]; [|contradiction].
    rewrite Hup. unfold OllamaService.lesson_plan_extract, OllamaService.lesson_plan_parse.
    destruct (PyStr.find "{" text =? -1)%Z eqn:E1; [apply Z.eqb_eq in E1; contradiction|].
    destruct (PyStr.rfind "}" text + 1 =? 0)%Z eqn:E2; [apply Z.eqb_eq in E2; lia|].
    cbn [orb]. fold (OllamaService.json_span text). rewrite He. cbn [mbind exc_bind].
    rewrite Hc. reflexivity.
Qed.

Lemma lesson_plan_route_stores_a_plan_witness :
  exists id row s',
    LessonPlans.generate_lesson_plan (rt := mini_runtime)
      (env_at (backend_saying reply_without_json) 1) fractions_lesson_request lesson_store
    = (Ok (id, row), s')
    /\ LessonPlans.title row = VStr "Lesson: Fractions"
    /\ LessonPlans.content row = VStr reply_without_json.
Proof.
  destruct (lesson_plan_route_stores_a_plan mini_runtime
              (env_at (backend_saying reply_without_json) 1) fractions_lesson_request
              lesson_store reply_without_json) as [Hstores _];
    [vm_compute; reflexivity | intros prompt; reflexivity | reflexivity |].
  destruct (Hstores (mini_loads_error_caught _))
    as (id & row & s' & H & _ & _ & _ & _ & _ & Hfb).
  destruct Hfb as (Ht & Hc & _); [left; vm_compute; reflexivity|].
  exists id, row, s'. repeat split; assumption.
Defined.

(** ** The rubric scores of an answer sheet *)

Section RubricScores.
Context {rt : PyRuntime}.

Lemma dict_set_keeps d k v k' : is_Some (dict_lookup d k') -> is_Some (dict_lookup (dict_set d k v) k').
Proof.
  intros H. destruct (String.eqb_spec k' k) as [->|Hne].
  - rewrite dict_lookup_set_eq. eauto.
  - rewrite dict_lookup_set_ne by exact Hne. exact H.
Qed.

Lemma rubric_entries_keeps answers : forall acc scores key,
  OllamaService.rubric_entries acc answers = Ok scores ->
  is_Some (dict_lookup acc key) -> is_Some (dict_lookup scores key).
Proof.
  induction answers as [|ans rest IH]; intros acc scores key; cbn [OllamaService.rubric_entries].
  - intros [= <-] H. exact H.
  - destruct (OllamaService.rubric_entry acc ans) as [acc'|] eqn:He; [|discriminate].
    cbn [mbind exc_bind]. intros Hrest Hkey. apply (IH _ _ _ Hrest).
    revert He. unfold OllamaService.rubric_entry.
    destruct (py_item ans "question_number") as [n|]; [|discriminate]. cbn [mbind exc_bind].
    destruct (py_get ans "score" _) as [sc|]; [|discriminate]. cbn [mbind exc_bind].
    destruct (py_get ans "feedback" _) as [fb|]; [|discriminate]. cbn [mbind exc_bind].
    intros [= <-]. apply dict_set_keeps. exact Hkey.
Qed.

Lemma rubric_entries_covers answers : forall acc scores,
  OllamaService.rubric_entries acc answers = Ok scores ->
  Forall (fun ans => exists a n, ans = VDict a
            /\ dict_lookup a "question_number" = Some n
            /\ is_Some (dict_lookup scores ("Question " +:+ py_str n))) answers.
Proof.
  induction answers as [|ans rest IH]; intros acc scores; cbn [OllamaService.rubric_entries].
  - intros _. constructor.
  - destruct (OllamaService.rubric_entry acc ans) as [acc'|] eqn:He; [|discriminate].
    cbn [mbind exc_bind]. intros Hrest. constructor; [|exact (IH _ _ Hrest)].
    revert He. unfold OllamaService.rubric_entry.
    destruct ans as [| | | | |a]; try discriminate. cbn [py_item py_get]. unfold dict_item.
    destruct (dict_lookup a "question_number") as [n|] eqn:Hn; [|discriminate].
    cbn [mbind exc_bind]. intros [= <-]. exists a, n. split; [reflexivity|].
    split; [exact Hn|]. apply (rubric_entries_keeps _ _ _ _ Hrest).
    rewrite dict_lookup_set_eq. eauto.
Qed.

Lemma rubric_entries_last answers : forall acc ans scores a n,
  OllamaService.rubric_entries acc (answers ++ [ans]) = Ok scores ->
  ans = VDict a -> dict_lookup a "question_number" = Some n ->
  dict_lookup scores ("Question " +:+ py_str n)
  = Some (VDict [ ("score", dict_get a "score" (VNum 0));
                  ("feedback", dict_get a "feedback" (VStr EmptyString)) ]).
Proof.
  induction answers as [|x rest IH]; intros acc ans scores a n;
    cbn [app OllamaService.rubric_entries].
  - intros H -> Hn. revert H. unfold OllamaService.rubric_entry. cbn [py_item py_get].
    unfold dict_item. rewrite Hn. cbn [mbind exc_bind]. intros [= <-].
    apply dict_lookup_set_eq.
  - destruct (OllamaService.rubric_entry acc x) as [acc'|]; [|discriminate].
    cbn [mbind exc_bind]. apply IH.
Qed.

End RubricScores.

(** X22.  When answer-sheet grading returns the parsed result of a reply,
    every parsed answer is an object with a [question_number], and the
    [rubric_scores] returned have an entry under [Question <number>] for
    each of them; the entry of the number of the last answer holds the score
    and the feedback of that answer (0 and the empty text when absent), so
    that of two answers with the same number the later one is kept. *)
Theorem answer_sheet_rubric_scores_cover_the_answers
    (rt : PyRuntime) (response : string) (d : pydict) (answers : list value)
    (result : pydict) :
  json_loads (OllamaService.json_span response) = Ok (VDict d) ->
  py_iter (dict_get d "parsed_answers" (VList [])) = Ok answers ->
  OllamaService.answer_sheet_parse response = Ok result ->
  exists scores,
    dict_lookup result "rubric_scores" = Some (VDict scores)
    /\ Forall (fun ans => exists a n, ans = VDict a
                 /\ dict_lookup a "question_number" = Some n
                 /\ is_Some (dict_lookup scores ("Question " +:+ py_str n))) answers
    /\ (forall earlier a n,
          answers = (earlier ++ [VDict a])%list ->
          dict_lookup a "question_number" = Some n ->
          dict_lookup scores ("Question " +:+ py_str n)
          = Some (VDict [ ("score", dict_get a "score" (VNum 0));
                          ("feedback", dict_get a "feedback" (VStr EmptyString)) ])).
Proof.
  intros Hparse Hiter. unfold OllamaService.answer_sheet_parse.
  rewrite Hparse. cbn [mbind exc_bind py_get]. rewrite Hiter. cbn [mbind exc_bind].
  destruct (OllamaService.rubric_entries [] answers) as [scores|] eqn:Hs; [|discriminate].
  cbn [mbind exc_bind]. intros [= <-]. exists scores.
  split; [reflexivity|]. split; [exact (rubric_entries_covers _ _ _ Hs)|].
  intros earlier a n -> Hn. exact (rubric_entries_last _ _ _ _ _ _ Hs eq_refl Hn).
Qed.

Lemma answer_sheet_rubric_scores_cover_the_answers_witness :
  exists result scores,
    OllamaService.answer_sheet_parse (rt := mini_runtime) reply_two_answers = Ok result
    /\ dict_lookup result "rubric_scores" = Some (VDict scores)
    /\ dict_lookup scores "Question 1"
       = Some (VDict [("score", VNum 7); ("feedback", VStr "better")]).
Proof.
  destruct (OllamaService.answer_sheet_parse (rt := mini_runtime) reply_two_answers)
    as [result|] eqn:Hresult; [|vm_compute in Hresult; discriminate Hresult].
  destruct (answer_sheet_rubric_scores_cover_the_answers mini_runtime reply_two_answers
              [("parsed_answers",
                VList [ VDict [("question_number", VNum 1); ("score", VNum 4)];
                        VDict [("question_number", VNum 1); ("score", VNum 7);
                               ("feedback", VStr "better")] ])]
              [ VDict [("question_number", VNum 1); ("score", VNum 4)];
                VDict [("question_number", VNum 1); ("score", VNum 7);
                       ("feedback", VStr "better")] ]
              result)
    as (scores & Hscores & _ & Hlast);
    [vm_compute; reflexivity | reflexivity | exact Hresult|].
  exists result, scores. split; [reflexivity|]. split; [exact Hscores|].
  exact (Hlast [VDict [("question_number", VNum 1); ("score", VNum 4)]]
           [("question_number", VNum 1); ("score", VNum 7); ("feedback", VStr "better")]
           (VNum 1) eq_refl eq_refl).
Defined.

(** ** Failures of the routes *)

(** X23.  The manual route asks the backend for an essay grade and for
    nothing else: two backends that give the same replies to essay prompts
    lead to the same answer and the same store, whatever they reply to the
    other prompts, and whatever the rubric of the assignment. *)
Theorem manual_route_depends_on_essay_replies_only
    (rt : PyRuntime) (env1 env2 : Env) (submission_id : Z) (w : Models.World) :
  (forall rubric_str essay max_points,
     backend env1 (EssayPrompt rubric_str essay max_points)
     = backend env2 (EssayPrompt rubric_str essay max_points)) ->
  now env1 = now env2 ->
  commit_ok env1 = commit_ok env2 ->
  Assignments.grade_submission_manual env1 submission_id w
  = Assignments.grade_submission_manual env2 submission_id w.
Proof. exact (grade_submission_manual_reads_essay_replies env1 env2 submission_id w). Qed.

Lemma manual_route_depends_on_essay_replies_only_witness :
  Assignments.grade_submission_manual (rt := mini_runtime)
    (env_at backend_by_prompt 7) 2 sample_world
  = Assignments.grade_submission_manual (rt := mini_runtime)
      (env_at (backend_saying reply_essay) 7) 2 sample_world.
Proof.
  apply manual_route_depends_on_essay_replies_only; reflexivity.
Defined.

(** X24.  When the backend cannot be reached, the manual route fails with
    the status 500 and the text of the communication error, and leaves the
    store as it was; for an unknown submission it fails with 404. *)
Theorem manual_route_reports_backend_failure
    (rt : PyRuntime) (env : Env) (submission_id : Z) (w : Models.World) (cause : string) :
  (forall prompt, backend env prompt = CommunicationFailure cause) ->
  match Models.submissions (Models.db w) !! submission_id with
  | None =>
      Assignments.grade_submission_manual env submission_id w
      = (Raise (HTTPException 404 "Submission not found"), w)
  | Some submission =>
      is_Some (Models.assignments (Models.db w) !! Models.assignment_id submission) ->
      Assignments.grade_submission_manual env submission_id w
      = (Raise (HTTPException 500
                  ("Error grading submission: Error communicating with Ollama: "
                   +:+ cause)), w)
  end.
Proof.
  intros Hdown. unfold Assignments.grade_submission_manual.
  destruct (Models.submissions (Models.db w) !! submission_id) as [s|]; [|reflexivity].
  intros [a ->]. unfold Assignments.manual_attempt, OllamaService.grade_essay,
    OllamaService._generate.
  rewrite Hdown. reflexivity.
Qed.

Lemma manual_route_reports_backend_failure_witness :
  Assignments.grade_submission_manual (rt := mini_runtime) (env_at backend_down 7) 1
    sample_world
  = (Raise (HTTPException 500
              "Error grading submission: Error communicating with Ollama: connection refused"),
     sample_world).
Proof.
  pose proof (manual_route_reports_backend_failure mini_runtime (env_at backend_down 7) 1
                sample_world "connection refused" (fun _ => eq_refl)) as H.
  assert (Hs : Models.submissions (Models.db sample_world) !! 1%Z
               = Some (ungraded 1 "My essay.")) by (vm_compute; reflexivity).
  rewrite Hs in H. apply H. eexists. vm_compute. reflexivity.
Defined.

(** X25.  The routes that generate a quiz and a lesson plan fail with 404
    for an unknown course and with 500, carrying the text of the
    communication error, when the backend cannot be reached; in both cases
    nothing is stored. *)
Theorem generation_routes_report_failures
    (rt : PyRuntime) (env : Env) (quiz : Quizzes.QuizCreate) (qs : QuizModels.Store)
    (lesson : LessonPlans.LessonPlanCreate) (ls : LessonPlans.Store) (cause : string) :
  (Quizzes.qc_course_id quiz ∉ QuizModels.courses qs ->
   Quizzes.generate_quiz env quiz qs = (Raise (HTTPException 404 "Course not found"), qs))
  /\ (LessonPlans.lc_course_id lesson ∉ LessonPlans.courses ls ->
      LessonPlans.generate_lesson_plan env lesson ls
      = (Raise (HTTPException 404 "Course not found"), ls))
  /\ ((forall prompt, backend env prompt = CommunicationFailure cause) ->
      (Quizzes.qc_course_id quiz ∈ QuizModels.courses qs ->
       Quizzes.generate_quiz env quiz qs
       = (Raise (HTTPException 500
                   ("Error generating quiz: Error communicating with Ollama: " +:+ cause)),
          qs))
      /\ (LessonPlans.lc_course_id lesson ∈ LessonPlans.courses ls ->
          exists ls',
            LessonPlans.generate_lesson_plan env lesson ls
            = (Raise (HTTPException 500
                        ("Error generating lesson plan: Error communicating with Ollama: "
                         +:+ cause)), ls')
            /\ LessonPlans.lesson_plans ls' = LessonPlans.lesson_plans ls
            /\ LessonPlans.stdout ls' = (LessonPlans.stdout ls ++ [])%list)).
Proof.
  split; [|split].
  - intros Hn. unfold Quizzes.generate_quiz. destruct (decide _); [contradiction | reflexivity].
  - intros Hn. unfold LessonPlans.generate_lesson_plan.
    destruct (decide _); [contradiction | reflexivity].
  - intros Hdown. split; intros Hin.
    + unfold Quizzes.generate_quiz, Quizzes.generate_quiz_attempt,
        OllamaService.generate_quiz, OllamaService._generate.
      destruct (decide _); [|contradiction]. rewrite Hdown. reflexivity.
    + unfold LessonPlans.generate_lesson_plan, OllamaService.generate_lesson_plan,
        OllamaService._generate.
      destruct (decide _); [|contradiction]. rewrite Hdown.
      eexists. split; [reflexivity|]. split; reflexivity.
Qed.

Lemma generation_routes_report_failures_witness :
  Quizzes.generate_quiz (rt := mini_runtime) (env_at backend_down 1)
    fractions_quiz_request quiz_store
  = (Raise (HTTPException 500
              "Error generating quiz: Error communicating with Ollama: connection refused"),
     quiz_store).
Proof.
  destruct (generation_routes_report_failures mini_runtime (env_at backend_down 1)
              fractions_quiz_request quiz_store fractions_lesson_request lesson_store
              "connection refused") as (_ & _ & Hdown).
  destruct (Hdown (fun _ => eq_refl)) as [Hquiz _].
  apply Hquiz. vm_compute. reflexivity.
Defined.

(** ** From the submission to the grade *)

(** X26.  A submission accepted by [submit_assignment] for an assignment
    that is not graded by answer sheet is graded by the next run of the
    task on its id, as long as the backend answers, [json.loads] parses the
    slice of the reply or rejects it with an error that
    [except (json.JSONDecodeError, ValueError)] catches, and the commit
    goes through: the stored record keeps the content sent and has
    [graded_at] set. *)
Theorem submitted_essay_gets_graded
    (rt : PyRuntime) (Hrejects : LoadsRejectsNoObject rt)
    (Hobject : LoadsObjectFromBrace rt)
    (env1 env2 : Env) (submission : Assignments.SubmissionCreate) (w w1 : Models.World)
    (id : Z) (assignment : Models.Assignment) (questions : value) :
  Assignments.submit_assignment env1 submission w = (Ok id, w1) ->
  Models.assignments (Models.db w) !! Assignments.sc_assignment_id submission
    = Some assignment ->
  py_get (Assignments.rubric_or_empty assignment) "questions" (VList []) = Ok questions ->
  Assignments.is_answer_sheet (Assignments.rubric_or_empty assignment) questions = Ok false ->
  (forall prompt, exists text,
     backend env2 prompt = RawText text
     /\ loads_error_caught (OllamaService.json_span text)) ->
  commit_ok env2 = true ->
  exists graded,
    Models.submissions
      (Models.db (snd (Assignments.grade_submission_task env2 id w1))) !! id = Some graded
    /\ Models.graded_at graded = Some (now env2)
    /\ Models.content graded = Assignments.sc_content submission.
Proof.
  intros Hsubmit Ha Hq Hsheet Hup Hcommit.
  revert Hsubmit. unfold Assignments.submit_assignment. rewrite Ha.
  destruct (decide _) as [Hin|]; [|discriminate].
  unfold Assignments.commit. destruct (commit_ok env1); [|discriminate].
  intros [= <- <-].
  set (row := {| Models.assignment_id := Assignments.sc_assignment_id submission;
                 Models.student_id := Assignments.sc_student_id submission;
                 Models.content := Assignments.sc_content submission;
                 Models.score := VNone; Models.feedback := VNone;
                 Models.rubric_scores := VNone; Models.graded_at := None |}).
  destruct (essay_task_grades rt Hrejects Hobject env2
              (Assignments.next_id (Models.submissions (Models.db w)))
              {| Models.db := Assignments.with_submission (Models.db w)
                                (Assignments.next_id (Models.submissions (Models.db w))) row;
                 Models.stdout := Models.stdout w |}
              row assignment questions)
    as (graded & Hg & Ht & Hc & _);
    [cbn; apply lookup_insert_eq | exact Ha | exact Hq | exact Hsheet | exact Hup
    | exact Hcommit |].
  exists graded. split; [exact Hg|]. split; [exact Ht | exact Hc].
Qed.

Lemma submitted_essay_gets_graded_witness :
  exists graded,
    Models.submissions
      (Models.db (snd (Assignments.grade_submission_task (rt := mini_runtime)
                         (env_at (backend_saying reply_without_json) 9) 1
                         after_submission))) !! 1%Z = Some graded
    /\ Models.graded_at graded = Some 9%Z
    /\ Models.content graded = "My essay.".
Proof.
  apply (submitted_essay_gets_graded mini_runtime mini_loads_rejects_no_object
           mini_loads_object_from_brace
           (env_at backend_null_score 5) (env_at (backend_saying reply_without_json) 9)
           first_submission courses_only after_submission 1 essay_assignment (VList [])).
  - vm_compute. reflexivity.
  - vm_compute. reflexivity.
  - reflexivity.
  - reflexivity.
  - intros prompt. eexists. split; [reflexivity | apply mini_loads_error_caught].
  - reflexivity.
Defined.
